(** * MP2D harness of QCEngine: plant, execute, harvest

    A shallow embedding of [qcengine/programs/mp2d.py]: the command
    formatter [mp2d_coeff_formatter], the planner [mp2d_plant], the
    harvester [mp2d_harvest] and the orchestrator [run_json], followed by
    the properties of the protocol.

    Python text is modelled by [string]; a character stands for the code
    point of the same number (the output of the MP2D executable is plain
    7-bit text).  Python dictionaries keep their insertion order and are
    modelled by association lists. *)

From Stdlib Require Import String Ascii List Bool Arith NArith ZArith Lia.
From Stdlib Require Import DecimalString.
Import ListNotations.

Open Scope string_scope.
Open Scope list_scope.

Notation "a ^^ b" := (String.append a b) (at level 60, right associativity).

(* ================================================================== *)
(** ** Python string methods used by the harness *)

Module PyStr.

(** [str.isspace] on one character, for code points below 256. *)
Definition isspace (c : ascii) : bool :=
  let n := N_of_ascii c in
  (((9 <=? n) && (n <=? 13)) || ((28 <=? n) && (n <=? 32))
   || (n =? 133) || (n =? 160))%N.

(** Line boundaries of [str.splitlines]: LF, VT, FF, CR, FS, GS, RS, NEL. *)
Definition islinebreak (c : ascii) : bool :=
  let n := N_of_ascii c in
  (((10 <=? n) && (n <=? 13)) || ((28 <=? n) && (n <=? 30)) || (n =? 133))%N.

Definition is_cr (c : ascii) : bool := (N_of_ascii c =? 13)%N.
Definition is_lf (c : ascii) : bool := (N_of_ascii c =? 10)%N.

(** [s.startswith(p)]; also [re.match(p, s)] for a pattern [p] without
    metacharacters. *)
Fixpoint startswith (p s : string) : bool :=
  match p, s with
  | EmptyString, _ => true
  | String a p', String b s' => Ascii.eqb a b && startswith p' s'
  | String _ _, EmptyString => false
  end.

(** [p in s]; also [re.search(p, s)] for a pattern without
    metacharacters. *)
Fixpoint contains (p s : string) : bool :=
  startswith p s ||
  match s with
  | EmptyString => false
  | String _ s' => contains p s'
  end.

(** [s.replace(old, new)] for a non-empty [old]: the occurrences are
    replaced from the left and do not overlap.  [skip] counts the
    characters of a matched occurrence that are still to be dropped. *)
Fixpoint replace_from (old new : string) (skip : nat) (s : string) : string :=
  match s with
  | EmptyString => EmptyString
  | String c s' =>
      match skip with
      | S k => replace_from old new k s'
      | O =>
          if startswith old s
          then new ^^ replace_from old new (String.length old - 1) s'
          else String c (replace_from old new 0 s')
      end
  end.

Definition replace (old new s : string) : string := replace_from old new 0 s.

Fixpoint lstrip (s : string) : string :=
  match s with
  | EmptyString => EmptyString
  | String c s' => if isspace c then lstrip s' else s
  end.

Fixpoint rstrip (s : string) : string :=
  match s with
  | EmptyString => EmptyString
  | String c s' =>
      match rstrip s' with
      | EmptyString => if isspace c then EmptyString else String c EmptyString
      | r => String c r
      end
  end.

Definition strip (s : string) : string := rstrip (lstrip s).

Definition lower_char (c : ascii) : ascii :=
  let n := N_of_ascii c in
  if ((65 <=? n) && (n <=? 90))%N then ascii_of_N (n + 32) else c.

Definition upper_char (c : ascii) : ascii :=
  let n := N_of_ascii c in
  if ((97 <=? n) && (n <=? 122))%N then ascii_of_N (n - 32) else c.

Fixpoint map_chars (f : ascii -> ascii) (s : string) : string :=
  match s with
  | EmptyString => EmptyString
  | String c s' => String (f c) (map_chars f s')
  end.

(** [s.lower()] and [s.upper()] on 7-bit text. *)
Definition lower : string -> string := map_chars lower_char.
Definition upper : string -> string := map_chars upper_char.

Definition flush (cur : string) : list string :=
  match cur with
  | EmptyString => []
  | _ => [cur]
  end.

(** [s.split()]: the maximal runs of characters that are not spaces. *)
Fixpoint split_from (cur : string) (s : string) : list string :=
  match s with
  | EmptyString => flush cur
  | String c s' =>
      if isspace c then flush cur ++ split_from EmptyString s'
      else split_from (cur ^^ String c EmptyString) s'
  end.

Definition split (s : string) : list string := split_from EmptyString s.

(** [s.splitlines()]: CR LF counts as one boundary, and a final line
    without any character is not reported. *)
Fixpoint splitlines_from (cur : string) (s : string) : list string :=
  match s with
  | EmptyString => flush cur
  | String c s' =>
      if islinebreak c then
        cur :: (if is_cr c
                then match s' with
                     | String d s'' =>
                         if is_lf d then splitlines_from EmptyString s''
                         else splitlines_from EmptyString s'
                     | EmptyString => []
                     end
                else splitlines_from EmptyString s')
      else splitlines_from (cur ^^ String c EmptyString) s'
  end.

Definition splitlines (s : string) : list string :=
  splitlines_from EmptyString s.

Fixpoint remove_char (x : ascii) (s : string) : string :=
  match s with
  | EmptyString => EmptyString
  | String c s' =>
      if Ascii.eqb x c then remove_char x s' else String c (remove_char x s')
  end.

Fixpoint join (sep : string) (l : list string) : string :=
  match l with
  | [] => EmptyString
  | [x] => x
  | x :: l' => x ^^ sep ^^ join sep l'
  end.

(** [repr] of a key made of printable characters other than the quote
    and the backslash. *)
Definition repr (s : string) : string := "'" ^^ s ^^ "'".

End PyStr.

(* ================================================================== *)
(** ** [decimal.Decimal] values and their construction from text *)

Module Dec.

(** A decimal number is a sign, a coefficient and an exponent (the
    value of a finite one is [(-1)^sign * coefficient * 10^exponent]),
    or one of the special values. *)
Inductive Decimal : Type :=
| Finite (sign : bool) (coefficient : N) (exponent : Z)
| Infinity (sign : bool)
| NaN (sign : bool) (signaling : bool) (payload : N).

Definition digit_of (c : ascii) : option N :=
  let n := N_of_ascii c in
  if ((48 <=? n) && (n <=? 57))%N then Some (n - 48)%N else None.

(** Reads the longest run of digits in front of [s]: the number read
    after [acc], the count of digits added to [cnt], and the rest. *)
Fixpoint span_digits (acc : N) (cnt : nat) (s : string) : N * nat * string :=
  match s with
  | EmptyString => (acc, cnt, EmptyString)
  | String c s' =>
      match digit_of c with
      | Some d => span_digits (10 * acc + d)%N (S cnt) s'
      | None => (acc, cnt, s)
      end
  end.

Definition split_sign (s : string) : bool * string :=
  match s with
  | String c r =>
      if Ascii.eqb c "-" then (true, r)
      else if Ascii.eqb c "+" then (false, r)
      else (false, s)
  | EmptyString => (false, s)
  end.

(** The lookahead of the number syntax: a digit, or a point and a digit. *)
Definition starts_number (s : string) : bool :=
  match s with
  | String c r =>
      match digit_of c with
      | Some _ => true
      | None =>
          Ascii.eqb c "." &&
          match r with
          | String d _ => match digit_of d with Some _ => true | None => false end
          | EmptyString => false
          end
      end
  | EmptyString => false
  end.

(** The exponent part: [E], an optional sign, at least one digit, and
    nothing after. *)
Definition parse_exponent (s : string) : option Z :=
  match s with
  | String e r =>
      if Ascii.eqb (PyStr.lower_char e) "e" then
        let '(neg, r1) := split_sign r in
        match span_digits 0 0 r1 with
        | (_, O, _) => None
        | (n, S _, EmptyString) =>
            Some (if neg then (- Z.of_N n)%Z else Z.of_N n)
        | (_, S _, String _ _) => None
        end
      else None
  | EmptyString => Some 0%Z
  end.

Definition parse_finite (sign : bool) (s : string) : option Decimal :=
  let '(i, _, s2) := span_digits 0 0 s in
  let '(coeff, nfrac, s3) :=
    match s2 with
    | String c r => if Ascii.eqb c "." then span_digits i 0 r else (i, O, s2)
    | EmptyString => (i, O, s2)
    end in
  match parse_exponent s3 with
  | Some e => Some (Finite sign coeff (e - Z.of_nat nfrac)%Z)
  | None => None
  end.

Definition parse_nan (sign signaling : bool) (diag : string) : option Decimal :=
  match span_digits 0 0 diag with
  | (n, _, EmptyString) => Some (NaN sign signaling n)
  | (_, _, String _ _) => None
  end.

Definition parse_special (sign : bool) (s : string) : option Decimal :=
  let l := PyStr.lower s in
  if String.eqb l "inf" || String.eqb l "infinity" then Some (Infinity sign)
  else if PyStr.startswith "nan" l then parse_nan sign false (substring 3 (String.length l) l)
  else if PyStr.startswith "snan" l then parse_nan sign true (substring 4 (String.length l) l)
  else None.

(** [Decimal(value)] for a string: the text is stripped, underscores
    are dropped, and the whole of it has to be a number; [None] stands
    for [decimal.InvalidOperation]. *)
Definition of_string (value : string) : option Decimal :=
  let s := PyStr.remove_char "_" (PyStr.strip value) in
  let '(sign, s1) := split_sign s in
  if starts_number s1 then parse_finite sign s1 else parse_special sign s1.

End Dec.

(* ================================================================== *)
(** ** Exceptions, results and dictionaries *)

(** The exceptions the harness can meet.  [InputError] and
    [UnknownError] are QCEngine's own classes; [UnboundLocalError] (a
    [NameError]) is the read of a local variable no statement has
    assigned; [Foreign] is whatever a collaborator raises. *)
Inductive exn : Type :=
| InputError (msg : string)
| UnknownError (msg : string)
| UnboundLocalError (var : string)
| KeyError (key : string)
| IndexError (msg : string)
| InvalidOperation
| ValueError (msg : string)
| Foreign (cls msg : string).

(** [type(exc).__name__] *)
Definition exn_name (e : exn) : string :=
  match e with
  | InputError _ => "InputError"
  | UnknownError _ => "UnknownError"
  | UnboundLocalError _ => "UnboundLocalError"
  | KeyError _ => "KeyError"
  | IndexError _ => "IndexError"
  | InvalidOperation => "InvalidOperation"
  | ValueError _ => "ValueError"
  | Foreign cls _ => cls
  end.

(** [except NameError] catches the read of an unassigned local. *)
Definition is_NameError (e : exn) : bool :=
  match e with
  | UnboundLocalError _ => true
  | _ => false
  end.

Inductive result (A : Type) : Type :=
| Ok (a : A)
| Raise (e : exn).
Arguments Ok {A} a.
Arguments Raise {A} e.

Definition rbind {A B : Type} (r : result A) (k : A -> result B) : result B :=
  match r with
  | Ok a => k a
  | Raise e => Raise e
  end.

Notation "x <-? r ;; k" := (rbind r (fun x => k))
  (at level 61, r at next level, right associativity).

Module Dict.

Definition t (V : Type) : Type := list (string * V).

(** [d.get(k)] *)
Fixpoint get {V : Type} (k : string) (d : t V) : option V :=
  match d with
  | [] => None
  | (k', v) :: d' => if String.eqb k k' then Some v else get k d'
  end.

(** [d[k]] *)
Definition getitem {V : Type} (k : string) (d : t V) : result V :=
  match get k d with
  | Some v => Ok v
  | None => Raise (KeyError k)
  end.

(** [d[k] = v]: a key already there keeps its place. *)
Fixpoint set {V : Type} (k : string) (v : V) (d : t V) : t V :=
  match d with
  | [] => [(k, v)]
  | (k', v') :: d' =>
      if String.eqb k k' then (k', v) :: d' else (k', v') :: set k v d'
  end.

Definition keys {V : Type} (d : t V) : list string := map fst d.

(** [{k: v for (k, v) in items}] *)
Definition of_items {V : Type} (items : list (string * V)) : t V :=
  fold_left (fun d kv => set (fst kv) (snd kv) d) items [].

Definition map_values {V W : Type} (f : V -> W) (d : t V) : t W :=
  map (fun kv => (fst kv, f (snd kv))) d.

(** [str(d.keys())] *)
Definition str_keys {V : Type} (d : t V) : string :=
  "dict_keys([" ^^ PyStr.join ", " (map PyStr.repr (keys d)) ^^ "])".

End Dict.

(** The state and exception monad of the code that mutates a record in
    place: an exception leaves the mutations made before it. *)
Definition M (S A : Type) : Type := S -> S * result A.

Definition ret {S A : Type} (a : A) : M S A := fun s => (s, Ok a).

Definition raise {S A : Type} (e : exn) : M S A := fun s => (s, Raise e).

Definition bind {S A B : Type} (m : M S A) (k : A -> M S B) : M S B :=
  fun s =>
    match m s with
    | (s', Ok a) => k a s'
    | (s', Raise e) => (s', Raise e)
    end.

Definition get {S : Type} : M S S := fun s => (s, Ok s).

Definition modify {S : Type} (f : S -> S) : M S unit := fun s => (f s, Ok tt).

Definition lift {S A : Type} (r : result A) : M S A := fun s => (s, r).

(** [try: m except Exception as exc: h exc] *)
Definition try_except {S A : Type} (m : M S A) (h : exn -> M S A) : M S A :=
  fun s =>
    match m s with
    | (s', Ok a) => (s', Ok a)
    | (s', Raise e) => h e s'
    end.

(** Reading a name or a key that may be missing. *)
Definition require {A : Type} (e : exn) (o : option A) : result A :=
  match o with
  | Some a => Ok a
  | None => Raise e
  end.

Notation "x <- m ;; k" := (bind m (fun x => k))
  (at level 61, m at next level, right associativity).
Notation "m ;;; k" := (bind m (fun _ => k))
  (at level 61, right associativity).

(** The line feed of the Python literals. *)
Definition nl : string := String (ascii_of_nat 10) EmptyString.

(** [DriverEnum] of the schema, with its [derivative_int]. *)
Inductive DriverEnum : Type := energy | gradient | hessian | properties.

Definition derivative_int (d : DriverEnum) : nat :=
  match d with
  | energy => 0
  | gradient => 1
  | hessian => 2
  | properties => 0
  end.

(** The string a driver compares equal to and is formatted as. *)
Definition driver_value (d : DriverEnum) : string :=
  match d with
  | energy => "energy"
  | gradient => "gradient"
  | hessian => "hessian"
  | properties => "properties"
  end.

Definition driver_is (d : DriverEnum) (s : string) : bool :=
  String.eqb (driver_value d) s.

(* ================================================================== *)
(** ** Data model *)

Section Harness.

(** Floating-point numbers, keyword values and the molecule records of
    the schema and of the molecule parser are kept abstract. *)
Context {float KwVal MolBody Molrec : Type}.

(** What [dashparam.from_arrays] resolves, as far as the harness reads it. *)
Record DashInfo : Type := {
  fctldash : string;
  dashlevel : string;
  dashparams : Dict.t float
}.

(** [jobrec['molecule']]: the schema molecule and its [real] mask. *)
Record Molecule : Type := {
  mol_body : MolBody;
  mol_real : option (list bool)
}.

(** The execution plan [modulerec] that [mp2d_plant] returns. *)
Record Modulerec : Type := {
  infiles : Dict.t string;
  outfiles : list string;
  env : Dict.t (option string);
  blocking_files : option (list string);
  command : list string
}.

(** What the harvester reads of [modulerec] after the run: the captured
    output and the requested files ([None]: not written). *)
Record ProcessOutcome : Type := {
  po_stdout : string;
  po_outfiles : Dict.t (option string)
}.

(** Values of the quantity map: a [Decimal], an [ndarray] of rows, or
    the flat list [unnp] makes of an array. *)
Inductive qcval : Type :=
| QDecimal (d : Dec.Decimal)
| QArray (rows : list (list float))
| QList (flat : list float).

Record Datum : Type := {
  label : string;
  units : string;
  data : qcval
}.

Record Jobrec : Type := {
  provenance : Dict.t string;
  model_method : string;
  driver : DriverEnum;
  keywords : Dict.t KwVal;
  molecule : Molecule;
  extras_info : option DashInfo;
  extras_qcvars : option (Dict.t qcval);
  stdout : option string;
  success : bool;
  error : option (string * string);
  properties_return_energy : option qcval;
  return_result : option qcval
}.

Definition set_provenance (v : Dict.t string) (j : Jobrec) : Jobrec :=
  {| provenance := v; model_method := model_method j; driver := driver j;
     keywords := keywords j; molecule := molecule j;
     extras_info := extras_info j; extras_qcvars := extras_qcvars j;
     stdout := stdout j; success := success j; error := error j;
     properties_return_energy := properties_return_energy j;
     return_result := return_result j |}.

Definition set_model_method (v : string) (j : Jobrec) : Jobrec :=
  {| provenance := provenance j; model_method := v; driver := driver j;
     keywords := keywords j; molecule := molecule j;
     extras_info := extras_info j; extras_qcvars := extras_qcvars j;
     stdout := stdout j; success := success j; error := error j;
     properties_return_energy := properties_return_energy j;
     return_result := return_result j |}.

Definition set_molecule_real (v : list bool) (j : Jobrec) : Jobrec :=
  {| provenance := provenance j; model_method := model_method j;
     driver := driver j; keywords := keywords j;
     molecule := {| mol_body := mol_body (molecule j); mol_real := Some v |};
     extras_info := extras_info j; extras_qcvars := extras_qcvars j;
     stdout := stdout j; success := success j; error := error j;
     properties_return_energy := properties_return_energy j;
     return_result := return_result j |}.

Definition set_extras_info (v : DashInfo) (j : Jobrec) : Jobrec :=
  {| provenance := provenance j; model_method := model_method j;
     driver := driver j; keywords := keywords j; molecule := molecule j;
     extras_info := Some v; extras_qcvars := extras_qcvars j;
     stdout := stdout j; success := success j; error := error j;
     properties_return_energy := properties_return_energy j;
     return_result := return_result j |}.

Definition set_extras_qcvars (v : Dict.t qcval) (j : Jobrec) : Jobrec :=
  {| provenance := provenance j; model_method := model_method j;
     driver := driver j; keywords := keywords j; molecule := molecule j;
     extras_info := extras_info j; extras_qcvars := Some v;
     stdout := stdout j; success := success j; error := error j;
     properties_return_energy := properties_return_energy j;
     return_result := return_result j |}.

Definition set_stdout (v : string) (j : Jobrec) : Jobrec :=
  {| provenance := provenance j; model_method := model_method j;
     driver := driver j; keywords := keywords j; molecule := molecule j;
     extras_info := extras_info j; extras_qcvars := extras_qcvars j;
     stdout := Some v; success := success j; error := error j;
     properties_return_energy := properties_return_energy j;
     return_result := return_result j |}.

Definition set_success (v : bool) (j : Jobrec) : Jobrec :=
  {| provenance := provenance j; model_method := model_method j;
     driver := driver j; keywords := keywords j; molecule := molecule j;
     extras_info := extras_info j; extras_qcvars := extras_qcvars j;
     stdout := stdout j; success := v; error := error j;
     properties_return_energy := properties_return_energy j;
     return_result := return_result j |}.

(** [jobrec['error'] = {'error_type': .., 'error_message': ..}] *)
Definition set_error (error_type error_message : string) (j : Jobrec) : Jobrec :=
  {| provenance := provenance j; model_method := model_method j;
     driver := driver j; keywords := keywords j; molecule := molecule j;
     extras_info := extras_info j; extras_qcvars := extras_qcvars j;
     stdout := stdout j; success := success j;
     error := Some (error_type, error_message);
     properties_return_energy := properties_return_energy j;
     return_result := return_result j |}.

(** [jobrec['properties'] = {"return_energy": v}] *)
Definition set_properties (v : qcval) (j : Jobrec) : Jobrec :=
  {| provenance := provenance j; model_method := model_method j;
     driver := driver j; keywords := keywords j; molecule := molecule j;
     extras_info := extras_info j; extras_qcvars := extras_qcvars j;
     stdout := stdout j; success := success j; error := error j;
     properties_return_energy := Some v;
     return_result := return_result j |}.

Definition set_return_result (v : qcval) (j : Jobrec) : Jobrec :=
  {| provenance := provenance j; model_method := model_method j;
     driver := driver j; keywords := keywords j; molecule := molecule j;
     extras_info := extras_info j; extras_qcvars := extras_qcvars j;
     stdout := stdout j; success := success j; error := error j;
     properties_return_energy := properties_return_energy j;
     return_result := Some v |}.

(** The job record together with the commands handed to the process
    runner so far. *)
Record World : Type := {
  jobrec : Jobrec;
  spawned : list (list string)
}.

Definition on_jobrec {A : Type} (m : M Jobrec A) : M World A :=
  fun w =>
    let '(j, r) := m (jobrec w) in
    ({| jobrec := j; spawned := spawned w |}, r).

Definition log_spawn (cmd : list string) (w : World) : World :=
  {| jobrec := jobrec w; spawned := spawned w ++ [cmd] |}.

(** The collaborators of the harness: the parameter resolver, the
    molecule parser and writer of QCElemental, the environment, the
    process runner, NumPy's text reader, the default string conversion
    of a coefficient, and the printers. *)
Record Externals : Type := {
  from_arrays :
    string -> option KwVal -> option KwVal -> option KwVal -> result DashInfo;
  from_schema : Molecule -> result Molrec;
  molrec_real : Molrec -> list bool;
  to_string : Molrec -> string;
  environ_get : string -> option string;
  run_process : Modulerec -> result ProcessOutcome;
  np_fromstring : string -> nat -> list float;
  np_zero : float;
  str_float : float -> string;
  print_variables : Dict.t Datum -> string;
  format_exception : exn -> string;
  qcng_version : string
}.

End Harness.

Arguments DashInfo : clear implicits.
Arguments Molecule : clear implicits.
Arguments qcval : clear implicits.
Arguments Datum : clear implicits.
Arguments Jobrec : clear implicits.
Arguments World : clear implicits.
Arguments Externals : clear implicits.

(* ================================================================== *)
(** ** The operations of [mp2d.py] *)

Section Operations.

Context {float KwVal MolBody Molrec : Type}.
Variable E : Externals float KwVal MolBody Molrec.

Local Abbreviation JobRec := (Jobrec float KwVal MolBody).
Local Abbreviation WORLD := (World float KwVal MolBody).

(** *** [mp2d_coeff_formatter] *)

Definition mp2d_coeff_formatter (dashlvl : string) (dashcoeff : Dict.t float)
  : result (list string) :=
  let dashlvl := PyStr.lower dashlvl in
  if String.eqb dashlvl "dmp2" then
    a1 <-? Dict.getitem "a1" dashcoeff ;;
    a2 <-? Dict.getitem "a2" dashcoeff ;;
    rcut <-? Dict.getitem "rcut" dashcoeff ;;
    w <-? Dict.getitem "w" dashcoeff ;;
    s8 <-? Dict.getitem "s8" dashcoeff ;;
    Ok [ "--TT_a1=" ^^ str_float E a1;
         "--TT_a2=" ^^ str_float E a2;
         "--rcut=" ^^ str_float E rcut;
         "--w=" ^^ str_float E w;
         "--s8=" ^^ str_float E s8 ]
  else
    Raise (InputError ("-D correction level " ^^ dashlvl
                       ^^ " is not available. Choose among "
                       ^^ Dict.str_keys dashcoeff ^^ ".")).

(** *** [mp2d_plant] *)

Definition mp2d_plant : M JobRec Modulerec :=
  jobrec <- get ;;
  info <- lift (from_arrays E (model_method jobrec)
                  (Dict.get "level_hint" (keywords jobrec))
                  (Dict.get "params_tweaks" (keywords jobrec))
                  (Dict.get "dashcoeff_supplement" (keywords jobrec))) ;;
  modify (set_extras_info info) ;;;
  molrec <- lift (from_schema E (molecule jobrec)) ;;
  let xyz := to_string E molrec in
  modify (set_molecule_real (molrec_real E molrec)) ;;;
  let command := ["mp2d"; "mp2d_geometry"] in
  let command :=
    if driver_is (driver jobrec) "gradient"
    then command ++ ["--gradient"] else command in
  args <- lift (mp2d_coeff_formatter (dashlevel info) (dashparams info)) ;;
  ret {| infiles := [("mp2d_geometry", xyz)];
         outfiles := ["mp2d_gradient"];
         env := [("HOME", environ_get E "HOME"); ("PATH", environ_get E "PATH")];
         blocking_files := None;
         command := command ++ args |}.

(** *** [mp2d_harvest] *)

(** The locals the scan of stdout may assign. *)
Record ScanVars : Type := {
  version : option string;
  ene : option Dec.Decimal
}.

(** How the [for] loop ended: [Exhausted] runs its [else] clause,
    [Broken] (by [break]) does not. *)
Inductive LoopEnd : Type := Exhausted | Broken.

Definition version_of_line (ln : string) : string :=
  PyStr.lower
    (PyStr.strip
       (PyStr.replace "-" EmptyString
          (PyStr.replace "MP2D dispersion correction" EmptyString ln))).

Definition is_version_line (ln : string) : bool :=
  PyStr.contains "MP2D Dispersion correction v" ln.

Definition is_energy_line (ln : string) : bool :=
  PyStr.startswith "   MP2D dispersion correction Eh" ln.

Definition is_coordinates_line (ln : string) : bool :=
  PyStr.startswith "Atomic Coordinates in Angstroms" ln.

(** [Decimal(ln.split()[4])] *)
Definition energy_of_line (ln : string) : result Dec.Decimal :=
  match nth_error (PyStr.split ln) 4 with
  | None => Raise (IndexError "list index out of range")
  | Some tok => require InvalidOperation (Dec.of_string tok)
  end.

Fixpoint scan_stdout (lines : list string) (v : ScanVars)
  : result (LoopEnd * ScanVars) :=
  match lines with
  | [] => Ok (Exhausted, v)
  | ln :: rest =>
      if is_version_line ln then
        scan_stdout rest {| version := Some (version_of_line ln); ene := ene v |}
      else if is_energy_line ln then
        d <-? energy_of_line ln ;;
        scan_stdout rest {| version := version v; ene := Some d |}
      else if is_coordinates_line ln then Ok (Broken, v)
      else scan_stdout rest v
  end.

(** [np.sum(real)] and [np.argwhere(real).reshape((-1))] *)
Definition np_sum (real : list bool) : nat := count_occ bool_dec real true.

Fixpoint argwhere_from (i : nat) (real : list bool) : list nat :=
  match real with
  | [] => []
  | b :: r => (if b then [i] else []) ++ argwhere_from (S i) r
  end.

Definition argwhere (real : list bool) : list nat := argwhere_from 0 real.

(** [a.reshape((-1, 3))] of a flat array *)
Fixpoint reshape3 (a : list float) : result (list (list float)) :=
  match a with
  | [] => Ok []
  | x :: y :: z :: r => rows <-? reshape3 r ;; Ok ([x; y; z] :: rows)
  | _ => Raise (ValueError "cannot reshape array into shape (3)")
  end.

(** [np.zeros((n, 3))] *)
Definition np_zeros3 (n : nat) : list (list float) :=
  repeat [np_zero E; np_zero E; np_zero E] n.

Fixpoint set_row (i : nat) (row : list float) (a : list (list float))
  : list (list float) :=
  match a, i with
  | [], _ => []
  | _ :: a', O => row :: a'
  | r :: a', S i' => r :: set_row i' row a'
  end.

(** The rows assigned to an index list of length [n]: as many rows, or
    one row for all of them. *)
Definition broadcast_rows (n : nat) (rows : list (list float))
  : result (list (list float)) :=
  if Nat.eqb (length rows) n then Ok rows
  else match rows with
       | [row] => Ok (repeat row n)
       | _ => Raise (ValueError "shape mismatch: value array could not be broadcast to indexing result")
       end.

(** [a[idx, :] = rows] *)
Definition assign_rows (a : list (list float)) (idx : list nat)
           (rows : list (list float)) : result (list (list float)) :=
  rows' <-? broadcast_rows (length idx) rows ;;
  Ok (fold_left (fun acc ir => set_row (fst ir) (snd ir) acc) (combine idx rows') a).

(** The text amalgamated from stdout and the files that were read. *)
Definition amalgamate (modulerec : ProcessOutcome) : string :=
  fold_left
    (fun text fc =>
       match snd fc with
       | Some contents =>
           text ^^ nl ^^ "  MP2D scratch file " ^^ fst fc ^^ " has been read." ^^ nl
                ^^ contents
       | None => text
       end)
    (po_outfiles modulerec)
    (po_stdout modulerec ^^ nl ^^ "  <<<  MP2D Results  >>>" ^^ nl).

(** The [else] clause of the scan loop. *)
Definition scan_else (loop_end : LoopEnd) (real_nat : nat) (d : DriverEnum)
  : result unit :=
  match loop_end with
  | Broken => Ok tt
  | Exhausted =>
      if negb (Nat.eqb real_nat 1 && driver_is d "gradient")
      then Raise (UnknownError "Unknown issue occured.")
      else Ok tt
  end.

(** Parsing the gradient file; [None]: [realgrad] stays unassigned. *)
Definition parse_gradient (modulerec : ProcessOutcome) (real_nat : nat)
  : result (option (list (list float))) :=
  contents <-? Dict.getitem "mp2d_gradient" (po_outfiles modulerec) ;;
  match contents with
  | Some srealgrad =>
      realgrad <-? reshape3 (np_fromstring E srealgrad (3 * real_nat)) ;;
      Ok (Some realgrad)
  | None => Ok None
  end.

(** The gradient branch; [None]: [fullgrad] stays unassigned. *)
Definition collect_gradient (d : DriverEnum) (real : list bool)
           (realgrad : option (list (list float)))
  : result (option (list (list float))) :=
  if driver_is d "gradient" then
    let ireal := argwhere real in
    let fullgrad := np_zeros3 (length real) in
    match
      (rg <-? require (UnboundLocalError "realgrad") realgrad ;;
       assign_rows fullgrad ireal rg)
    with
    | Ok fullgrad => Ok (Some fullgrad)
    | Raise exc =>
        if is_NameError exc
        then Raise (UnknownError "Unsuccessful gradient collection.")
        else Raise exc
    end
  else Ok None.

Definition energy_data (qcvkey : string) (ene : Dec.Decimal) : list (Datum float) :=
  [ {| label := "DISPERSION CORRECTION ENERGY"; units := "Eh"; data := QDecimal ene |};
    {| label := "2-BODY DISPERSION CORRECTION ENERGY"; units := "Eh";
       data := QDecimal ene |} ]
  ++ (if String.eqb qcvkey EmptyString then []
      else [ {| label := qcvkey ^^ " DISPERSION CORRECTION ENERGY"; units := "Eh";
                data := QDecimal ene |} ]).

Definition gradient_data (qcvkey : string) (fullgrad : list (list float))
  : list (Datum float) :=
  [ {| label := "DISPERSION CORRECTION GRADIENT"; units := "Eh/a0";
       data := QArray fullgrad |};
    {| label := "2-BODY DISPERSION CORRECTION GRADIENT"; units := "Eh/a0";
       data := QArray fullgrad |} ]
  ++ (if String.eqb qcvkey EmptyString then []
      else [ {| label := qcvkey ^^ " DISPERSION CORRECTION GRADIENT";
                units := "Eh/a0"; data := QArray fullgrad |} ]).

(** [qcel.util.unnp(.., flat=True)] on one value: an array becomes the
    flat list of its entries, row after row. *)
Definition unnp_flat (v : qcval float) : qcval float :=
  match v with
  | QArray rows => QList (concat rows)
  | _ => v
  end.

Definition mp2d_harvest (modulerec : ProcessOutcome) : M JobRec unit :=
  jobrec <- get ;;
  let text := amalgamate modulerec in
  real <- lift (require (KeyError "real") (mol_real (molecule jobrec))) ;;
  let full_nat := length real in
  let real_nat := np_sum real in
  scanned <- lift (scan_stdout (PyStr.splitlines (po_stdout modulerec))
                     {| version := None; ene := None |}) ;;
  lift (scan_else (fst scanned) real_nat (driver jobrec)) ;;;
  let vars := snd scanned in
  realgrad <- lift (parse_gradient modulerec real_nat) ;;
  fullgrad <- lift (collect_gradient (driver jobrec) real realgrad) ;;
  info <- lift (require (KeyError "info") (extras_info jobrec)) ;;
  let qcvkey := PyStr.upper (fctldash info) in
  ene <- lift (require (UnboundLocalError "ene") (ene vars)) ;;
  let calcinfo := energy_data qcvkey ene in
  calcinfo <-
    (if driver_is (driver jobrec) "gradient" then
       fg <- lift (require (UnboundLocalError "fullgrad") fullgrad) ;;
       ret (calcinfo ++ gradient_data qcvkey fg)
     else ret calcinfo) ;;
  let calcinfo1 := Dict.of_items (map (fun info => (label info, info)) calcinfo) in
  let text := text ^^ print_variables E calcinfo1 in
  let calcinfo := Dict.of_items (map (fun info => (label info, data info)) calcinfo) in
  let calcinfo := Dict.map_values unnp_flat calcinfo in
  modify (set_stdout text) ;;;
  modify (set_extras_qcvars calcinfo) ;;;
  version <- lift (require (UnboundLocalError "version") (version vars)) ;;
  let prov := [("creator", "mp2d"); ("routine", "mp2d_harvest"); ("version", version)] in
  modify (set_provenance prov).

(** *** [module_driver] and [provenance_stamp] *)

(** Modelled from the spec: [module_driver] of the DFTD3 runner, which
    sequences planner, process runner and harvester; a command handed
    to the runner is recorded in [spawned]. *)
Definition module_driver (module_label : string)
           (plant : M JobRec Modulerec)
           (harvest : ProcessOutcome -> M JobRec unit) : M WORLD unit :=
  modulerec <- on_jobrec plant ;;
  modify (log_spawn (command modulerec)) ;;;
  outcome <- lift (run_process E modulerec) ;;
  on_jobrec (harvest outcome).

Definition mp2d_driver : M WORLD unit :=
  module_driver "mp2d" mp2d_plant mp2d_harvest.

(** Modelled from the spec: [provenance_stamp] of the engine's extras,
    the creator, version and routine of the orchestrator itself. *)
Definition provenance_stamp (routine : string) : Dict.t string :=
  [("creator", "QCEngine"); ("version", qcng_version E); ("routine", routine)].

(** *** [run_json] *)

Definition run_json : M WORLD unit :=
  on_jobrec (modify (set_provenance
                       (provenance_stamp ("run_json" ^^ "." ^^ "qcengine.programs.mp2d")))) ;;;
  w <- get ;;
  let mtd := model_method (jobrec w) in
  (if PyStr.startswith "mp2d-" mtd
   then on_jobrec (modify (set_model_method (substring 5 (String.length mtd) mtd)))
   else ret tt) ;;;
  if Nat.ltb 1 (derivative_int (driver (jobrec w))) then
    on_jobrec (modify (set_success false)) ;;;
    on_jobrec (modify (set_error "input_error"
                         "MP2D produces max gradient, not {jobrec['driver']}")) ;;;
    raise (InputError ("MP2D valid driver options are 'energy' and 'gradient', not "
                       ^^ driver_value (driver (jobrec w))))
  else
    try_except mp2d_driver
      (fun exc =>
         on_jobrec (modify (set_success false)) ;;;
         on_jobrec (modify (set_error (exn_name exc) (format_exception E exc))) ;;;
         raise exc) ;;;
    on_jobrec (modify (set_success true)) ;;;
    w <- get ;;
    qcvars <- lift (require (KeyError "qcvars") (extras_qcvars (jobrec w))) ;;
    ene <- lift (Dict.getitem "DISPERSION CORRECTION ENERGY" qcvars) ;;
    let qcvars := Dict.set "CURRENT ENERGY" ene qcvars in
    on_jobrec (modify (set_extras_qcvars qcvars)) ;;;
    on_jobrec (modify (set_properties ene)) ;;;
    (if driver_is (driver (jobrec w)) "energy" then
       on_jobrec (modify (set_return_result ene))
     else if driver_is (driver (jobrec w)) "gradient" then
       grad <- lift (Dict.getitem "DISPERSION CORRECTION GRADIENT" qcvars) ;;
       on_jobrec (modify (set_extras_qcvars (Dict.set "CURRENT GRADIENT" grad qcvars))) ;;;
       on_jobrec (modify (set_return_result grad))
     else ret tt) ;;;
    w <- get ;;
    real <- lift (require (KeyError "real") (mol_real (molecule (jobrec w)))) ;;
    on_jobrec (modify (set_molecule_real real)).

End Operations.

(* ================================================================== *)
(** ** The harness class [MP2DHarness] *)

(** The class attribute [version_cache] (from the path of the executable
    to its version), with the version queries run so far. *)
Record Host : Type := {
  version_cache : Dict.t string;
  probed : list (list string)
}.

Definition log_probe (cmd : list string) (h : Host) : Host :=
  {| version_cache := version_cache h; probed := probed h ++ [cmd] |}.

Definition cache_set (path ver : string) (h : Host) : Host :=
  {| version_cache := Dict.set path ver (version_cache h); probed := probed h |}.

(** The host and the commands handed to the process runner so far. *)
Record Machine : Type := {
  host : Host;
  jobs : list (list string)
}.

Definition on_host {A : Type} (m : M Host A) : M Machine A :=
  fun s =>
    let '(h, r) := m (host s) in
    ({| host := h; jobs := jobs s |}, r).

Section HarnessClass.

Context {float KwVal MolBody Molrec R : Type}.
Variable E : Externals float KwVal MolBody Molrec.

Local Abbreviation JobRec := (Jobrec float KwVal MolBody).

(** What [compute] returns: a [Result] built from the record, or a
    [FailedOperation] with the popped fields and the rest of the record. *)
Inductive ComputeOutput : Type :=
| IsResult (r : R)
| IsFailedOperation (success : bool) (error : string * string) (input_data : JobRec).

(** The collaborators of the class: the executable found on the path, the
    text of the error of [which] for a hint, the decoded stdout of a
    version query, [safe_version], the version test of the engine (which
    may itself query and cache the version), and the constructor of
    [Result]. *)
Record HostExternals : Type := {
  which_mp2d : option string;
  not_found_text : option string -> string;
  probe_stdout : list string -> string;
  safe_version : string -> string;
  is_program_new_enough : string -> string -> M Host bool;
  make_Result : JobRec -> result R
}.

Variable H : HostExternals.

(** [which('mp2d', raise_error=.., raise_msg=..)] *)
Definition which (raise_error : bool) (raise_msg : option string)
  : result (option string) :=
  match which_mp2d H with
  | Some path => Ok (Some path)
  | None =>
      if raise_error
      then Raise (Foreign "ModuleNotFoundError" (not_found_text H raise_msg))
      else Ok None
  end.

Definition found (raise_error : bool) : result bool :=
  ans <-? which raise_error (Some "Please install via `conda install mp2d -c psi4`") ;;
  Ok (match ans with Some _ => true | None => false end).

Definition get_version : M Host string :=
  lift (found true) ;;;
  which_prog <- lift (which false None) ;;
  match which_prog with
  | None => raise (Foreign "TypeError" "expected str, bytes or os.PathLike object, not NoneType")
  | Some which_prog =>
      h <- get ;;
      (match Dict.get which_prog (version_cache h) with
       | None =>
           let command := [which_prog; "--version"] in
           modify (log_probe command) ;;;
           modify (cache_set which_prog
                     (safe_version H (PyStr.strip (probe_stdout H command))))
       | Some _ => ret tt
       end) ;;;
      h <- get ;;
      lift (Dict.getitem which_prog (version_cache h))
  end.

(** [run_json] on the dictionary of the input, with the commands logged
    on the machine. *)
Definition run_json_on (input_data : JobRec) : M Machine JobRec :=
  fun s =>
    let '(w, r) := run_json E {| jobrec := input_data; spawned := jobs s |} in
    ({| host := host s; jobs := spawned w |},
     match r with
     | Ok _ => Ok (jobrec w)
     | Raise exc => Raise exc
     end).

(** [compute]; the class [ResourceError] of the engine is carried by
    [Foreign], and the dictionary of the input is the record itself. *)
Definition compute (input_data : JobRec) : M Machine ComputeOutput :=
  lift (found true) ;;;
  new_enough <- on_host (is_program_new_enough H "mp2d" "1.1") ;;
  (if negb new_enough then
     v <- on_host get_version ;;
     raise (Foreign "ResourceError"
              ("MP2D version '" ^^ v ^^ "' too old. Please update to at least '1.1'."))
   else ret tt) ;;;
  let input_data := set_success false input_data in
  output_data <- run_json_on input_data ;;
  if success output_data then
    r <- lift (make_Result H output_data) ;;
    ret (IsResult r)
  else
    error <- lift (require (KeyError "error") (error output_data)) ;;
    ret (IsFailedOperation (success output_data) error output_data).

End HarnessClass.

Arguments ComputeOutput : clear implicits.
Arguments HostExternals : clear implicits.

(* ================================================================== *)
(** ** Concrete collaborators for the examples

    A float is stood for by the decimal it is written as, a molecule by
    the list of its element symbols, and the process runner answers with
    a fixed outcome. *)

Module Sample.

Definition float : Type := Dec.Decimal.

Definition zero : float := Dec.Finite false 0 0.

Fixpoint parse_floats (toks : list string) : list float :=
  match toks with
  | [] => []
  | t :: r =>
      match Dec.of_string t with
      | Some d => d :: parse_floats r
      | None => []
      end
  end.

(** Reads [count] numbers separated by white space from a text that
    holds at least as many (what NumPy makes of a shorter text is not
    modelled: the entries that are missing are simply not there). *)
Definition fromstring (s : string) (count : nat) : list float :=
  firstn count (parse_floats (PyStr.split s)).

Definition render (d : float) : string :=
  match d with
  | Dec.Finite s c e =>
      (if s then "-" else EmptyString)
        ^^ NilEmpty.string_of_uint (N.to_uint c)
        ^^ "E" ^^ NilZero.string_of_int (Z.to_int e)
  | Dec.Infinity s => if s then "-inf" else "inf"
  | Dec.NaN _ _ _ => "nan"
  end.

Definition coefficients : Dict.t float :=
  [ ("s8", Dec.Finite false 1187 (-3)); ("a1", Dec.Finite false 944 (-3));
    ("a2", Dec.Finite false 480 (-3)); ("rcut", Dec.Finite false 72 (-2));
    ("w", Dec.Finite false 20 (-2)) ].

(** The level is the hint when there is one and [dmp2] otherwise; the
    label is the method name. *)
Definition resolve (name_hint : string) (level_hint tweaks supplement : option string)
  : result (DashInfo float) :=
  Ok {| fctldash := name_hint;
        dashlevel := match level_hint with Some l => l | None => "dmp2" end;
        dashparams := coefficients |}.

Definition molparse (m : Molecule (list string)) : result (list bool) :=
  Ok (match mol_real m with
      | Some r => r
      | None => repeat true (length (mol_body m))
      end).

Definition externals (outcome : result ProcessOutcome)
  : Externals float string (list string) (list bool) :=
  {| from_arrays := resolve;
     from_schema := molparse;
     molrec_real := fun r => r;
     to_string := fun r => "xyz";
     environ_get := fun _ => None;
     run_process := fun _ => outcome;
     np_fromstring := fromstring;
     np_zero := zero;
     str_float := render;
     print_variables := fun d => PyStr.join nl (Dict.keys d);
     format_exception := exn_name;
     qcng_version := "0.7.0" |}.

(** A request as it enters [run_json]. *)
Definition request (method : string) (d : DriverEnum) (kw : Dict.t string)
           (symbols : list string) (real : option (list bool))
  : Jobrec float string (list string) :=
  {| provenance := []; model_method := method; driver := d; keywords := kw;
     molecule := {| mol_body := symbols; mol_real := real |};
     extras_info := None; extras_qcvars := None; stdout := None;
     success := false; error := None;
     properties_return_energy := None; return_result := None |}.

Definition world (j : Jobrec float string (list string))
  : World float string (list string) :=
  {| jobrec := j; spawned := [] |}.

Definition lines (l : list string) : string := PyStr.join nl l.

Definition outcome (out : list string) (gradient_file : option string)
  : ProcessOutcome :=
  {| po_stdout := lines out; po_outfiles := [("mp2d_gradient", gradient_file)] |}.

(** The job record as the harvester finds it: planned, with the resolved
    parameters and the mask of real atoms. *)
Definition planned (d : DriverEnum) (fctl : string) (real : list bool)
  : Jobrec float string (list string) :=
  {| provenance := [("creator", "QCEngine"); ("version", "0.7.0");
                    ("routine", "run_json.qcengine.programs.mp2d")];
     model_method := fctl; driver := d; keywords := [];
     molecule := {| mol_body := map (fun _ => "He") real; mol_real := Some real |};
     extras_info := Some {| fctldash := fctl; dashlevel := "dmp2";
                            dashparams := coefficients |};
     extras_qcvars := None; stdout := None;
     success := false; error := None;
     properties_return_energy := None; return_result := None |}.

(** Lines of stdout: the version line, two energy lines (the one of the
    scenario of the specification, and one with the energy next to the
    unit), and the coordinates line. *)
Definition version_line : string := "MP2D Dispersion correction v1.1".
Definition scenario_line : string :=
  "   MP2D dispersion correction Eh   0   0   0   -0.001234".
Definition energy_line : string := "   MP2D dispersion correction Eh   -0.001234".
Definition coordinates_line : string := "Atomic Coordinates in Angstroms".

(** Collaborators whose process runner answers with the given stdout and
    gradient file. *)
Definition answering (out : list string) (gradient_file : option string)
  : Externals float string (list string) (list bool) :=
  externals (Ok (outcome out gradient_file)).

(** The scenario of the specification: method [dmp2], energy driver, two
    real atoms, and a stdout with the scenario line. *)
Definition scenario_world : World float string (list string) :=
  world (request "dmp2" energy [] ["He"; "He"] None).

Definition scenario_externals : Externals float string (list string) (list bool) :=
  answering [version_line; scenario_line; coordinates_line] None.

(** A gradient request over three atoms, the second one a ghost. *)
Definition gradient_job : Jobrec float string (list string) :=
  planned gradient "mp2-dmp2" [true; false; true].

Definition gradient_outcome : ProcessOutcome :=
  outcome [version_line; energy_line; coordinates_line]
          (Some "0.0 0.0 0.01 0.0 0.0 -0.01").

(** The plan of a gradient request with the sample coefficients. *)
Definition gradient_request : Jobrec float string (list string) :=
  request "mp2d-dmp2" gradient [] ["He"; "He"] None.

Definition gradient_plan : Modulerec :=
  {| infiles := [("mp2d_geometry", "xyz")];
     outfiles := ["mp2d_gradient"];
     env := [("HOME", None); ("PATH", None)];
     blocking_files := None;
     command := ["mp2d"; "mp2d_geometry"; "--gradient"; "--TT_a1=944E-3";
                 "--TT_a2=480E-3"; "--rcut=72E-2"; "--w=20E-2"; "--s8=1187E-3"] |}.

End Sample.

(* ================================================================== *)
(** ** A concrete host for the examples *)

Module SampleHost.

(** An installed executable that answers its version query with
    [version_text]; the version test of the engine is the given answer
    and leaves the host alone. *)
Definition installed (version_text : string) (new_enough : bool)
  : HostExternals Sample.float string (list string)
      (Jobrec Sample.float string (list string)) :=
  {| which_mp2d := Some "/opt/bin/mp2d";
     not_found_text := fun _ => "Command 'mp2d' not found in envvar PATH.";
     probe_stdout := fun _ => version_text;
     safe_version := fun v => v;
     is_program_new_enough := fun _ _ => ret new_enough;
     make_Result := fun j => Ok j |}.

(** The same host without the executable. *)
Definition missing
  : HostExternals Sample.float string (list string)
      (Jobrec Sample.float string (list string)) :=
  {| which_mp2d := None;
     not_found_text := fun _ => "Command 'mp2d' not found in envvar PATH.";
     probe_stdout := fun _ => EmptyString;
     safe_version := fun v => v;
     is_program_new_enough := fun _ _ => ret false;
     make_Result := fun j => Ok j |}.

Definition fresh : Host := {| version_cache := []; probed := [] |}.

Definition machine : Machine := {| host := fresh; jobs := [] |}.

End SampleHost.

(* ================================================================== *)
(** ** Auxiliary definitions for the proofs *)

(** The last character of a string. *)
Fixpoint last_char (s : string) : option ascii :=
  match s with
  | EmptyString => None
  | String c EmptyString => Some c
  | String _ s' => last_char s'
  end.

(** What assigning [rows] at the real indices of a zero matrix gives,
    written by recursion on the mask. *)
Fixpoint scatter {float : Type} (zrow : list float) (real : list bool)
         (rows : list (list float)) : list (list float) :=
  match real with
  | [] => []
  | true :: r =>
      match rows with
      | row :: rows' => row :: scatter zrow r rows'
      | [] => zrow :: scatter zrow r []
      end
  | false :: r => zrow :: scatter zrow r rows
  end.

(** The coefficients [mp2d_coeff_formatter] reads for level [dmp2], in
    the order it reads them. *)
Definition required_coefficients : list string := ["a1"; "a2"; "rcut"; "w"; "s8"].

(** The data the harvester collects once energy and gradient are known;
    for the gradient driver the gradient has to be there. *)
Definition harvest_items {float : Type} (d : DriverEnum) (qcvkey : string)
           (e : Dec.Decimal) (fullgrad : option (list (list float)))
  : result (list (Datum float)) :=
  if driver_is d "gradient" then
    match fullgrad with
    | Some fg => Ok (energy_data qcvkey e ++ gradient_data qcvkey fg)
    | None => Raise (UnboundLocalError "fullgrad")
    end
  else Ok (energy_data qcvkey e).

Section Auxiliary.

Context {float KwVal MolBody Molrec : Type}.
Variable E : Externals float KwVal MolBody Molrec.

Local Abbreviation JobRec := (Jobrec float KwVal MolBody).

(** The quantity map the harvester stores for the data it collected. *)
Definition harvested_qcvars (items : list (Datum float)) : Dict.t (qcval float) :=
  Dict.map_values unnp_flat
    (Dict.of_items (map (fun info => (label info, data info)) items)).

(** Every datum of the harvester carries the energy under a label that
    ends in Y and the gradient under a label that ends in T. *)
Definition sound_datum (e : Dec.Decimal) (fg : list (list float))
           (info : Datum float) : Prop :=
  (last_char (label info) = Some "Y"%char /\ data info = QDecimal e) \/
  (last_char (label info) = Some "T"%char /\ data info = QArray fg).

(** What the resolver answers for a job record. *)
Definition resolved (j : JobRec) : result (DashInfo float) :=
  from_arrays E (model_method j)
    (Dict.get "level_hint" (keywords j))
    (Dict.get "params_tweaks" (keywords j))
    (Dict.get "dashcoeff_supplement" (keywords j)).

(** The job record after the first statements of [run_json]: stamped,
    and the engine hint stripped from the method. *)
Definition prepared (j : JobRec) : JobRec :=
  let j1 := set_provenance (provenance_stamp E "run_json.qcengine.programs.mp2d") j in
  if PyStr.startswith "mp2d-" (model_method j)
  then set_model_method
         (substring 5 (String.length (model_method j)) (model_method j)) j1
  else j1.

(** The plan the planner returns for a parsed molecule and formatted
    coefficients. *)
Definition plan_of (d : DriverEnum) (molrec : Molrec) (args : list string)
  : Modulerec :=
  {| infiles := [("mp2d_geometry", to_string E molrec)];
     outfiles := ["mp2d_gradient"];
     env := [("HOME", environ_get E "HOME"); ("PATH", environ_get E "PATH")];
     blocking_files := None;
     command := (if driver_is d "gradient"
                 then ["mp2d"; "mp2d_geometry"] ++ ["--gradient"]
                 else ["mp2d"; "mp2d_geometry"]) ++ args |}.

(** The job record [run_json] returns, from the one the harvester left. *)
Definition finished (j : JobRec) (qcvars : Dict.t (qcval float)) (e : qcval float)
           (real : list bool) : JobRec :=
  let qcvars' := Dict.set "CURRENT ENERGY" e qcvars in
  let j2 := set_properties e (set_extras_qcvars qcvars' (set_success true j)) in
  set_molecule_real real
    (if driver_is (driver j) "energy" then set_return_result e j2
     else if driver_is (driver j) "gradient" then
       match Dict.get "DISPERSION CORRECTION GRADIENT" qcvars' with
       | Some grad =>
           set_return_result grad
             (set_extras_qcvars (Dict.set "CURRENT GRADIENT" grad qcvars') j2)
       | None => j2
       end
     else j2).

End Auxiliary.

(* ================================================================== *)
(** ** Facts about strings and dictionaries *)

Lemma append_empty_r (s : string) : s ^^ EmptyString = s.
Proof. induction s as [|c s IH]; simpl; [reflexivity | now rewrite IH]. Qed.

Lemma append_eq_empty (a b : string) : a ^^ b = EmptyString -> a = EmptyString.
Proof. destruct a; simpl; [reflexivity | discriminate]. Qed.

Lemma last_char_append (a b : string) :
  b <> EmptyString -> last_char (a ^^ b) = last_char b.
Proof.
  intros Hb. induction a as [|c a IH]; simpl; [reflexivity |].
  destruct (a ^^ b) eqn:Hab.
  - pose proof (append_eq_empty _ _ Hab) as Ha. subst a. simpl in Hab. contradiction.
  - exact IH.
Qed.

Lemma upper_eq_empty (s : string) :
  PyStr.upper s = EmptyString <-> s = EmptyString.
Proof. destruct s; simpl; split; intros H; try reflexivity; discriminate. Qed.

Lemma eqb_empty_false (s : string) :
  String.eqb s EmptyString = false <-> s <> EmptyString.
Proof. rewrite String.eqb_neq. reflexivity. Qed.

Module DictFacts.

Section Facts.
Context {V : Type}.
Implicit Types (d : Dict.t V) (k : string) (v : V).

Lemma get_set k k' v d :
  Dict.get k (Dict.set k' v d) = if String.eqb k k' then Some v else Dict.get k d.
Proof.
  induction d as [|[k0 v0] d IH]; simpl.
  - destruct (String.eqb k k'); reflexivity.
  - destruct (String.eqb k' k0) eqn:E0; simpl.
    + apply String.eqb_eq in E0. subst k0.
      destruct (String.eqb k k'); reflexivity.
    + destruct (String.eqb k k0) eqn:E1.
      * apply String.eqb_eq in E1. subst k0.
        rewrite String.eqb_sym, E0. reflexivity.
      * exact IH.
Qed.

Lemma get_In k v d : Dict.get k d = Some v -> In (k, v) d.
Proof.
  induction d as [|[k0 v0] d IH]; simpl; [discriminate |].
  destruct (String.eqb k k0) eqn:E0.
  - apply String.eqb_eq in E0. intros [= ->]. subst. now left.
  - intros H. right. now apply IH.
Qed.

Lemma In_get k v d : In (k, v) d -> Dict.get k d <> None.
Proof.
  induction d as [|[k0 v0] d IH]; simpl; [contradiction |].
  intros [[= -> ->] | H].
  - rewrite String.eqb_refl. discriminate.
  - destruct (String.eqb k k0); [discriminate | now apply IH].
Qed.

Lemma In_set k v k' v' d :
  In (k, v) (Dict.set k' v' d) -> In (k, v) d \/ (k = k' /\ v = v').
Proof.
  induction d as [|[k0 v0] d IH]; simpl.
  - intros [[= -> ->] | []]. now right.
  - destruct (String.eqb k' k0) eqn:E0; simpl.
    + apply String.eqb_eq in E0. subst k0.
      intros [[= -> ->] | H]; [now right | left; now right].
    + intros [H | H]; [left; now left |].
      destruct (IH H) as [H' | H']; [left; now right | now right].
Qed.

Lemma In_fold_set k v (items : list (string * V)) d :
  In (k, v) (fold_left (fun d kv => Dict.set (fst kv) (snd kv) d) items d) ->
  In (k, v) d \/ In (k, v) items.
Proof.
  revert d. induction items as [|[k0 v0] items IH]; simpl; intros d H.
  - now left.
  - destruct (IH _ H) as [H' | H'].
    + destruct (In_set _ _ _ _ _ H') as [H'' | [-> ->]]; [now left | right; now left].
    + right. now right.
Qed.

Lemma get_fold_set_keeps k (items : list (string * V)) d :
  Dict.get k d <> None ->
  Dict.get k (fold_left (fun d kv => Dict.set (fst kv) (snd kv) d) items d) <> None.
Proof.
  revert d. induction items as [|[k0 v0] items IH]; simpl; intros d H; [exact H |].
  apply IH. rewrite get_set. destruct (String.eqb k k0); [discriminate | exact H].
Qed.

(** A looked-up value of a dictionary built from items is the value of
    one of the items. *)
Lemma get_of_items_In k v (items : list (string * V)) :
  Dict.get k (Dict.of_items items) = Some v -> In (k, v) items.
Proof.
  intros H. apply get_In in H. unfold Dict.of_items in H.
  destruct (In_fold_set _ _ _ _ H) as [[] | H']. exact H'.
Qed.

(** The key of an item is a key of the dictionary built from the items. *)
Lemma In_get_of_items k v (items : list (string * V)) :
  In (k, v) items -> Dict.get k (Dict.of_items items) <> None.
Proof.
  unfold Dict.of_items. generalize (@nil (string * V)).
  induction items as [|[k0 v0] items IH]; simpl; intros d []. 
  - injection H as -> ->. apply get_fold_set_keeps. rewrite get_set, String.eqb_refl.
    discriminate.
  - now apply IH.
Qed.

End Facts.

Lemma get_map_values {V W : Type} (f : V -> W) k (d : Dict.t V) :
  Dict.get k (Dict.map_values f d) = option_map f (Dict.get k d).
Proof.
  induction d as [|[k0 v0] d IH]; simpl; [reflexivity |].
  destruct (String.eqb k k0); [reflexivity | exact IH].
Qed.

End DictFacts.

(* ================================================================== *)
(** ** The scan of stdout *)

Section ScanFacts.

(** What the scan has assigned comes from a line of the text: the energy
    from an energy line that is not also a version line. *)
Lemma scan_stdout_ene (lines : list string) (v0 v : ScanVars) (le : LoopEnd) :
  scan_stdout lines v0 = Ok (le, v) ->
  ene v = ene v0 \/
  exists ln d, In ln lines /\ is_version_line ln = false /\
               is_energy_line ln = true /\ energy_of_line ln = Ok d /\
               ene v = Some d.
Proof.
  revert v0. induction lines as [|ln rest IH]; simpl; intros v0 H.
  - injection H as _ <-. now left.
  - destruct (is_version_line ln) eqn:Hv.
    + destruct (IH _ H) as [He | (l & d & Hin & ?)].
      * left. exact He.
      * right. exists l, d. split; [now right | assumption].
    + destruct (is_energy_line ln) eqn:He.
      * destruct (energy_of_line ln) as [d|e] eqn:Hd; simpl in H; [| discriminate].
        destruct (IH _ H) as [He' | (l & d' & Hin & ?)].
        -- right. exists ln, d. simpl in He'. repeat split; auto. 
        -- right. exists l, d'. split; [now right | assumption].
      * destruct (is_coordinates_line ln).
        -- injection H as _ <-. now left.
        -- destruct (IH _ H) as [He' | (l & d' & Hin & ?)].
           ++ now left.
           ++ right. exists l, d'. split; [now right | assumption].
Qed.

Lemma scan_stdout_version (lines : list string) (v0 v : ScanVars) (le : LoopEnd) :
  scan_stdout lines v0 = Ok (le, v) ->
  version v = version v0 \/
  exists ln, In ln lines /\ is_version_line ln = true /\
             version v = Some (version_of_line ln).
Proof.
  revert v0. induction lines as [|ln rest IH]; simpl; intros v0 H.
  - injection H as _ <-. now left.
  - destruct (is_version_line ln) eqn:Hv.
    + destruct (IH _ H) as [He | (l & Hin & ?)].
      * right. exists ln. simpl in He. auto.
      * right. exists l. split; [now right | assumption].
    + destruct (is_energy_line ln) eqn:He.
      * destruct (energy_of_line ln) as [d|e] eqn:Hd; simpl in H; [| discriminate].
        destruct (IH _ H) as [He' | (l & Hin & ?)].
        -- now left.
        -- right. exists l. split; [now right | assumption].
      * destruct (is_coordinates_line ln).
        -- injection H as _ <-. now left.
        -- destruct (IH _ H) as [He' | (l & Hin & ?)].
           ++ now left.
           ++ right. exists l. split; [now right | assumption].
Qed.

(** A scan that runs through all the lines has met no coordinates line
    outside the version and energy lines. *)
Lemma scan_stdout_exhausted (lines : list string) (v0 v : ScanVars) :
  scan_stdout lines v0 = Ok (Exhausted, v) ->
  forall ln, In ln lines ->
             is_version_line ln = false -> is_energy_line ln = false ->
             is_coordinates_line ln = false.
Proof.
  revert v0. induction lines as [|l rest IH]; simpl; intros v0 H ln []; intros Hv He.
  - subst l. rewrite Hv, He in H. destruct (is_coordinates_line ln); [discriminate | reflexivity].
  - destruct (is_version_line l); [eapply IH; eauto |].
    destruct (is_energy_line l).
    + destruct (energy_of_line l); simpl in H; [eapply IH; eauto | discriminate].
    + destruct (is_coordinates_line l); [discriminate | eapply IH; eauto].
Qed.

Lemma energy_of_line_token (ln : string) (d : Dec.Decimal) :
  energy_of_line ln = Ok d <->
  exists tok, nth_error (PyStr.split ln) 4 = Some tok /\ Dec.of_string tok = Some d.
Proof.
  unfold energy_of_line. split.
  - destruct (nth_error (PyStr.split ln) 4) as [tok|]; [| discriminate].
    destruct (Dec.of_string tok) as [d'|] eqn:Hd; simpl; [| discriminate].
    intros [= ->]. now exists tok.
  - intros (tok & -> & ->). reflexivity.
Qed.

End ScanFacts.

(* ================================================================== *)
(** ** The gradient arrays *)

Section GradientFacts.

Context {float : Type}.
Implicit Types (real : list bool) (rows : list (list float)) (zrow : list float).

Lemma scatter_length zrow real rows : length (scatter zrow real rows) = length real.
Proof.
  revert rows. induction real as [|[] real IH]; intros rows; simpl; auto.
  destruct rows; simpl; auto.
Qed.

Lemma scatter_not_real zrow real rows i :
  nth_error real i = Some false -> nth_error (scatter zrow real rows) i = Some zrow.
Proof.
  revert rows i. induction real as [|b real IH]; intros rows [|i]; simpl; try discriminate.
  - intros [= ->]. reflexivity.
  - intros H. destruct b; [destruct rows |]; simpl; now apply IH.
Qed.

Lemma scatter_real zrow real rows o k i :
  nth_error (argwhere_from o real) k = Some i -> k < length rows ->
  o <= i /\ nth_error (scatter zrow real rows) (i - o) = nth_error rows k.
Proof.
  revert rows o k. induction real as [|b real IH]; intros rows o k; simpl.
  - destruct k; discriminate.
  - destruct b; simpl.
    + destruct k as [|k]; simpl.
      * intros [= ->] Hk. split; [lia |]. rewrite Nat.sub_diag.
        destruct rows; simpl in *; [lia | reflexivity].
      * intros H Hk. destruct rows as [|row rows]; simpl in Hk; [lia |].
        destruct (IH rows (S o) k H ltac:(lia)) as [Hle Hn].
        split; [lia |]. replace (i - o) with (S (i - S o)) by lia. simpl. exact Hn.
    + intros H Hk. destruct (IH rows (S o) k H Hk) as [Hle Hn].
      split; [lia |]. replace (i - o) with (S (i - S o)) by lia. simpl. exact Hn.
Qed.

Lemma scatter_rows zrow real rows row :
  In row (scatter zrow real rows) -> row = zrow \/ In row rows.
Proof.
  revert rows. induction real as [|b real IH]; intros rows; simpl; [contradiction |].
  destruct b; [destruct rows as [|r rows] |]; simpl.
  - intros [<- | H]; [now left | ]. destruct (IH _ H) as [|[]]. now left.
  - intros [<- | H]; [right; now left |]. destruct (IH _ H); [now left | right; now right].
  - intros [<- | H]; [now left | now apply IH].
Qed.

Lemma set_row_app (pre : list (list float)) row old post :
  set_row (length pre) row (pre ++ old :: post) = pre ++ row :: post.
Proof. induction pre as [|p pre IH]; simpl; [reflexivity | now rewrite IH]. Qed.

(** Assigning the rows at the indices of the real atoms, one after the
    other, is [scatter]. *)
Lemma fold_set_row_scatter zrow real rows (pre : list (list float)) :
  length rows = np_sum real ->
  fold_left (fun acc ir => set_row (fst ir) (snd ir) acc)
            (combine (argwhere_from (length pre) real) rows)
            (pre ++ repeat zrow (length real))
  = pre ++ scatter zrow real rows.
Proof.
  revert rows pre. induction real as [|b real IH]; intros rows pre; simpl.
  - reflexivity.
  - unfold np_sum in *. simpl. destruct b; simpl.
    + destruct rows as [|row rows]; simpl; [discriminate |].
      intros [= Hlen]. rewrite set_row_app.
      specialize (IH rows (pre ++ [row]) Hlen).
      rewrite length_app, Nat.add_1_r, <- !app_assoc in IH. exact IH.
    + intros Hlen. specialize (IH rows (pre ++ [zrow]) Hlen).
      rewrite length_app, Nat.add_1_r, <- !app_assoc in IH. exact IH.
Qed.

Lemma argwhere_length real : length (argwhere real) = np_sum real.
Proof.
  unfold argwhere, np_sum. generalize 0.
  induction real as [|[] real IH]; intros o; simpl; auto.
Qed.

Lemma reshape3_ok (n : nat) (a : list float) :
  length a = 3 * n ->
  exists rows, reshape3 a = Ok rows /\ length rows = n /\
               (forall row, In row rows -> length row = 3) /\
               (forall k, k < n -> nth_error rows k = Some (firstn 3 (skipn (3 * k) a))).
Proof.
  revert a. induction n as [|n IH]; intros a Hlen.
  - destruct a; [| discriminate]. exists []. simpl. repeat split; auto.
    + intros row [].
    + intros k Hk. lia.
  - destruct a as [|x [|y [|z r]]]; simpl in Hlen; try lia.
    destruct (IH r ltac:(lia)) as (rows & Hr & Hl & H3 & Hk).
    exists ([x; y; z] :: rows). simpl. rewrite Hr. simpl. repeat split; auto.
    + intros row [<- | H]; [reflexivity | now apply H3].
    + intros [|k] Hlt; [reflexivity |]. simpl.
      rewrite (Hk k ltac:(lia)). 
      replace (k + S (k + S (k + 0))) with (S (S (3 * k))) by lia. reflexivity.
Qed.

End GradientFacts.

(* ================================================================== *)
(** ** The harvester, step by step *)

Section HarvestFacts.

Context {float KwVal MolBody Molrec : Type}.
Variable E : Externals float KwVal MolBody Molrec.

Local Abbreviation JobRec := (Jobrec float KwVal MolBody).

Lemma mp2d_harvest_ok (m : ProcessOutcome) (j j' : JobRec) :
  mp2d_harvest E m j = (j', Ok tt) ->
  exists real le vars realgrad fullgrad info e v items,
    mol_real (molecule j) = Some real /\
    scan_stdout (PyStr.splitlines (po_stdout m)) {| version := None; ene := None |}
      = Ok (le, vars) /\
    scan_else le (np_sum real) (driver j) = Ok tt /\
    parse_gradient E m (np_sum real) = Ok realgrad /\
    collect_gradient E (driver j) real realgrad = Ok fullgrad /\
    extras_info j = Some info /\
    ene vars = Some e /\
    version vars = Some v /\
    (if driver_is (driver j) "gradient"
     then exists fg, fullgrad = Some fg /\
                     items = energy_data (PyStr.upper (fctldash info)) e
                             ++ gradient_data (PyStr.upper (fctldash info)) fg
     else items = energy_data (PyStr.upper (fctldash info)) e) /\
    j' = set_provenance [("creator", "mp2d"); ("routine", "mp2d_harvest"); ("version", v)]
           (set_extras_qcvars (harvested_qcvars items)
              (set_stdout
                 (amalgamate m
                    ^^ print_variables E
                         (Dict.of_items (map (fun info => (label info, info)) items)))
                 j)).
Proof.
  unfold mp2d_harvest, bind, get, lift, modify, ret.
  destruct (mol_real (molecule j)) as [real|] eqn:Hreal; simpl; [| discriminate].
  destruct (scan_stdout _ _) as [[le vars]|] eqn:Hscan; simpl; [| discriminate].
  destruct (scan_else le (np_sum real) (driver j)) as [[]|] eqn:Helse; [| discriminate].
  destruct (parse_gradient E m (np_sum real)) as [realgrad|] eqn:Hparse; [| discriminate].
  destruct (collect_gradient E (driver j) real realgrad) as [fullgrad|] eqn:Hcollect;
    [| discriminate].
  destruct (extras_info j) as [info|] eqn:Hinfo; simpl; [| discriminate].
  destruct (ene vars) as [e|] eqn:Hene; simpl; [| discriminate].
  destruct (driver_is (driver j) "gradient") eqn:Hd.
  - destruct fullgrad as [fg|]; simpl; [| discriminate].
    destruct (version vars) as [v|] eqn:Hver; simpl; [| discriminate].
    intros [= <-].
    exists real, le, vars, realgrad, (Some fg), info, e, v,
      (energy_data (PyStr.upper (fctldash info)) e
         ++ gradient_data (PyStr.upper (fctldash info)) fg).
    repeat split; auto. exists fg. auto.
  - destruct (version vars) as [v|] eqn:Hver; simpl; [| discriminate].
    intros [= <-].
    exists real, le, vars, realgrad, fullgrad, info, e, v,
      (energy_data (PyStr.upper (fctldash info)) e).
    repeat split; auto.
Qed.

End HarvestFacts.

(* ================================================================== *)
(** ** The planner and the orchestrator, step by step *)

Section DriverFacts.

Context {float KwVal MolBody Molrec : Type}.
Variable E : Externals float KwVal MolBody Molrec.

Local Abbreviation JobRec := (Jobrec float KwVal MolBody).
Local Abbreviation WORLD := (World float KwVal MolBody).

Lemma mp2d_plant_ok (j j1 : JobRec) (m : Modulerec) :
  mp2d_plant E j = (j1, Ok m) <->
  exists info molrec args,
    resolved E j = Ok info /\
    from_schema E (molecule j) = Ok molrec /\
    mp2d_coeff_formatter E (dashlevel info) (dashparams info) = Ok args /\
    j1 = set_molecule_real (molrec_real E molrec) (set_extras_info info j) /\
    m = plan_of E (driver j) molrec args.
Proof.
  unfold mp2d_plant, resolved, plan_of, bind, get, lift, modify, ret. split.
  - destruct (from_arrays E _ _ _ _) as [info|]; [| discriminate].
    destruct (from_schema E (molecule j)) as [molrec|]; simpl; [| discriminate].
    destruct (mp2d_coeff_formatter E _ _) as [args|] eqn:Hf; [| discriminate].
    intros [= <- <-]. exists info, molrec, args. repeat split; auto.
  - intros (info & molrec & args & -> & -> & Hf & -> & ->). simpl.
    rewrite Hf. reflexivity.
Qed.

(** Whatever the planner does, it leaves the driver and the log of the
    world alone. *)
Lemma mp2d_plant_driver (j : JobRec) :
  driver (fst (mp2d_plant E j)) = driver j.
Proof.
  unfold mp2d_plant, bind, get, lift, modify, ret.
  destruct (from_arrays E _ _ _ _) as [info|]; [| reflexivity].
  destruct (from_schema E (molecule j)) as [molrec|]; simpl; [| reflexivity].
  destruct (mp2d_coeff_formatter E _ _) as [args|]; reflexivity.
Qed.

Lemma mp2d_driver_ok (w w' : WORLD) :
  mp2d_driver E w = (w', Ok tt) ->
  exists j1 m out j2,
    mp2d_plant E (jobrec w) = (j1, Ok m) /\
    run_process E m = Ok out /\
    mp2d_harvest E out j1 = (j2, Ok tt) /\
    w' = {| jobrec := j2; spawned := spawned w ++ [command m] |}.
Proof.
  unfold mp2d_driver, module_driver, bind, on_jobrec, lift, modify, log_spawn.
  destruct (mp2d_plant E (jobrec w)) as [j1 [m|]] eqn:Hp; simpl; [| discriminate].
  destruct (run_process E m) as [out|] eqn:Hr; [| discriminate].
  simpl. destruct (mp2d_harvest E out j1) as [j2 [[]|]] eqn:Hh; [| discriminate].
  intros [= <-]. exists j1, m, out, j2. auto.
Qed.

End DriverFacts.

Section RunJsonFacts.

Context {float KwVal MolBody Molrec : Type}.
Variable E : Externals float KwVal MolBody Molrec.

Local Abbreviation JobRec := (Jobrec float KwVal MolBody).
Local Abbreviation WORLD := (World float KwVal MolBody).

(** The guard of [run_json]: a derivative above the gradient is refused
    on the spot. *)
Lemma run_json_refused (w : WORLD) :
  1 < derivative_int (driver (jobrec w)) ->
  run_json E w =
    ({| jobrec := set_error "input_error"
                    "MP2D produces max gradient, not {jobrec['driver']}"
                    (set_success false (prepared E (jobrec w)));
        spawned := spawned w |},
     Raise (InputError ("MP2D valid driver options are 'energy' and 'gradient', not "
                        ^^ driver_value (driver (jobrec w))))).
Proof.
  intros Hd. apply Nat.ltb_lt in Hd.
  unfold run_json, prepared, bind, on_jobrec, get, modify, raise, ret.
  cbn [jobrec spawned driver model_method set_provenance String.append].
  destruct (PyStr.startswith "mp2d-" (model_method (jobrec w)));
    cbn [jobrec spawned driver set_provenance set_model_method];
    rewrite Hd; reflexivity.
Qed.

(** The world after the call of [mp2d_driver] inside [run_json]. *)
Lemma run_json_unfold (w : WORLD) :
  derivative_int (driver (jobrec w)) <= 1 ->
  run_json E w =
    (let w0 := {| jobrec := prepared E (jobrec w); spawned := spawned w |} in
     match mp2d_driver E w0 with
     | (w1, Raise exc) =>
         ({| jobrec := set_error (exn_name exc) (format_exception E exc)
                         (set_success false (jobrec w1));
             spawned := spawned w1 |}, Raise exc)
     | (w1, Ok _) =>
         let j1 := set_success true (jobrec w1) in
         match extras_qcvars j1 with
         | None => ({| jobrec := j1; spawned := spawned w1 |}, Raise (KeyError "qcvars"))
         | Some qcvars =>
             match Dict.get "DISPERSION CORRECTION ENERGY" qcvars with
             | None => ({| jobrec := j1; spawned := spawned w1 |},
                        Raise (KeyError "DISPERSION CORRECTION ENERGY"))
             | Some ene =>
                 let qcvars' := Dict.set "CURRENT ENERGY" ene qcvars in
                 let j2 := set_properties ene (set_extras_qcvars qcvars' j1) in
                 let finish (j3 : JobRec) : WORLD * result unit :=
                   match mol_real (molecule j3) with
                   | Some real =>
                       ({| jobrec := set_molecule_real real j3; spawned := spawned w1 |},
                        Ok tt)
                   | None => ({| jobrec := j3; spawned := spawned w1 |},
                              Raise (KeyError "real"))
                   end in
                 if driver_is (driver j1) "energy"
                 then finish (set_return_result ene j2)
                 else if driver_is (driver j1) "gradient" then
                   match Dict.get "DISPERSION CORRECTION GRADIENT" qcvars' with
                   | Some grad =>
                       finish (set_return_result grad
                                 (set_extras_qcvars
                                    (Dict.set "CURRENT GRADIENT" grad qcvars') j2))
                   | None => ({| jobrec := j2; spawned := spawned w1 |},
                              Raise (KeyError "DISPERSION CORRECTION GRADIENT"))
                   end
                 else finish j2
             end
         end
     end).
Proof.
  intros Hd. apply Nat.ltb_ge in Hd.
  unfold run_json, prepared, bind, on_jobrec, get, modify, raise, ret, lift,
    try_except, Dict.getitem, require.
  cbn [jobrec spawned driver model_method set_provenance String.append].
  destruct (PyStr.startswith "mp2d-" (model_method (jobrec w)));
    cbn [jobrec spawned driver set_provenance set_model_method];
    rewrite Hd;
    match goal with
    | |- context [mp2d_driver E ?w0] =>
        destruct (mp2d_driver E w0) as [w1 [[]|exc]]; simpl; [| reflexivity]
    end;
    (destruct (extras_qcvars (jobrec w1)) as [qcvars|]; simpl; [| reflexivity];
     destruct (Dict.get "DISPERSION CORRECTION ENERGY" qcvars) as [e|]; simpl;
       [| reflexivity];
     destruct (driver_is (driver (jobrec w1)) "energy"); simpl;
       [destruct (mol_real (molecule (jobrec w1))); reflexivity |];
     destruct (driver_is (driver (jobrec w1)) "gradient"); simpl;
       [| destruct (mol_real (molecule (jobrec w1))); reflexivity];
     destruct (Dict.get "DISPERSION CORRECTION GRADIENT" _) as [g|]; simpl;
       [| reflexivity];
     destruct (mol_real (molecule (jobrec w1))); reflexivity).
Qed.

End RunJsonFacts.

Section Success.

Context {float KwVal MolBody Molrec : Type}.
Variable E : Externals float KwVal MolBody Molrec.

Local Abbreviation JobRec := (Jobrec float KwVal MolBody).
Local Abbreviation WORLD := (World float KwVal MolBody).

Lemma run_json_ok (w : WORLD) :
  snd (run_json E w) = Ok tt ->
  exists j1 m out j2 qcvars e real,
    mp2d_plant E (prepared E (jobrec w)) = (j1, Ok m) /\
    run_process E m = Ok out /\
    mp2d_harvest E out j1 = (j2, Ok tt) /\
    extras_qcvars j2 = Some qcvars /\
    Dict.get "DISPERSION CORRECTION ENERGY" qcvars = Some e /\
    mol_real (molecule j2) = Some real /\
    (driver_is (driver j2) "energy" = false -> driver_is (driver j2) "gradient" = true ->
     Dict.get "DISPERSION CORRECTION GRADIENT" (Dict.set "CURRENT ENERGY" e qcvars)
       <> None) /\
    run_json E w = ({| jobrec := finished j2 qcvars e real;
                       spawned := spawned w ++ [command m] |}, Ok tt).
Proof.
  intros H.
  destruct (Nat.le_gt_cases (derivative_int (driver (jobrec w))) 1) as [Hd | Hd].
  2:{ rewrite (run_json_refused E w Hd) in H. discriminate. }
  rewrite (run_json_unfold E w Hd) in *. cbv zeta in *.
  destruct (mp2d_driver E _) as [w1 [[]|exc]] eqn:Hdrv; [| discriminate].
  apply mp2d_driver_ok in Hdrv. destruct Hdrv as (j1 & m & out & j2 & Hp & Hr & Hh & ->).
  cbn [jobrec spawned] in *.
  exists j1, m, out, j2.
  unfold finished.
  change (extras_qcvars (set_success true j2)) with (extras_qcvars j2) in *.
  change (driver (set_success true j2)) with (driver j2) in *.
  destruct (extras_qcvars j2) as [qcvars|] eqn:Hq; [| discriminate].
  destruct (Dict.get "DISPERSION CORRECTION ENERGY" qcvars) as [e|] eqn:Hk1;
    [| discriminate].
  exists qcvars, e.
  destruct (driver_is (driver j2) "energy") eqn:He.
  - cbn [molecule set_return_result set_properties set_extras_qcvars set_success] in *.
    destruct (mol_real (molecule j2)) as [real|]; [| discriminate].
    exists real. repeat split; auto. discriminate.
  - destruct (driver_is (driver j2) "gradient") eqn:Hg.
    + destruct (Dict.get "DISPERSION CORRECTION GRADIENT" _) as [g|] eqn:Hg1;
        [| discriminate].
      cbn [molecule set_return_result set_properties set_extras_qcvars set_success] in *.
      destruct (mol_real (molecule j2)) as [real|]; [| discriminate].
      exists real. repeat split; auto. intros _ _. congruence.
    + cbn [molecule set_return_result set_properties set_extras_qcvars set_success] in *.
      destruct (mol_real (molecule j2)) as [real|]; [| discriminate].
      exists real. repeat split; auto. discriminate.
Qed.

End Success.

Section QuantityMap.

Context {float : Type}.
Implicit Types (items : list (Datum float)) (e : Dec.Decimal)
         (fg : list (list float)) (q k : string).

Lemma energy_data_sound q e fg info :
  In info (energy_data q e) -> sound_datum e fg info.
Proof.
  unfold energy_data. intros H. apply in_app_or in H. destruct H as [H | H].
  - destruct H as [<- | [<- | []]]; left; split; reflexivity.
  - destruct (String.eqb q EmptyString); [contradiction |].
    destruct H as [<- | []]. left. split; [| reflexivity]. simpl.
    rewrite last_char_append; [reflexivity | discriminate].
Qed.

Lemma gradient_data_sound q e fg info :
  In info (gradient_data q fg) -> sound_datum e fg info.
Proof.
  unfold gradient_data. intros H. apply in_app_or in H. destruct H as [H | H].
  - destruct H as [<- | [<- | []]]; right; split; reflexivity.
  - destruct (String.eqb q EmptyString); [contradiction |].
    destruct H as [<- | []]. right. split; [| reflexivity]. simpl.
    rewrite last_char_append; [reflexivity | discriminate].
Qed.

Lemma harvested_get_In items k v :
  Dict.get k (harvested_qcvars items) = Some v ->
  exists info, In info items /\ label info = k /\ v = unnp_flat (data info).
Proof.
  unfold harvested_qcvars. rewrite DictFacts.get_map_values.
  destruct (Dict.get k _) as [v0|] eqn:Hg; simpl; [| discriminate].
  intros [= <-]. apply DictFacts.get_of_items_In in Hg.
  apply in_map_iff in Hg. destruct Hg as (info & [= <- <-] & Hin).
  exists info. auto.
Qed.

Lemma harvested_In_get items info :
  In info items -> Dict.get (label info) (harvested_qcvars items) <> None.
Proof.
  intros Hin. unfold harvested_qcvars. rewrite DictFacts.get_map_values.
  destruct (Dict.get _ _) eqn:Hg; simpl; [discriminate |].
  exfalso. revert Hg. apply (DictFacts.In_get_of_items _ (data info)).
  apply in_map_iff. exists info. auto.
Qed.

(** The entry of an energy label is the energy. *)
Lemma harvested_energy items e fg info :
  (forall i, In i items -> sound_datum e fg i) ->
  In info items -> last_char (label info) = Some "Y"%char ->
  Dict.get (label info) (harvested_qcvars items) = Some (QDecimal e).
Proof.
  intros Hs Hin Hy.
  destruct (Dict.get _ _) as [v|] eqn:Hg; [| now apply harvested_In_get in Hg].
  apply harvested_get_In in Hg. destruct Hg as (i & Hi & Hl & ->).
  destruct (Hs i Hi) as [[_ ->] | [Ht _]]; [reflexivity |].
  rewrite Hl, Hy in Ht. discriminate.
Qed.

(** The entry of a gradient label is the flat list of the gradient. *)
Lemma harvested_gradient items e fg info :
  (forall i, In i items -> sound_datum e fg i) ->
  In info items -> last_char (label info) = Some "T"%char ->
  Dict.get (label info) (harvested_qcvars items) = Some (QList (concat fg)).
Proof.
  intros Hs Hin Hy.
  destruct (Dict.get _ _) as [v|] eqn:Hg; [| now apply harvested_In_get in Hg].
  apply harvested_get_In in Hg. destruct Hg as (i & Hi & Hl & ->).
  destruct (Hs i Hi) as [[Ht _] | [_ ->]]; [| reflexivity].
  rewrite Hl, Hy in Ht. discriminate.
Qed.

End QuantityMap.

(* ================================================================== *)
(** ** Properties of the planner and of the guard of the orchestrator *)

Section PlannerProperties.

Context {float KwVal MolBody Molrec : Type}.
Variable E : Externals float KwVal MolBody Molrec.

Local Abbreviation JobRec := (Jobrec float KwVal MolBody).
Local Abbreviation WORLD := (World float KwVal MolBody).

Lemma mp2d_coeff_formatter_ok (lvl : string) (coeff : Dict.t float) (args : list string) :
  mp2d_coeff_formatter E lvl coeff = Ok args <->
  PyStr.lower lvl = "dmp2" /\
  exists a1 a2 rcut w s8,
    Dict.get "a1" coeff = Some a1 /\ Dict.get "a2" coeff = Some a2 /\
    Dict.get "rcut" coeff = Some rcut /\ Dict.get "w" coeff = Some w /\
    Dict.get "s8" coeff = Some s8 /\
    args = [ "--TT_a1=" ^^ str_float E a1; "--TT_a2=" ^^ str_float E a2;
             "--rcut=" ^^ str_float E rcut; "--w=" ^^ str_float E w;
             "--s8=" ^^ str_float E s8 ].
Proof.
  unfold mp2d_coeff_formatter, Dict.getitem, rbind. split.
  - destruct (String.eqb (PyStr.lower lvl) "dmp2") eqn:Hl; [| discriminate].
    apply String.eqb_eq in Hl.
    destruct (Dict.get "a1" coeff) as [a1|]; [| discriminate].
    destruct (Dict.get "a2" coeff) as [a2|]; [| discriminate].
    destruct (Dict.get "rcut" coeff) as [rcut|]; [| discriminate].
    destruct (Dict.get "w" coeff) as [w|]; [| discriminate].
    destruct (Dict.get "s8" coeff) as [s8|]; [| discriminate].
    intros [= <-]. split; [exact Hl |]. exists a1, a2, rcut, w, s8. repeat split.
  - intros (Hl & a1 & a2 & rcut & w & s8 & -> & -> & -> & -> & -> & ->).
    rewrite Hl. reflexivity.
Qed.

Lemma mp2d_coeff_formatter_other (lvl : string) (coeff : Dict.t float) :
  PyStr.lower lvl <> "dmp2" ->
  mp2d_coeff_formatter E lvl coeff
  = Raise (InputError ("-D correction level " ^^ PyStr.lower lvl
                       ^^ " is not available. Choose among "
                       ^^ Dict.str_keys coeff ^^ ".")).
Proof.
  intros Hl. unfold mp2d_coeff_formatter.
  apply String.eqb_neq in Hl. rewrite Hl. reflexivity.
Qed.

(** C7. For every planned request (its level is then [dmp2] up to case),
    the command is the program name, the geometry file name, the flag
    [--gradient] exactly when the driver is the gradient, and the five
    coefficient arguments [--TT_a1=], [--TT_a2=], [--rcut=], [--w=] and
    [--s8=] in this order, each value in its default string conversion. *)
Theorem C7_command_line (j j1 : JobRec) (m : Modulerec) :
  mp2d_plant E j = (j1, Ok m) ->
  exists info a1 a2 rcut w s8,
    extras_info j1 = Some info /\
    PyStr.lower (dashlevel info) = "dmp2" /\
    Dict.get "a1" (dashparams info) = Some a1 /\
    Dict.get "a2" (dashparams info) = Some a2 /\
    Dict.get "rcut" (dashparams info) = Some rcut /\
    Dict.get "w" (dashparams info) = Some w /\
    Dict.get "s8" (dashparams info) = Some s8 /\
    command m =
      "mp2d" :: "mp2d_geometry"
        :: (if driver_is (driver j) "gradient" then ["--gradient"] else [])
        ++ [ "--TT_a1=" ^^ str_float E a1; "--TT_a2=" ^^ str_float E a2;
             "--rcut=" ^^ str_float E rcut; "--w=" ^^ str_float E w;
             "--s8=" ^^ str_float E s8 ] /\
    (driver j = gradient <-> nth_error (command m) 2 = Some "--gradient").
Proof.
  intros H. apply mp2d_plant_ok in H.
  destruct H as (info & molrec & args & _ & _ & Hf & -> & ->).
  apply mp2d_coeff_formatter_ok in Hf.
  destruct Hf as (Hl & a1 & a2 & rcut & w & s8 & H1 & H2 & H3 & H4 & H5 & ->).
  exists info, a1, a2, rcut, w, s8. repeat split; auto.
  - unfold plan_of. cbn [command]. destruct (driver_is (driver j) "gradient"); reflexivity.
  - intros ->. reflexivity.
  - unfold plan_of. cbn [command]. destruct (driver j); try reflexivity; discriminate.
Qed.

(** C2, amended. A resolved level whose lower case is not [dmp2] makes
    the planner fail with [InputError]; the message names the level in
    lower case; no plan is returned and nothing is handed to the process
    runner. *)
Theorem C2_unsupported_level (w : WORLD) (info : DashInfo float) (molrec : Molrec) :
  resolved E (jobrec w) = Ok info ->
  from_schema E (molecule (jobrec w)) = Ok molrec ->
  PyStr.lower (dashlevel info) <> "dmp2" ->
  exists rest,
    let exc := InputError ("-D correction level " ^^ PyStr.lower (dashlevel info)
                           ^^ " is not available. Choose among " ^^ rest) in
    snd (mp2d_plant E (jobrec w)) = Raise exc /\
    snd (mp2d_driver E w) = Raise exc /\
    spawned (fst (mp2d_driver E w)) = spawned w.
Proof.
  intros Hr Hs Hl. exists (Dict.str_keys (dashparams info) ^^ ".").
  assert (Hp : mp2d_plant E (jobrec w)
               = (set_molecule_real (molrec_real E molrec) (set_extras_info info (jobrec w)),
                  Raise (InputError ("-D correction level " ^^ PyStr.lower (dashlevel info)
                                     ^^ " is not available. Choose among "
                                     ^^ Dict.str_keys (dashparams info) ^^ ".")))).
  { unfold mp2d_plant, bind, get, lift, modify, ret. unfold resolved in Hr.
    rewrite Hr, Hs. cbn beta iota.
    rewrite (mp2d_coeff_formatter_other _ _ Hl). reflexivity. }
  cbv zeta. unfold mp2d_driver, module_driver, bind, on_jobrec.
  rewrite Hp. cbn [fst snd jobrec spawned]. auto.
Qed.


(** C10. The message recorded in the [error] field of a request refused
    for its driver is the template text as it is written, braces
    included, whatever the driver. *)
Theorem C10_error_message_literal (w : WORLD) :
  1 < derivative_int (driver (jobrec w)) ->
  error (jobrec (fst (run_json E w)))
  = Some ("input_error", "MP2D produces max gradient, not {jobrec['driver']}").
Proof.
  intros Hd. rewrite (run_json_refused E w Hd). reflexivity.
Qed.

End PlannerProperties.

(* ================================================================== *)
(** ** Properties of the harvester *)

Section HarvesterProperties.

Context {float KwVal MolBody Molrec : Type}.
Variable E : Externals float KwVal MolBody Molrec.

Local Abbreviation JobRec := (Jobrec float KwVal MolBody).

Lemma parse_gradient_absent (m : ProcessOutcome) (n : nat) :
  Dict.get "mp2d_gradient" (po_outfiles m) = Some None ->
  parse_gradient E m n = Ok None.
Proof. intros H. unfold parse_gradient, Dict.getitem. rewrite H. reflexivity. Qed.

(** A gradient file that is there leaves [realgrad] assigned, or the
    reshape fails. *)
Lemma parse_gradient_present (m : ProcessOutcome) (n : nat) (s : string) :
  Dict.get "mp2d_gradient" (po_outfiles m) = Some (Some s) ->
  (exists rows, parse_gradient E m n = Ok (Some rows) /\
                reshape3 (np_fromstring E s (3 * n)) = Ok rows) \/
  (exists msg, parse_gradient E m n = Raise (ValueError msg)).
Proof.
  intros H. unfold parse_gradient, Dict.getitem. rewrite H. cbn [rbind].
  generalize (np_fromstring E s (3 * n)). intros a.
  destruct (reshape3 a) as [rows|e] eqn:Hr; cbn [rbind].
  - left. exists rows. auto.
  - right. revert e Hr. clear.
    assert (G : forall (a : list float) e, reshape3 a = Raise e -> exists msg, e = ValueError msg).
    { fix IH 1. intros [|x [|y [|z r]]] e; simpl; try discriminate;
        try (intros [= <-]; eexists; reflexivity).
      destruct (reshape3 r) as [rows|e'] eqn:Hr; simpl; [discriminate |].
      intros [= <-]. exact (IH r e' Hr). }
    intros e Hr. destruct (G a e Hr) as [msg ->]. now exists msg.
Qed.

Lemma collect_gradient_unassigned (real : list bool) (d : DriverEnum) :
  driver_is d "gradient" = true ->
  collect_gradient E d real None
  = Raise (UnknownError "Unsuccessful gradient collection.").
Proof. intros Hd. unfold collect_gradient. rewrite Hd. reflexivity. Qed.

(** With [realgrad] assigned, the gradient branch gives an array or a
    [ValueError] of the assignment. *)
Lemma collect_gradient_assigned (real : list bool) (d : DriverEnum)
      (rows : list (list float)) :
  (exists fullgrad, collect_gradient E d real (Some rows) = Ok fullgrad) \/
  (exists msg, collect_gradient E d real (Some rows) = Raise (ValueError msg)).
Proof.
  unfold collect_gradient. destruct (driver_is d "gradient"); [| left; eauto].
  cbn [require rbind]. unfold assign_rows, broadcast_rows.
  destruct (Nat.eqb (length rows) (length (argwhere real))); cbn [rbind]; [left; eauto |].
  destruct rows as [|row [|row' rows]]; cbn [rbind is_NameError]; eauto.
Qed.

(** With as many rows as real atoms, the gradient branch scatters them
    over a zero array. *)
Lemma collect_gradient_scatter (real : list bool) (d : DriverEnum)
      (rows : list (list float)) :
  driver_is d "gradient" = true ->
  length rows = np_sum real ->
  collect_gradient E d real (Some rows)
  = Ok (Some (scatter [np_zero E; np_zero E; np_zero E] real rows)).
Proof.
  intros Hd Hl. unfold collect_gradient. rewrite Hd. cbn [require rbind].
  unfold assign_rows, broadcast_rows. rewrite argwhere_length, Hl, Nat.eqb_refl.
  cbn [rbind]. unfold argwhere, np_zeros3.
  pose proof (fold_set_row_scatter [np_zero E; np_zero E; np_zero E] real rows [] Hl)
    as Hfold.
  cbn [length app] in Hfold. rewrite Hfold. reflexivity.
Qed.

(** C1, amended. When the scan runs through all the lines of stdout
    (no coordinates line stops it; in particular when it does so without
    an energy line), the harvester raises [UnknownError] with the
    message of the scan and leaves the job record as it was, unless
    there is exactly one real atom and the driver is the gradient: then
    this error is not raised. *)
Theorem C1_scan_without_end_marker (m : ProcessOutcome) (j : JobRec)
        (real : list bool) (vars : ScanVars) :
  mol_real (molecule j) = Some real ->
  scan_stdout (PyStr.splitlines (po_stdout m)) {| version := None; ene := None |}
    = Ok (Exhausted, vars) ->
  if Nat.eqb (np_sum real) 1 && driver_is (driver j) "gradient"
  then snd (mp2d_harvest E m j) <> Raise (UnknownError "Unknown issue occured.")
  else mp2d_harvest E m j = (j, Raise (UnknownError "Unknown issue occured.")).
Proof.
  intros Hreal Hscan.
  unfold mp2d_harvest, bind, get, lift, modify, ret.
  rewrite Hreal. cbn [require]. rewrite Hscan. cbn [fst snd]. unfold scan_else.
  destruct (Nat.eqb (np_sum real) 1 && driver_is (driver j) "gradient") eqn:Hdeg;
    cbn [negb]; [| reflexivity].
  apply andb_prop in Hdeg. destruct Hdeg as [_ Hd].
  destruct (parse_gradient E m (np_sum real)) as [realgrad|e] eqn:Hp.
  2:{ cbn [snd]. unfold parse_gradient, Dict.getitem in Hp.
      destruct (Dict.get "mp2d_gradient" (po_outfiles m)) as [[s|]|] eqn:Hg;
        cbn [rbind] in Hp; try discriminate.
      - destruct (parse_gradient_present m (np_sum real) s Hg)
          as [(rows & Hp' & _) | (msg & Hp')];
          unfold parse_gradient, Dict.getitem in Hp'; rewrite Hg in Hp';
          cbn [rbind] in Hp'; rewrite Hp' in Hp; [discriminate |].
        injection Hp as <-. discriminate.
      - injection Hp as <-. discriminate. }
  destruct realgrad as [rows|].
  - destruct (collect_gradient_assigned real (driver j) rows) as [[fg ->] | [msg ->]];
      [| cbn [snd]; discriminate].
    destruct (extras_info j); cbn [require snd]; [| discriminate].
    destruct (ene vars); cbn [require snd]; [| discriminate].
    rewrite Hd. destruct fg; cbn [require snd]; [| discriminate].
    destruct (version vars); cbn [require snd]; discriminate.
  - rewrite (collect_gradient_unassigned real (driver j) Hd). cbn [snd]. discriminate.
Qed.

(** Without an energy line the harvester never returns: some step after
    the scan fails. *)
Lemma mp2d_harvest_needs_energy (m : ProcessOutcome) (j : JobRec)
      (le : LoopEnd) (vars : ScanVars) :
  scan_stdout (PyStr.splitlines (po_stdout m)) {| version := None; ene := None |}
    = Ok (le, vars) ->
  ene vars = None -> snd (mp2d_harvest E m j) <> Ok tt.
Proof.
  intros Hscan Hene Hok.
  destruct (mp2d_harvest E m j) as [j' r] eqn:Hh. cbn [snd] in Hok. subst r.
  apply mp2d_harvest_ok in Hh.
  destruct Hh as (real' & le' & vars' & rg & fg & info & e & v & items
                  & _ & Hscan' & _ & _ & _ & _ & He & _).
  rewrite Hscan in Hscan'. injection Hscan' as _ <-. congruence.
Qed.

(** C5, amended. With the gradient driver, a scan that passed and a
    gradient file that is absent, the harvester raises [UnknownError]
    with the message of the gradient collection; with a gradient file
    that is there, whatever it holds, this error is never raised. *)
Theorem C5_gradient_not_collected (m : ProcessOutcome) (j : JobRec) :
  driver j = gradient ->
  (forall real le vars,
      mol_real (molecule j) = Some real ->
      scan_stdout (PyStr.splitlines (po_stdout m)) {| version := None; ene := None |}
        = Ok (le, vars) ->
      scan_else le (np_sum real) (driver j) = Ok tt ->
      Dict.get "mp2d_gradient" (po_outfiles m) = Some None ->
      mp2d_harvest E m j
      = (j, Raise (UnknownError "Unsuccessful gradient collection."))) /\
  (forall s,
      Dict.get "mp2d_gradient" (po_outfiles m) = Some (Some s) ->
      snd (mp2d_harvest E m j)
      <> Raise (UnknownError "Unsuccessful gradient collection.")).
Proof.
  intros Hd. split.
  - intros real le vars Hreal Hscan Helse Hg.
    unfold mp2d_harvest, bind, get, lift, modify, ret.
    rewrite Hreal. cbn [require]. rewrite Hscan. cbn [fst snd]. rewrite Helse.
    rewrite (parse_gradient_absent m _ Hg).
    rewrite collect_gradient_unassigned; [reflexivity | rewrite Hd; reflexivity].
  - intros s Hg.
    unfold mp2d_harvest, bind, get, lift, modify, ret.
    destruct (mol_real (molecule j)) as [real|]; cbn [require snd]; [| discriminate].
    destruct (scan_stdout _ _) as [[le vars]|e] eqn:Hscan; cbn [fst snd].
    2:{ intros [= ->]. revert Hscan. generalize {| version := None; ene := None |}.
        induction (PyStr.splitlines (po_stdout m)) as [|ln rest IH]; simpl; intros v0;
          [discriminate |].
        destruct (is_version_line ln); [apply IH |].
        destruct (is_energy_line ln).
        - unfold energy_of_line.
          destruct (nth_error (PyStr.split ln) 4) as [tok|]; cbn [rbind]; [| discriminate].
          destruct (Dec.of_string tok); cbn [require rbind]; [apply IH | discriminate].
        - destruct (is_coordinates_line ln); [discriminate | apply IH]. }
    destruct (scan_else le (np_sum real) (driver j)) as [[]|e] eqn:Helse; cbn [snd].
    2:{ unfold scan_else in Helse. destruct le; [| discriminate].
        destruct (negb _); [| discriminate]. injection Helse as <-. discriminate. }
    destruct (parse_gradient_present m (np_sum real) s Hg)
      as [(rows & -> & _) | (msg & ->)]; [| cbn [snd]; discriminate].
    destruct (collect_gradient_assigned real (driver j) rows) as [[fg ->] | [msg ->]];
      [| cbn [snd]; discriminate].
    destruct (extras_info j); cbn [require snd]; [| discriminate].
    destruct (ene vars); cbn [require snd]; [| discriminate].
    rewrite Hd. cbn [driver_is driver_value String.eqb Ascii.eqb Bool.eqb].
    destruct fg; cbn [require snd]; [| discriminate].
    destruct (version vars); cbn [require snd]; discriminate.
Qed.

End HarvesterProperties.

Section GradientProperties.

Context {float KwVal MolBody Molrec : Type}.
Variable E : Externals float KwVal MolBody Molrec.

Local Abbreviation JobRec := (Jobrec float KwVal MolBody).

(** The indices of the real atoms, in increasing order. *)
Lemma argwhere_from_filter (o : nat) (real : list bool) :
  argwhere_from o real
  = filter (fun i => nth (i - o) real false) (seq o (length real)).
Proof.
  revert o. induction real as [|b real IH]; intros o; [reflexivity |].
  cbn [argwhere_from length seq filter]. rewrite Nat.sub_diag. cbn [nth].
  rewrite IH.
  assert (Hext : filter (fun i => nth (i - S o) real false) (seq (S o) (length real))
                 = filter (fun i => nth (i - o) (b :: real) false)
                     (seq (S o) (length real))).
  { apply filter_ext_in. intros i Hi. apply in_seq in Hi.
    replace (i - o) with (S (i - S o)) by lia. reflexivity. }
  rewrite Hext. destruct b; reflexivity.
Qed.

Lemma argwhere_filter (real : list bool) :
  argwhere real = filter (fun i => nth i real false) (seq 0 (length real)).
Proof.
  unfold argwhere. rewrite argwhere_from_filter. apply filter_ext.
  intros i. now rewrite Nat.sub_0_r.
Qed.

Lemma all_items_sound (q : string) (e : Dec.Decimal) (fg : list (list float))
      (info : Datum float) :
  In info (energy_data q e ++ gradient_data q fg) -> sound_datum e fg info.
Proof.
  intros H. apply in_app_or in H. destruct H as [H | H].
  - eapply energy_data_sound; eauto.
  - eapply gradient_data_sound; eauto.
Qed.

(** C4. With the gradient driver, [N] atoms of which [R] are real, and a
    gradient file read as a flat sequence of exactly [3 * R] floats: the
    rows are parsed, the gradient array has [N] rows of three entries,
    the rows of the atoms that are not real are zero, the row of the
    [k]-th real atom is the [k]-th triple of the file, and this array,
    listed row after row, is what a successful harvest stores. *)
Theorem C4_gradient_array (m : ProcessOutcome) (j : JobRec) (real : list bool)
        (s : string) :
  driver j = gradient ->
  mol_real (molecule j) = Some real ->
  Dict.get "mp2d_gradient" (po_outfiles m) = Some (Some s) ->
  length (np_fromstring E s (3 * np_sum real)) = 3 * np_sum real ->
  let vals := np_fromstring E s (3 * np_sum real) in
  let zrow := [np_zero E; np_zero E; np_zero E] in
  exists rows fullgrad,
    parse_gradient E m (np_sum real) = Ok (Some rows) /\
    collect_gradient E (driver j) real (Some rows) = Ok (Some fullgrad) /\
    length fullgrad = length real /\
    (forall row, In row fullgrad -> length row = 3) /\
    (forall i, nth_error real i = Some false -> nth_error fullgrad i = Some zrow) /\
    argwhere real = filter (fun i => nth i real false) (seq 0 (length real)) /\
    (forall k i, nth_error (argwhere real) k = Some i ->
                 nth_error fullgrad i = Some (firstn 3 (skipn (3 * k) vals))) /\
    (forall j', mp2d_harvest E m j = (j', Ok tt) ->
                exists qcvars,
                  extras_qcvars j' = Some qcvars /\
                  Dict.get "DISPERSION CORRECTION GRADIENT" qcvars
                  = Some (QList (concat fullgrad))).
Proof.
  intros Hd Hreal Hg Hlen vals zrow.
  destruct (reshape3_ok (np_sum real) vals Hlen) as (rows & Hresh & Hrows & Hrow3 & Hnth).
  assert (Hparse : parse_gradient E m (np_sum real) = Ok (Some rows)).
  { unfold parse_gradient, Dict.getitem. rewrite Hg. cbn [rbind].
    fold vals. rewrite Hresh. reflexivity. }
  assert (Hdrv : driver_is (driver j) "gradient" = true) by (rewrite Hd; reflexivity).
  pose proof (collect_gradient_scatter E real (driver j) rows Hdrv Hrows) as Hcollect.
  fold zrow in Hcollect.
  exists rows, (scatter zrow real rows). repeat split.
  - exact Hparse.
  - exact Hcollect.
  - apply scatter_length.
  - intros row Hin. apply scatter_rows in Hin. destruct Hin as [-> | Hin];
      [reflexivity | now apply Hrow3].
  - intros i Hi. now apply scatter_not_real.
  - apply argwhere_filter.
  - intros k i Hk.
    assert (Hlt : k < np_sum real).
    { rewrite <- argwhere_length. apply nth_error_Some. congruence. }
    destruct (scatter_real zrow real rows 0 k i Hk ltac:(lia)) as [_ Hs].
    rewrite Nat.sub_0_r in Hs. rewrite Hs. now apply Hnth.
  - intros j' Hh. apply mp2d_harvest_ok in Hh.
    destruct Hh as (real' & le & vars & rg & fg & info & e & v & items
                    & Hreal' & _ & _ & Hparse' & Hcollect' & _ & _ & _ & Hitems & ->).
    rewrite Hreal in Hreal'. injection Hreal' as <-.
    rewrite Hparse in Hparse'. injection Hparse' as <-.
    rewrite Hcollect in Hcollect'. injection Hcollect' as <-.
    rewrite Hdrv in Hitems. destruct Hitems as (fg & [= <-] & ->).
    eexists. split; [reflexivity |].
    set (q := PyStr.upper (fctldash info)).
    apply (harvested_gradient _ e (scatter zrow real rows)
             {| label := "DISPERSION CORRECTION GRADIENT"; units := "Eh/a0";
                data := QArray (scatter zrow real rows) |}).
    + intros i. apply all_items_sound.
    + apply in_or_app. right. left. reflexivity.
    + reflexivity.
Qed.

End GradientProperties.

(* ================================================================== *)
(** ** Properties of a successful computation *)

Section ResultProperties.

Context {float KwVal MolBody Molrec : Type}.
Variable E : Externals float KwVal MolBody Molrec.

Local Abbreviation JobRec := (Jobrec float KwVal MolBody).
Local Abbreviation WORLD := (World float KwVal MolBody).

Lemma prepared_driver (j : JobRec) : driver (prepared E j) = driver j.
Proof. unfold prepared. destruct (PyStr.startswith _ _); reflexivity. Qed.

Lemma prepared_provenance (j : JobRec) :
  provenance (prepared E j) = provenance_stamp E "run_json.qcengine.programs.mp2d".
Proof. unfold prepared. destruct (PyStr.startswith _ _); reflexivity. Qed.

(** The quantity map of the returned record: the harvested one, with the
    [CURRENT] entries added. *)
Lemma finished_qcvars (j : JobRec) (q0 : Dict.t (qcval float)) (e : qcval float)
      (real : list bool) :
  exists qf,
    extras_qcvars (finished j q0 e real) = Some qf /\
    forall k, String.eqb k "CURRENT GRADIENT" = false ->
              Dict.get k qf
              = if String.eqb k "CURRENT ENERGY" then Some e else Dict.get k q0.
Proof.
  unfold finished.
  destruct (driver_is (driver j) "energy");
    [| destruct (driver_is (driver j) "gradient");
       [destruct (Dict.get "DISPERSION CORRECTION GRADIENT" _) as [g|] |]];
    cbn [extras_qcvars set_molecule_real set_return_result set_extras_qcvars
           set_properties set_success];
    eexists; (split; [reflexivity |]); intros k Hk;
    rewrite ?DictFacts.get_set, ?Hk; reflexivity.
Qed.

Lemma finished_fields (j : JobRec) (q0 : Dict.t (qcval float)) (e : qcval float)
      (real : list bool) :
  provenance (finished j q0 e real) = provenance j /\
  extras_info (finished j q0 e real) = extras_info j /\
  properties_return_energy (finished j q0 e real) = Some e /\
  success (finished j q0 e real) = true /\
  (driver j = energy -> return_result (finished j q0 e real) = Some e).
Proof.
  unfold finished.
  destruct (driver j) eqn:Hd; cbn [driver_is driver_value String.eqb Ascii.eqb Bool.eqb];
    try destruct (Dict.get "DISPERSION CORRECTION GRADIENT" _) as [g|];
    repeat split; try discriminate.
Qed.

(** What a successful computation went through. *)
Lemma run_json_success (w : WORLD) :
  snd (run_json E w) = Ok tt ->
  exists m out le vars info e v items real,
    run_process E m = Ok out /\
    scan_stdout (PyStr.splitlines (po_stdout out)) {| version := None; ene := None |}
      = Ok (le, vars) /\
    ene vars = Some e /\ version vars = Some v /\
    (forall i, In i items -> exists fg, sound_datum e fg i) /\
    (forall i, In i (energy_data (PyStr.upper (fctldash info)) e) -> In i items) /\
    (forall i, In i items ->
               In (label i)
                  (map (@label float) (energy_data (PyStr.upper (fctldash info)) e)) \/
               last_char (label i) = Some "T"%char) /\
    run_json E w
    = ({| jobrec :=
            finished
              (set_provenance
                 [("creator", "mp2d"); ("routine", "mp2d_harvest"); ("version", v)]
                 (set_extras_qcvars (harvested_qcvars items)
                    (set_stdout
                       (amalgamate out
                          ^^ print_variables E
                               (Dict.of_items (map (fun info => (label info, info)) items)))
                       (set_molecule_real real
                          (set_extras_info info (prepared E (jobrec w)))))))
              (harvested_qcvars items) (QDecimal e) real;
          spawned := spawned w ++ [command m] |}, Ok tt).
Proof.
  intros H. apply run_json_ok in H.
  destruct H as (j1 & m & out & j2 & qcvars & qe & real & Hp & Hr & Hh & Hq & Hk1 & Hreal
                 & _ & Hrun).
  apply mp2d_plant_ok in Hp.
  destruct Hp as (info & molrec & args & _ & _ & _ & -> & _).
  apply mp2d_harvest_ok in Hh.
  destruct Hh as (real' & le & vars & rg & fg & info' & e & v & items
                  & Hreal' & Hscan & _ & _ & _ & Hinfo & Hene & Hver & Hitems & ->).
  cbn [mol_real molecule extras_info extras_qcvars set_molecule_real set_extras_info
         set_provenance set_extras_qcvars set_stdout] in *.
  injection Hreal' as <-. injection Hinfo as <-. injection Hq as <-.
  injection Hreal as <-.
  assert (Hsound : forall i, In i items -> exists fg, sound_datum e fg i).
  { destruct (driver_is _ "gradient").
    - destruct Hitems as (fg' & _ & ->). intros i Hi. exists fg'.
      apply in_app_or in Hi. destruct Hi.
      + eapply energy_data_sound; eauto.
      + eapply gradient_data_sound; eauto.
    - subst items. intros i Hi. exists []. eapply energy_data_sound; eauto. }
  assert (Hsub : forall i, In i (energy_data (PyStr.upper (fctldash info)) e) -> In i items).
  { destruct (driver_is _ "gradient").
    - destruct Hitems as (fg' & _ & ->). intros i Hi. apply in_or_app. now left.
    - subst items. auto. }
  assert (Hlab : forall i, In i items ->
             In (label i)
                (map (@label float) (energy_data (PyStr.upper (fctldash info)) e)) \/
             last_char (label i) = Some "T"%char).
  { destruct (driver_is _ "gradient").
    - destruct Hitems as (fg' & _ & ->). intros i Hi. apply in_app_or in Hi.
      destruct Hi as [Hi | Hi]; [left; now apply in_map |].
      right. destruct (gradient_data_sound _ e fg' i Hi) as [[Hy Hdat] | [Ht _]];
        [| exact Ht].
      exfalso. unfold gradient_data in Hi. apply in_app_or in Hi.
      destruct Hi as [[<- | [<- | []]] | Hi]; try discriminate.
      destruct (String.eqb _ _); [contradiction |]. destruct Hi as [<- | []].
      discriminate.
    - subst items. intros i Hi. left. now apply in_map. }
  assert (Hqe : qe = QDecimal e).
  { pose proof (Hsub _ (or_introl eq_refl)) as Hin. cbn [energy_data app] in Hin.
    assert (Hget : Dict.get "DISPERSION CORRECTION ENERGY" (harvested_qcvars items)
                   <> None) by (apply (harvested_In_get items _ Hin)).
    destruct (harvested_get_In _ _ _ Hk1) as (i & Hi & Hl & ->).
    destruct (Hsound i Hi) as (fg' & [[_ ->] | [Ht _]]); [reflexivity |].
    rewrite Hl in Ht. discriminate. }
  subst qe.
  exists m, out, le, vars, info, e, v, items, (molrec_real E molrec).
  repeat split; auto.
Qed.

End ResultProperties.

(** Brings in the facts about the record a successful [run_json]
    returns, for the [finished] record of the goal. *)
Ltac finished_facts Hfields :=
  match goal with
  | |- context [finished ?J ?q0 ?qe ?r] =>
      pose proof (finished_fields J q0 qe r) as Hfields
  end.

Section ResultTheorems.

Context {float KwVal MolBody Molrec : Type}.
Variable E : Externals float KwVal MolBody Molrec.

Local Abbreviation JobRec := (Jobrec float KwVal MolBody).
Local Abbreviation WORLD := (World float KwVal MolBody).

Lemma energy_data_label (q : string) (e : Dec.Decimal) (i : Datum float) :
  In i (energy_data q e) ->
  last_char (label i) = Some "Y"%char /\ data i = QDecimal e.
Proof.
  unfold energy_data. intros H. apply in_app_or in H. destruct H as [H | H].
  - destruct H as [<- | [<- | []]]; split; reflexivity.
  - destruct (String.eqb q EmptyString); [contradiction |].
    destruct H as [<- | []]. split; [| reflexivity]. simpl.
    rewrite last_char_append; [reflexivity | discriminate].
Qed.

(** In the returned quantity map, every energy label of the harvester
    carries the energy. *)
Lemma energy_entry (items : list (Datum float)) (q : string) (e : Dec.Decimal)
      (qf : Dict.t (qcval float)) (i : Datum float) :
  (forall i, In i items -> exists fg, sound_datum e fg i) ->
  (forall i, In i (energy_data q e) -> In i items) ->
  (forall k, String.eqb k "CURRENT GRADIENT" = false ->
             Dict.get k qf
             = if String.eqb k "CURRENT ENERGY" then Some (QDecimal e)
               else Dict.get k (harvested_qcvars items)) ->
  In i (energy_data q e) ->
  Dict.get (label i) qf = Some (QDecimal e).
Proof.
  intros Hsound Hsub Hget Hi.
  destruct (energy_data_label q e i Hi) as [Hy _].
  rewrite Hget.
  2:{ apply String.eqb_neq. intros Heq. rewrite Heq in Hy. discriminate. }
  destruct (String.eqb (label i) "CURRENT ENERGY"); [reflexivity |].
  destruct (Dict.get (label i) (harvested_qcvars items)) as [v|] eqn:Hv.
  - apply harvested_get_In in Hv. destruct Hv as (i' & Hi' & Hl & ->).
    destruct (Hsound i' Hi') as (fg & [[_ ->] | [Ht _]]); [reflexivity |].
    rewrite Hl, Hy in Ht. discriminate.
  - exfalso. revert Hv. apply harvested_In_get. now apply Hsub.
Qed.

(** C8. After a successful computation the quantity map holds the
    parsed energy under [DISPERSION CORRECTION ENERGY], under
    [2-BODY DISPERSION CORRECTION ENERGY] and under [CURRENT ENERGY];
    with the energy driver the returned scalar is this energy; and the
    map has an entry under the upper-case label followed by
    [DISPERSION CORRECTION ENERGY] exactly when the label is not empty. *)
Theorem C8_energy_quantities (w : WORLD) :
  snd (run_json E w) = Ok tt ->
  let jf := jobrec (fst (run_json E w)) in
  exists qcvars info e,
    extras_qcvars jf = Some qcvars /\
    extras_info jf = Some info /\
    Dict.get "DISPERSION CORRECTION ENERGY" qcvars = Some (QDecimal e) /\
    Dict.get "2-BODY DISPERSION CORRECTION ENERGY" qcvars = Some (QDecimal e) /\
    Dict.get "CURRENT ENERGY" qcvars = Some (QDecimal e) /\
    properties_return_energy jf = Some (QDecimal e) /\
    (driver (jobrec w) = energy -> return_result jf = Some (QDecimal e)) /\
    (fctldash info <> EmptyString <->
     Dict.get (PyStr.upper (fctldash info) ^^ " DISPERSION CORRECTION ENERGY") qcvars
     <> None) /\
    (fctldash info <> EmptyString ->
     Dict.get (PyStr.upper (fctldash info) ^^ " DISPERSION CORRECTION ENERGY") qcvars
     = Some (QDecimal e)).
Proof.
  intros H jf.
  destruct (run_json_success E w H)
    as (m & out & le & vars & info & e & v & items & real
        & Hr & Hscan & Hene & Hver & Hsound & Hsub & Hlab & Hrun).
  subst jf. rewrite Hrun. cbn [fst jobrec].
  finished_facts Hf. destruct Hf as (Hprov & Hinfo & Hprop & Hsucc & Hret).
  match goal with
  | |- context [finished ?J ?q0 ?qe ?r] =>
      destruct (finished_qcvars J q0 qe r) as (qf & Hqf & Hget)
  end.
  rewrite Hqf, Hinfo, Hprop.
  exists qf, info, e.
  set (q := PyStr.upper (fctldash info)) in *.
  pose proof (energy_entry items q e qf) as Hentry.
  specialize (fun i => Hentry i Hsound Hsub Hget).
  assert (Hlabel : fctldash info <> EmptyString ->
                   Dict.get (q ^^ " DISPERSION CORRECTION ENERGY") qf = Some (QDecimal e)).
  { intros Hne.
    apply (Hentry {| label := q ^^ " DISPERSION CORRECTION ENERGY"; units := "Eh";
                     data := QDecimal e |}).
    unfold energy_data. apply in_or_app. right.
    assert (Hq : String.eqb q EmptyString = false).
    { apply String.eqb_neq. unfold q. rewrite upper_eq_empty. exact Hne. }
    rewrite Hq. now left. }
  repeat split.
  - apply (Hentry {| label := "DISPERSION CORRECTION ENERGY"; units := "Eh";
                     data := QDecimal e |}).
    unfold energy_data. apply in_or_app. left. now left.
  - apply (Hentry {| label := "2-BODY DISPERSION CORRECTION ENERGY"; units := "Eh";
                     data := QDecimal e |}).
    unfold energy_data. apply in_or_app. left. right. now left.
  - rewrite Hget; reflexivity.
  - intros Hd. apply Hret. cbn [driver set_provenance set_extras_qcvars set_stdout
                                  set_molecule_real set_extras_info].
    rewrite prepared_driver. exact Hd.
  - intros Hne. rewrite (Hlabel Hne). discriminate.
  - intros Hsome Hempty. apply Hsome. clear Hsome Hlabel.
    unfold q in *. rewrite Hempty in *. cbn [PyStr.upper PyStr.map_chars String.append] in *.
    rewrite Hget by reflexivity.
    cbn [String.eqb Ascii.eqb Bool.eqb].
    destruct (Dict.get _ (harvested_qcvars items)) as [x|] eqn:Hx; [| reflexivity].
    exfalso. apply harvested_get_In in Hx. destruct Hx as (i & Hi & Hl & _).
    destruct (Hlab i Hi) as [Hin | Ht].
    + rewrite Hl in Hin. cbn in Hin. destruct Hin as [Hin | [Hin | []]]; discriminate.
    + rewrite Hl in Ht. discriminate.
  - exact Hlabel.
Qed.

(** C9, amended. After a successful computation the provenance is the
    one of the harvester: creator [mp2d], routine [mp2d_harvest], and
    the version derived from a version line of stdout; it has replaced
    the stamp of the orchestrator. *)
Theorem C9_provenance_of_harvester (w : WORLD) :
  snd (run_json E w) = Ok tt ->
  exists m out ln,
    run_process E m = Ok out /\
    In ln (PyStr.splitlines (po_stdout out)) /\
    is_version_line ln = true /\
    provenance (jobrec (fst (run_json E w)))
    = [("creator", "mp2d"); ("routine", "mp2d_harvest");
       ("version", version_of_line ln)] /\
    provenance (jobrec (fst (run_json E w)))
    <> provenance_stamp E "run_json.qcengine.programs.mp2d".
Proof.
  intros H.
  destruct (run_json_success E w H)
    as (m & out & le & vars & info & e & v & items & real
        & Hr & Hscan & Hene & Hver & Hsound & Hsub & Hlab & Hrun).
  destruct (scan_stdout_version _ _ _ _ Hscan) as [Hv | (ln & Hin & Hvl & Hv)];
    rewrite Hver in Hv; [discriminate |]. injection Hv as ->.
  exists m, out, ln. rewrite Hrun. cbn [fst jobrec].
  finished_facts Hf. destruct Hf as (Hprov & _). rewrite Hprov.
  cbn [provenance set_provenance]. repeat split; auto. discriminate.
Qed.

(** C3, amended. After a successful computation the energy is the
    [Decimal] of the fifth token of an energy line of stdout, and
    [return_energy] (with the energy driver, also the returned scalar)
    is this energy; the fifth token of the line
    [   MP2D dispersion correction Eh   0   0   0   -0.001234] is [0],
    and the one of [   MP2D dispersion correction Eh   -0.001234] is
    [-0.001234]. *)
Theorem C3_energy_is_fifth_token (w : WORLD) :
  snd (run_json E w) = Ok tt ->
  (exists m out ln tok d,
      run_process E m = Ok out /\
      In ln (PyStr.splitlines (po_stdout out)) /\
      is_energy_line ln = true /\
      nth_error (PyStr.split ln) 4 = Some tok /\
      Dec.of_string tok = Some d /\
      properties_return_energy (jobrec (fst (run_json E w))) = Some (QDecimal d) /\
      (driver (jobrec w) = energy ->
       return_result (jobrec (fst (run_json E w))) = Some (QDecimal d))) /\
  energy_of_line "   MP2D dispersion correction Eh   0   0   0   -0.001234"
  = Ok (Dec.Finite false 0 0) /\
  energy_of_line "   MP2D dispersion correction Eh   -0.001234"
  = Ok (Dec.Finite true 1234 (-6)).
Proof.
  intros H. split; [| split; reflexivity].
  destruct (run_json_success E w H)
    as (m & out & le & vars & info & e & v & items & real
        & Hr & Hscan & Hene & Hver & Hsound & Hsub & Hlab & Hrun).
  destruct (scan_stdout_ene _ _ _ _ Hscan) as [He | (ln & d & Hin & _ & Hel & Hd & He)];
    rewrite Hene in He; [discriminate |]. injection He as ->.
  apply energy_of_line_token in Hd. destruct Hd as (tok & Htok & Hdec).
  exists m, out, ln, tok, d. rewrite Hrun. cbn [fst jobrec].
  finished_facts Hf. destruct Hf as (_ & _ & Hprop & _ & Hret). rewrite Hprop.
  repeat split; auto.
  intros Hdrv. apply Hret.
  cbn [driver set_provenance set_extras_qcvars set_stdout set_molecule_real
         set_extras_info].
  rewrite prepared_driver. exact Hdrv.
Qed.

End ResultTheorems.

(* ================================================================== *)
(** ** The properties on concrete requests *)

Module Scenarios.

Import Sample.

Example split_energy_line :
  PyStr.split energy_line = ["MP2D"; "dispersion"; "correction"; "Eh"; "-0.001234"].
Proof. reflexivity. Qed.

Example split_scenario_line :
  PyStr.split scenario_line
  = ["MP2D"; "dispersion"; "correction"; "Eh"; "0"; "0"; "0"; "-0.001234"].
Proof. reflexivity. Qed.

Example splitlines_crlf :
  PyStr.splitlines ("ab" ^^ String (ascii_of_nat 13) nl ^^ "cd" ^^ nl) = ["ab"; "cd"].
Proof. reflexivity. Qed.

Example replace_dashes : PyStr.replace "-" EmptyString "a-b--c" = "abc".
Proof. reflexivity. Qed.

Example version_of_version_line :
  version_of_line "MP2D dispersion correction v1.1 --" = "v1.1".
Proof. reflexivity. Qed.

Example decimal_of_energy :
  Dec.of_string "-0.001234" = Some (Dec.Finite true 1234 (-6)).
Proof. reflexivity. Qed.

Example decimal_with_exponent :
  Dec.of_string "1.5E-3" = Some (Dec.Finite false 15 (-4)).
Proof. reflexivity. Qed.

Example decimal_of_word : Dec.of_string "Eh" = None.
Proof. reflexivity. Qed.

(** A run reaches the process runner once, with the planned command. *)
Example successful_run_spawns_once :
  run_json scenario_externals scenario_world
  = (fst (run_json scenario_externals scenario_world), Ok tt) /\
  spawned (fst (run_json scenario_externals scenario_world))
  = [["mp2d"; "mp2d_geometry"; "--TT_a1=944E-3"; "--TT_a2=480E-3"; "--rcut=72E-2";
      "--w=20E-2"; "--s8=1187E-3"]].
Proof. split; vm_compute; reflexivity. Qed.

(** The guard of [run_json] looks at the order of the derivative: the
    driver [properties], of order 0, goes through to the process runner,
    and the record comes back without a returned result. *)
Example properties_driver_not_refused :
  snd (run_json scenario_externals
         (world (request "dmp2" properties [] ["He"; "He"] None)))
  = Ok tt /\
  length (spawned (fst (run_json scenario_externals
                          (world (request "dmp2" properties [] ["He"; "He"] None)))))
  = 1 /\
  return_result (jobrec (fst (run_json scenario_externals
                               (world (request "dmp2" properties [] ["He"; "He"] None)))))
  = None.
Proof. repeat split; vm_compute; reflexivity. Qed.

(** The gradient scenario of the specification: two real atoms and the
    file [0.0 0.0 0.01 0.0 0.0 -0.01]. *)
Example gradient_scenario :
  collect_gradient (answering [] None) gradient [true; true]
    (Some [[Dec.Finite false 0 (-1); Dec.Finite false 0 (-1); Dec.Finite false 1 (-2)];
           [Dec.Finite false 0 (-1); Dec.Finite false 0 (-1); Dec.Finite true 1 (-2)]])
  = Ok (Some [[Dec.Finite false 0 (-1); Dec.Finite false 0 (-1); Dec.Finite false 1 (-2)];
              [Dec.Finite false 0 (-1); Dec.Finite false 0 (-1); Dec.Finite true 1 (-2)]])
  /\ parse_gradient (answering [] None)
       (outcome [] (Some "0.0 0.0 0.01 0.0 0.0 -0.01")) 2
     = Ok (Some [[Dec.Finite false 0 (-1); Dec.Finite false 0 (-1); Dec.Finite false 1 (-2)];
                 [Dec.Finite false 0 (-1); Dec.Finite false 0 (-1); Dec.Finite true 1 (-2)]]).
Proof. split; reflexivity. Qed.

(** *** C1 *)

(** One real atom, the gradient driver, a stdout without any line and no
    gradient file: the scan ends without an energy, and the harvester
    raises its error of the gradient collection.  Two real atoms, the
    energy driver and a stdout that stops at the coordinates line
    without an energy line: the error is the one of the unassigned
    local. *)
Lemma C1_counterexample :
  (scan_stdout (PyStr.splitlines (po_stdout (outcome [] None)))
     {| version := None; ene := None |}
   = Ok (Exhausted, {| version := None; ene := None |}) /\
   np_sum [true] = 1 /\
   snd (mp2d_harvest (answering [] None) (outcome [] None)
          (planned gradient "mp2-dmp2" [true]))
   = Raise (UnknownError "Unsuccessful gradient collection.")) /\
  (scan_stdout
     (PyStr.splitlines (po_stdout (outcome [version_line; coordinates_line] None)))
     {| version := None; ene := None |}
   = Ok (Broken, {| version := Some "mp2d dispersion correction v1.1"; ene := None |}) /\
   snd (mp2d_harvest (answering [] None)
          (outcome [version_line; coordinates_line] None)
          (planned energy "mp2-dmp2" [true; true]))
   = Raise (UnboundLocalError "ene")).
Proof. repeat split; vm_compute; reflexivity. Qed.

Lemma C1_witness :
  mp2d_harvest (answering [] None) (outcome [version_line; energy_line] None)
    (planned energy "mp2-dmp2" [true; true])
  = (planned energy "mp2-dmp2" [true; true], Raise (UnknownError "Unknown issue occured."))
  /\ snd (mp2d_harvest (answering [] None) (outcome [] (Some "0 0 0"))
            (planned gradient "mp2-dmp2" [true]))
     <> Raise (UnknownError "Unknown issue occured.").
Proof.
  split.
  - apply (C1_scan_without_end_marker (answering [] None)
             (outcome [version_line; energy_line] None)
             (planned energy "mp2-dmp2" [true; true]) [true; true]
             {| version := Some "mp2d dispersion correction v1.1";
                ene := Some (Dec.Finite true 1234 (-6)) |});
      reflexivity.
  - apply (C1_scan_without_end_marker (answering [] None)
             (outcome [] (Some "0 0 0"))
             (planned gradient "mp2-dmp2" [true]) [true]
             {| version := None; ene := None |});
      reflexivity.
Defined.

(** *** C2 *)

Lemma C2_counterexample :
  snd (mp2d_plant (answering [] None)
         (request "dmp2" energy [("level_hint", "d3")] ["He"; "He"] None))
  = Raise (InputError "-D correction level d3 is not available. Choose among dict_keys(['s8', 'a1', 'a2', 'rcut', 'w']).")
  /\ exn_name (InputError "-D correction level d3 is not available. Choose among dict_keys(['s8', 'a1', 'a2', 'rcut', 'w']).")
     <> "ConfigurationError".
Proof. split; [vm_compute; reflexivity | discriminate]. Qed.

Lemma C2_witness :
  exists rest,
    snd (mp2d_driver (answering [] None)
           (world (request "dmp2" energy [("level_hint", "D3")] ["He"; "He"] None)))
    = Raise (InputError ("-D correction level d3 is not available. Choose among " ^^ rest))
    /\ spawned (fst (mp2d_driver (answering [] None)
                       (world (request "dmp2" energy [("level_hint", "D3")]
                                 ["He"; "He"] None))))
       = [].
Proof.
  destruct (C2_unsupported_level (answering [] None)
              (world (request "dmp2" energy [("level_hint", "D3")] ["He"; "He"] None))
              {| fctldash := "dmp2"; dashlevel := "D3"; dashparams := coefficients |}
              [true; true] eq_refl eq_refl)
    as (rest & _ & Hd & Hs).
  - vm_compute. discriminate.
  - exists rest. split; [exact Hd | exact Hs].
Defined.

(** *** C3 *)

(** The scenario of the specification: the fifth token of its line is
    [0], and so are the parsed energy and [return_energy]. *)
Lemma C3_counterexample :
  snd (run_json scenario_externals scenario_world) = Ok tt /\
  properties_return_energy (jobrec (fst (run_json scenario_externals scenario_world)))
  = Some (QDecimal (Dec.Finite false 0 0)) /\
  return_result (jobrec (fst (run_json scenario_externals scenario_world)))
  = Some (QDecimal (Dec.Finite false 0 0)) /\
  Dec.of_string "-0.001234" = Some (Dec.Finite true 1234 (-6)) /\
  Dec.Finite false 0 0 <> Dec.Finite true 1234 (-6).
Proof. repeat split; try (vm_compute; reflexivity). discriminate. Qed.

Lemma C3_witness :
  exists ln tok d,
    In ln [version_line; scenario_line; coordinates_line] /\
    is_energy_line ln = true /\
    nth_error (PyStr.split ln) 4 = Some tok /\
    Dec.of_string tok = Some d /\
    return_result (jobrec (fst (run_json scenario_externals scenario_world)))
    = Some (QDecimal d).
Proof.
  destruct (C3_energy_is_fifth_token scenario_externals scenario_world eq_refl)
    as [(m & out & ln & tok & d & Hr & Hin & Hl & Ht & Hd & _ & Hret) _].
  exists ln, tok, d. injection Hr as <-.
  repeat split; auto.
Defined.

(** *** C4 *)

Lemma C4_witness :
  exists fullgrad,
    length fullgrad = 3 /\
    nth_error fullgrad 0
    = Some [Dec.Finite false 0 (-1); Dec.Finite false 0 (-1); Dec.Finite false 1 (-2)] /\
    nth_error fullgrad 1 = Some [zero; zero; zero] /\
    nth_error fullgrad 2
    = Some [Dec.Finite false 0 (-1); Dec.Finite false 0 (-1); Dec.Finite true 1 (-2)] /\
    exists qcvars,
      extras_qcvars (fst (mp2d_harvest (answering [] None) gradient_outcome gradient_job))
      = Some qcvars /\
      Dict.get "DISPERSION CORRECTION GRADIENT" qcvars = Some (QList (concat fullgrad)).
Proof.
  destruct (C4_gradient_array (answering [] None) gradient_outcome gradient_job
              [true; false; true] "0.0 0.0 0.01 0.0 0.0 -0.01"
              eq_refl eq_refl eq_refl eq_refl)
    as (rows & fullgrad & _ & _ & Hlen & _ & Hzero & _ & Hreal & Hstored).
  exists fullgrad. split; [exact Hlen |]. split; [apply (Hreal 0 0); reflexivity |].
  split; [apply Hzero; reflexivity |]. split; [apply (Hreal 1 2); reflexivity |].
  apply Hstored. vm_compute. reflexivity.
Defined.

(** *** C5 *)

(** Two real atoms and the gradient driver.  Without a gradient file and
    with a stdout that has no coordinates line, the error is the one of
    the scan; with a gradient file that is there and empty, the error of
    the gradient collection is not raised. *)
Lemma C5_counterexample :
  Dict.get "mp2d_gradient" (po_outfiles (outcome [version_line; energy_line] None))
  = Some None /\
  mp2d_harvest (answering [] None) (outcome [version_line; energy_line] None)
    (planned gradient "mp2-dmp2" [true; true])
  = (planned gradient "mp2-dmp2" [true; true],
     Raise (UnknownError "Unknown issue occured."))
  /\ UnknownError "Unknown issue occured."
     <> UnknownError "Unsuccessful gradient collection."
  /\ snd (mp2d_harvest (answering [] None)
            (outcome [version_line; energy_line; coordinates_line] (Some EmptyString))
            (planned gradient "mp2-dmp2" [true; true]))
     <> Raise (UnknownError "Unsuccessful gradient collection.").
Proof.
  split; [reflexivity |]. split; [vm_compute; reflexivity |].
  split; [discriminate |]. vm_compute. discriminate.
Qed.

Lemma C5_witness :
  mp2d_harvest (answering [] None)
    (outcome [version_line; energy_line; coordinates_line] None)
    (planned gradient "mp2-dmp2" [true; true])
  = (planned gradient "mp2-dmp2" [true; true],
     Raise (UnknownError "Unsuccessful gradient collection."))
  /\ snd (mp2d_harvest (answering [] None)
            (outcome [version_line; energy_line; coordinates_line] (Some EmptyString))
            (planned gradient "mp2-dmp2" [true; true]))
     <> Raise (UnknownError "Unsuccessful gradient collection.").
Proof.
  split.
  - apply (proj1 (C5_gradient_not_collected (answering [] None)
                    (outcome [version_line; energy_line; coordinates_line] None)
                    (planned gradient "mp2-dmp2" [true; true]) eq_refl)
             [true; true] Broken
             {| version := Some "mp2d dispersion correction v1.1";
                ene := Some (Dec.Finite true 1234 (-6)) |});
      reflexivity.
  - apply (proj2 (C5_gradient_not_collected (answering [] None)
                    (outcome [version_line; energy_line; coordinates_line]
                       (Some EmptyString))
                    (planned gradient "mp2-dmp2" [true; true]) eq_refl)
             EmptyString).
    reflexivity.
Defined.

(** *** C6 and C10 *)


Lemma C10_witness :
  error (jobrec (fst (run_json scenario_externals
                        (world (request "dmp2" hessian [] ["He"; "He"] None)))))
  = Some ("input_error", "MP2D produces max gradient, not {jobrec['driver']}").
Proof.
  apply (C10_error_message_literal scenario_externals
           (world (request "dmp2" hessian [] ["He"; "He"] None))).
  exact (le_n 2).
Defined.

(** *** C7 *)

Lemma C7_witness :
  mp2d_plant scenario_externals gradient_request
  = (fst (mp2d_plant scenario_externals gradient_request), Ok gradient_plan)
  /\ exists a1 a2 rcut w s8,
      command gradient_plan
      = ["mp2d"; "mp2d_geometry"; "--gradient"; "--TT_a1=" ^^ render a1;
         "--TT_a2=" ^^ render a2; "--rcut=" ^^ render rcut; "--w=" ^^ render w;
         "--s8=" ^^ render s8].
Proof.
  split; [reflexivity |].
  destruct (C7_command_line scenario_externals gradient_request
              (fst (mp2d_plant scenario_externals gradient_request)) gradient_plan
              eq_refl)
    as (info & a1 & a2 & rcut & w & s8 & _ & _ & _ & _ & _ & _ & _ & Hc & _).
  exists a1, a2, rcut, w, s8. exact Hc.
Defined.

(** *** C8 *)

Lemma C8_witness :
  exists qcvars e,
    extras_qcvars (jobrec (fst (run_json scenario_externals scenario_world)))
    = Some qcvars /\
    Dict.get "DISPERSION CORRECTION ENERGY" qcvars = Some (QDecimal e) /\
    Dict.get "2-BODY DISPERSION CORRECTION ENERGY" qcvars = Some (QDecimal e) /\
    Dict.get "CURRENT ENERGY" qcvars = Some (QDecimal e) /\
    return_result (jobrec (fst (run_json scenario_externals scenario_world)))
    = Some (QDecimal e) /\
    Dict.get "DMP2 DISPERSION CORRECTION ENERGY" qcvars = Some (QDecimal e).
Proof.
  destruct (C8_energy_quantities scenario_externals scenario_world eq_refl)
    as (qcvars & info & e & Hq & Hinfo & H1 & H2 & H3 & _ & Hret & _ & Hlab).
  injection Hinfo as <-.
  exists qcvars, e. repeat split; auto.
  apply Hlab. discriminate.
Defined.

(** *** C9 *)

(** A stdout with the energy line and the coordinates line but without a
    version line: the computation fails on the unassigned local, it is
    marked unsuccessful, and the provenance is still the stamp. *)
Lemma C9_counterexample :
  scan_stdout (PyStr.splitlines (Sample.lines [energy_line; coordinates_line]))
    {| version := None; ene := None |}
  = Ok (Broken, {| version := None; ene := Some (Dec.Finite true 1234 (-6)) |}) /\
  snd (run_json (answering [energy_line; coordinates_line] None) scenario_world)
  = Raise (UnboundLocalError "version") /\
  success (jobrec (fst (run_json (answering [energy_line; coordinates_line] None)
                          scenario_world)))
  = false /\
  provenance (jobrec (fst (run_json (answering [energy_line; coordinates_line] None)
                             scenario_world)))
  = [("creator", "QCEngine"); ("version", "0.7.0");
     ("routine", "run_json.qcengine.programs.mp2d")].
Proof. repeat split; vm_compute; reflexivity. Qed.

Lemma C9_witness :
  exists ln,
    In ln [version_line; scenario_line; coordinates_line] /\
    is_version_line ln = true /\
    provenance (jobrec (fst (run_json scenario_externals scenario_world)))
    = [("creator", "mp2d"); ("routine", "mp2d_harvest");
       ("version", version_of_line ln)].
Proof.
  destruct (C9_provenance_of_harvester scenario_externals scenario_world eq_refl)
    as (m & out & ln & Hr & Hin & Hv & Hp & _).
  exists ln. injection Hr as <-. repeat split; auto.
Defined.

End Scenarios.

(* ================================================================== *)
(** ** More about the formatter and the planner *)

Section PlannerEdges.

Context {float KwVal MolBody Molrec : Type}.
Variable E : Externals float KwVal MolBody Molrec.

Local Abbreviation JobRec := (Jobrec float KwVal MolBody).
Local Abbreviation WORLD := (World float KwVal MolBody).

(** X1. For level [dmp2], a missing coefficient makes the formatter fail
    with the [KeyError] of the first one that is missing, in the order
    [a1], [a2], [rcut], [w], [s8]. *)
Theorem formatter_first_missing_key (lvl : string) (coeff : Dict.t float)
        (before after : list string) (k : string) :
  PyStr.lower lvl = "dmp2" ->
  required_coefficients = before ++ k :: after ->
  (forall k', In k' before -> Dict.get k' coeff <> None) ->
  Dict.get k coeff = None ->
  mp2d_coeff_formatter E lvl coeff = Raise (KeyError k).
Proof.
  intros Hl Hreq Hbefore Hk.
  unfold mp2d_coeff_formatter, Dict.getitem. rewrite Hl. cbn [String.eqb Ascii.eqb Bool.eqb].
  unfold required_coefficients in Hreq.
  assert (Hget : forall k', In k' before -> exists v, Dict.get k' coeff = Some v).
  { intros k' Hin. specialize (Hbefore k' Hin).
    destruct (Dict.get k' coeff) as [v|]; [now exists v | contradiction]. }
  destruct before as [|b1 before]; cbn [app] in Hreq.
  { injection Hreq as <- _. rewrite Hk. reflexivity. }
  injection Hreq as <- Hreq. destruct (Hget "a1" (or_introl eq_refl)) as [v1 ->].
  destruct before as [|b2 before]; cbn [app] in Hreq.
  { injection Hreq as <- _. cbn [rbind]. rewrite Hk. reflexivity. }
  injection Hreq as <- Hreq.
  destruct (Hget "a2" (or_intror (or_introl eq_refl))) as [v2 ->].
  destruct before as [|b3 before]; cbn [app] in Hreq.
  { injection Hreq as <- _. cbn [rbind]. rewrite Hk. reflexivity. }
  injection Hreq as <- Hreq.
  destruct (Hget "rcut" (or_intror (or_intror (or_introl eq_refl)))) as [v3 ->].
  destruct before as [|b4 before]; cbn [app] in Hreq.
  { injection Hreq as <- _. cbn [rbind]. rewrite Hk. reflexivity. }
  injection Hreq as <- Hreq.
  destruct (Hget "w" (or_intror (or_intror (or_intror (or_introl eq_refl))))) as [v4 ->].
  destruct before as [|b5 before]; cbn [app] in Hreq.
  { injection Hreq as <- _. cbn [rbind]. rewrite Hk. reflexivity. }
  injection Hreq as _ Hreq. destruct before; discriminate.
Qed.

(** X2. For level [dmp2] the arguments depend on the five coefficients
    only: the case of the level, other entries of the dictionary and the
    order of the entries do not matter. *)
Theorem formatter_reads_five_coefficients (lvl lvl' : string)
        (coeff coeff' : Dict.t float) :
  PyStr.lower lvl = "dmp2" ->
  PyStr.lower lvl' = "dmp2" ->
  (forall k, In k required_coefficients -> Dict.get k coeff = Dict.get k coeff') ->
  mp2d_coeff_formatter E lvl coeff = mp2d_coeff_formatter E lvl' coeff'.
Proof.
  intros Hl Hl' Hsame. unfold mp2d_coeff_formatter, Dict.getitem.
  rewrite Hl, Hl'. unfold required_coefficients in Hsame.
  rewrite (Hsame "a1"), (Hsame "a2"), (Hsame "rcut"), (Hsame "w"), (Hsame "s8");
    simpl; auto 10.
Qed.

(** What the planner does to the record and what it answers, stage by
    stage. *)
Lemma mp2d_plant_cases (j : JobRec) :
  mp2d_plant E j =
  match resolved E j with
  | Raise exc => (j, Raise exc)
  | Ok info =>
      match from_schema E (molecule j) with
      | Raise exc => (set_extras_info info j, Raise exc)
      | Ok molrec =>
          (set_molecule_real (molrec_real E molrec) (set_extras_info info j),
           match mp2d_coeff_formatter E (dashlevel info) (dashparams info) with
           | Ok args => Ok (plan_of E (driver j) molrec args)
           | Raise exc => Raise exc
           end)
      end
  end.
Proof.
  unfold mp2d_plant, resolved, plan_of, bind, get, lift, modify, ret.
  destruct (from_arrays E _ _ _ _) as [info|]; [| reflexivity].
  destruct (from_schema E (molecule j)) as [molrec|]; cbn [molecule set_extras_info];
    [| reflexivity].
  destruct (mp2d_coeff_formatter E _ _) as [args|]; reflexivity.
Qed.

(** Whatever its outcome, the planner changes nothing but the resolved
    parameters and the mask of real atoms. *)
Lemma mp2d_plant_keeps (j : JobRec) :
  let j' := fst (mp2d_plant E j) in
  provenance j' = provenance j /\ model_method j' = model_method j /\
  driver j' = driver j /\ keywords j' = keywords j /\
  mol_body (molecule j') = mol_body (molecule j) /\
  extras_qcvars j' = extras_qcvars j /\ stdout j' = stdout j /\
  success j' = success j /\ error j' = error j /\
  properties_return_energy j' = properties_return_energy j /\
  return_result j' = return_result j.
Proof.
  rewrite mp2d_plant_cases.
  destruct (resolved E j); [destruct (from_schema E (molecule j)) |]; repeat split.
Qed.

(** X3. The planner annotates the record as it goes, and a failure keeps
    what was annotated before it: a failing resolver leaves the record
    untouched; a failing molecule parser leaves the resolved parameters
    in [extras]; a failing formatter leaves the parameters and the mask
    of real atoms.  In every case the planner changes nothing but these
    two entries. *)
Theorem mp2d_plant_annotations (j : JobRec) :
  (forall exc, resolved E j = Raise exc -> mp2d_plant E j = (j, Raise exc)) /\
  (forall info exc,
      resolved E j = Ok info -> from_schema E (molecule j) = Raise exc ->
      mp2d_plant E j = (set_extras_info info j, Raise exc)) /\
  (forall info molrec exc,
      resolved E j = Ok info -> from_schema E (molecule j) = Ok molrec ->
      mp2d_coeff_formatter E (dashlevel info) (dashparams info) = Raise exc ->
      mp2d_plant E j
      = (set_molecule_real (molrec_real E molrec) (set_extras_info info j), Raise exc)) /\
  (let j' := fst (mp2d_plant E j) in
   provenance j' = provenance j /\ model_method j' = model_method j /\
   driver j' = driver j /\ keywords j' = keywords j /\
   mol_body (molecule j') = mol_body (molecule j) /\
   extras_qcvars j' = extras_qcvars j /\ stdout j' = stdout j /\
   success j' = success j /\ error j' = error j /\
   properties_return_energy j' = properties_return_energy j /\
   return_result j' = return_result j).
Proof.
  rewrite mp2d_plant_cases. repeat split.
  - intros exc ->. reflexivity.
  - intros info exc -> ->. reflexivity.
  - intros info molrec exc -> -> ->. reflexivity.
  - destruct (resolved E j); [destruct (from_schema E (molecule j)) |]; reflexivity.
  - destruct (resolved E j); [destruct (from_schema E (molecule j)) |]; reflexivity.
  - destruct (resolved E j); [destruct (from_schema E (molecule j)) |]; reflexivity.
  - destruct (resolved E j); [destruct (from_schema E (molecule j)) |]; reflexivity.
  - destruct (resolved E j); [destruct (from_schema E (molecule j)) |]; reflexivity.
  - destruct (resolved E j); [destruct (from_schema E (molecule j)) |]; reflexivity.
  - destruct (resolved E j); [destruct (from_schema E (molecule j)) |]; reflexivity.
  - destruct (resolved E j); [destruct (from_schema E (molecule j)) |]; reflexivity.
  - destruct (resolved E j); [destruct (from_schema E (molecule j)) |]; reflexivity.
  - destruct (resolved E j); [destruct (from_schema E (molecule j)) |]; reflexivity.
  - destruct (resolved E j); [destruct (from_schema E (molecule j)) |]; reflexivity.
Qed.

(** X4. Every plan, for the energy as for the gradient driver, has the
    geometry of the parsed molecule as its only input file, asks for the
    gradient file, passes [HOME] and [PATH] of the environment and
    nothing else, and the record then carries the mask of real atoms of
    the parsed molecule. *)
Theorem mp2d_plant_files_and_environment (j j1 : JobRec) (m : Modulerec) :
  mp2d_plant E j = (j1, Ok m) ->
  exists molrec,
    from_schema E (molecule j) = Ok molrec /\
    infiles m = [("mp2d_geometry", to_string E molrec)] /\
    outfiles m = ["mp2d_gradient"] /\
    env m = [("HOME", environ_get E "HOME"); ("PATH", environ_get E "PATH")] /\
    blocking_files m = None /\
    mol_real (molecule j1) = Some (molrec_real E molrec) /\
    (7 <= length (command m) <= 8).
Proof.
  rewrite mp2d_plant_cases.
  destruct (resolved E j) as [info|]; [| discriminate].
  destruct (from_schema E (molecule j)) as [molrec|]; [| discriminate].
  destruct (mp2d_coeff_formatter E _ _) as [args|] eqn:Hf; [| discriminate].
  intros [= <- <-]. exists molrec. repeat split.
  - apply mp2d_coeff_formatter_ok in Hf.
    destruct Hf as (_ & a1 & a2 & rcut & w & s8 & _ & _ & _ & _ & _ & ->).
    unfold plan_of. cbn [command]. destruct (driver_is (driver j) "gradient"); simpl; lia.
  - apply mp2d_coeff_formatter_ok in Hf.
    destruct Hf as (_ & a1 & a2 & rcut & w & s8 & _ & _ & _ & _ & _ & ->).
    unfold plan_of. cbn [command]. destruct (driver_is (driver j) "gradient"); simpl; lia.
Qed.

End PlannerEdges.

(* ================================================================== *)
(** ** More about the scan and the harvester *)

Lemma append_assoc (a b c : string) : (a ^^ b) ^^ c = a ^^ (b ^^ c).
Proof. induction a as [|x a IH]; cbn; [reflexivity | now rewrite IH]. Qed.

Section ScanEdges.

(** The scan of a text in two parts: the second part starts from what
    the first part assigned. *)
Lemma scan_stdout_app (pre post : list string) (v0 v : ScanVars) :
  scan_stdout pre v0 = Ok (Exhausted, v) ->
  scan_stdout (pre ++ post) v0 = scan_stdout post v.
Proof.
  revert v0. induction pre as [|ln pre IH]; cbn [app scan_stdout]; intros v0 H.
  - injection H as <-. reflexivity.
  - destruct (is_version_line ln); [now apply IH |].
    destruct (is_energy_line ln).
    + destruct (energy_of_line ln) as [d|e]; cbn [rbind] in *; [now apply IH | discriminate].
    + destruct (is_coordinates_line ln); [discriminate | now apply IH].
Qed.

(** A scan that was stopped has met a coordinates line. *)
Lemma scan_stdout_broken (lines : list string) (v0 v : ScanVars) :
  scan_stdout lines v0 = Ok (Broken, v) ->
  exists ln, In ln lines /\ is_coordinates_line ln = true.
Proof.
  revert v0. induction lines as [|l rest IH]; cbn [scan_stdout]; intros v0 H;
    [discriminate |].
  destruct (is_version_line l).
  { destruct (IH _ H) as (ln & Hin & Hc). exists ln. split; [now right | exact Hc]. }
  destruct (is_energy_line l).
  { destruct (energy_of_line l) as [d|e]; cbn [rbind] in H; [| discriminate].
    destruct (IH _ H) as (ln & Hin & Hc). exists ln. split; [now right | exact Hc]. }
  destruct (is_coordinates_line l) eqn:Hl.
  - exists l. split; [now left | exact Hl].
  - destruct (IH _ H) as (ln & Hin & Hc). exists ln. split; [now right | exact Hc].
Qed.

(** The only errors of the scan are the ones of an energy line. *)
Lemma scan_stdout_raise (lines : list string) (v0 : ScanVars) (exc : exn) :
  scan_stdout lines v0 = Raise exc ->
  exc = IndexError "list index out of range" \/ exc = InvalidOperation.
Proof.
  revert v0. induction lines as [|ln rest IH]; cbn [scan_stdout]; intros v0;
    [discriminate |].
  destruct (is_version_line ln); [apply IH |].
  destruct (is_energy_line ln).
  - unfold energy_of_line.
    destruct (nth_error (PyStr.split ln) 4) as [tok|]; cbn [rbind].
    + destruct (Dec.of_string tok); cbn [require rbind]; [apply IH |].
      intros [= <-]. now right.
    + intros [= <-]. now left.
  - destruct (is_coordinates_line ln); [discriminate | apply IH].
Qed.

(** X5. The scan stops at the first coordinates line: whatever follows
    it in stdout is not read, also lines that would not parse. *)
Theorem scan_stops_at_coordinates (pre post : list string) (ln : string)
        (v0 v : ScanVars) :
  scan_stdout pre v0 = Ok (Exhausted, v) ->
  is_version_line ln = false ->
  is_energy_line ln = false ->
  is_coordinates_line ln = true ->
  scan_stdout (pre ++ ln :: post) v0 = Ok (Broken, v).
Proof.
  intros Hpre Hv He Hc. rewrite (scan_stdout_app _ _ _ _ Hpre).
  cbn [scan_stdout]. rewrite Hv, He, Hc. reflexivity.
Qed.

(** X6. The last matching line wins: a version line replaces the version
    and keeps the energy, without its tokens being looked at; an energy
    line that is not a version line replaces the energy by the decimal
    of its fifth token and keeps the version. *)
Theorem scan_last_line_wins (pre : list string) (ln : string) (v0 v : ScanVars) :
  scan_stdout pre v0 = Ok (Exhausted, v) ->
  (is_version_line ln = true ->
   scan_stdout (pre ++ [ln]) v0
   = Ok (Exhausted, {| version := Some (version_of_line ln); ene := ene v |})) /\
  (forall d, is_version_line ln = false -> is_energy_line ln = true ->
             energy_of_line ln = Ok d ->
             scan_stdout (pre ++ [ln]) v0
             = Ok (Exhausted, {| version := version v; ene := Some d |})).
Proof.
  intros Hpre. rewrite (scan_stdout_app _ _ _ _ Hpre). cbn [scan_stdout]. split.
  - intros ->. reflexivity.
  - intros d -> -> ->. reflexivity.
Qed.

End ScanEdges.

Section HarvesterEdges.

Context {float KwVal MolBody Molrec : Type}.
Variable E : Externals float KwVal MolBody Molrec.

Local Abbreviation JobRec := (Jobrec float KwVal MolBody).

(** The harvester, stage by stage: every failure before the results are
    written leaves the record as it was. *)
Lemma mp2d_harvest_cases (m : ProcessOutcome) (j : JobRec) :
  mp2d_harvest E m j =
  match mol_real (molecule j) with
  | None => (j, Raise (KeyError "real"))
  | Some real =>
  match scan_stdout (PyStr.splitlines (po_stdout m)) {| version := None; ene := None |} with
  | Raise exc => (j, Raise exc)
  | Ok (le, vars) =>
  match scan_else le (np_sum real) (driver j) with
  | Raise exc => (j, Raise exc)
  | Ok _ =>
  match parse_gradient E m (np_sum real) with
  | Raise exc => (j, Raise exc)
  | Ok realgrad =>
  match collect_gradient E (driver j) real realgrad with
  | Raise exc => (j, Raise exc)
  | Ok fullgrad =>
  match extras_info j with
  | None => (j, Raise (KeyError "info"))
  | Some info =>
  match ene vars with
  | None => (j, Raise (UnboundLocalError "ene"))
  | Some e =>
  match harvest_items (driver j) (PyStr.upper (fctldash info)) e fullgrad with
  | Raise exc => (j, Raise exc)
  | Ok items =>
      let written :=
        set_extras_qcvars (harvested_qcvars items)
          (set_stdout
             (amalgamate m
                ^^ print_variables E
                     (Dict.of_items (map (fun info => (label info, info)) items)))
             j) in
      match version vars with
      | None => (written, Raise (UnboundLocalError "version"))
      | Some v =>
          (set_provenance
             [("creator", "mp2d"); ("routine", "mp2d_harvest"); ("version", v)] written,
           Ok tt)
      end
  end end end end end end end end.
Proof.
  unfold mp2d_harvest, harvest_items, harvested_qcvars, bind, get, lift, modify, ret.
  destruct (mol_real (molecule j)) as [real|]; cbn [require]; [| reflexivity].
  destruct (scan_stdout _ _) as [[le vars]|]; cbn [fst snd]; [| reflexivity].
  destruct (scan_else le (np_sum real) (driver j)) as [[]|]; [| reflexivity].
  destruct (parse_gradient E m (np_sum real)) as [realgrad|]; [| reflexivity].
  destruct (collect_gradient E (driver j) real realgrad) as [fullgrad|]; [| reflexivity].
  destruct (extras_info j) as [info|]; cbn [require]; [| reflexivity].
  destruct (ene vars) as [e|]; cbn [require]; [| reflexivity].
  destruct (driver_is (driver j) "gradient").
  - destruct fullgrad as [fg|]; cbn [require]; [| reflexivity].
    destruct (version vars); reflexivity.
  - destruct (version vars); reflexivity.
Qed.

(** Whatever its outcome, the harvester leaves the request itself alone. *)
Lemma mp2d_harvest_keeps (m : ProcessOutcome) (j : JobRec) :
  let j' := fst (mp2d_harvest E m j) in
  model_method j' = model_method j /\ driver j' = driver j /\
  keywords j' = keywords j /\ molecule j' = molecule j /\
  extras_info j' = extras_info j /\ success j' = success j /\
  error j' = error j /\
  properties_return_energy j' = properties_return_energy j /\
  return_result j' = return_result j.
Proof.
  rewrite mp2d_harvest_cases.
  destruct (mol_real (molecule j)) as [real|]; [| repeat split].
  destruct (scan_stdout _ _) as [[le vars]|]; [| repeat split].
  destruct (scan_else le (np_sum real) (driver j)) as [[]|]; [| repeat split].
  destruct (parse_gradient E m (np_sum real)) as [realgrad|]; [| repeat split].
  destruct (collect_gradient E (driver j) real realgrad) as [fullgrad|]; [| repeat split].
  destruct (extras_info j) as [info|] eqn:Hinfo; [| repeat split; auto].
  destruct (ene vars) as [e|]; [| repeat split; auto].
  destruct (harvest_items _ _ _ _) as [items|]; [| repeat split; auto].
  destruct (version vars); repeat split; auto.
Qed.

(** X7. An energy line (not a version line) met before any coordinates
    line and without a fifth token, or whose fifth token is not a
    decimal number, makes the harvester fail with [IndexError], or with
    [InvalidOperation], and the record stays as it was. *)
Theorem mp2d_harvest_bad_energy_line (m : ProcessOutcome) (j : JobRec)
        (real : list bool) (pre post : list string) (ln : string) (v : ScanVars) :
  mol_real (molecule j) = Some real ->
  PyStr.splitlines (po_stdout m) = pre ++ ln :: post ->
  scan_stdout pre {| version := None; ene := None |} = Ok (Exhausted, v) ->
  is_version_line ln = false ->
  is_energy_line ln = true ->
  (nth_error (PyStr.split ln) 4 = None ->
   mp2d_harvest E m j = (j, Raise (IndexError "list index out of range"))) /\
  (forall tok, nth_error (PyStr.split ln) 4 = Some tok -> Dec.of_string tok = None ->
               mp2d_harvest E m j = (j, Raise InvalidOperation)).
Proof.
  intros Hreal Hlines Hpre Hv He.
  rewrite mp2d_harvest_cases, Hreal, Hlines, (scan_stdout_app _ _ _ _ Hpre).
  cbn [scan_stdout]. rewrite Hv, He. unfold energy_of_line. split.
  - intros ->. reflexivity.
  - intros tok -> ->. reflexivity.
Qed.

(** A harvest that fails has kept the provenance. *)
Lemma mp2d_harvest_failure_provenance (m : ProcessOutcome) (j : JobRec) (exc : exn) :
  snd (mp2d_harvest E m j) = Raise exc ->
  provenance (fst (mp2d_harvest E m j)) = provenance j.
Proof.
  rewrite mp2d_harvest_cases.
  destruct (mol_real (molecule j)) as [real|]; [| reflexivity].
  destruct (scan_stdout _ _) as [[le vars]|]; [| reflexivity].
  destruct (scan_else le (np_sum real) (driver j)) as [[]|]; [| reflexivity].
  destruct (parse_gradient E m (np_sum real)) as [realgrad|]; [| reflexivity].
  destruct (collect_gradient E (driver j) real realgrad) as [fullgrad|]; [| reflexivity].
  destruct (extras_info j) as [info|]; [| reflexivity].
  destruct (ene vars) as [e|]; [| reflexivity].
  destruct (harvest_items _ _ _ _) as [items|]; [| reflexivity].
  cbv zeta. destruct (version vars); [discriminate | reflexivity].
Qed.

(** X8. A harvest that fails has not touched the provenance; it has
    written nothing at all, unless the failure is the version that no
    line assigned: then the text and the quantity map are already
    written. *)
Theorem mp2d_harvest_failure_writes (m : ProcessOutcome) (j : JobRec) (exc : exn) :
  snd (mp2d_harvest E m j) = Raise exc ->
  provenance (fst (mp2d_harvest E m j)) = provenance j /\
  (exc <> UnboundLocalError "version" -> fst (mp2d_harvest E m j) = j) /\
  (exc = UnboundLocalError "version" ->
   stdout (fst (mp2d_harvest E m j)) <> None /\
   extras_qcvars (fst (mp2d_harvest E m j)) <> None).
Proof.
  assert (Quiet : forall e0 : exn,
             e0 <> UnboundLocalError "version" ->
             snd (j, @Raise unit e0) = Raise exc ->
             provenance (fst (j, @Raise unit e0)) = provenance j /\
             (exc <> UnboundLocalError "version" -> fst (j, @Raise unit e0) = j) /\
             (exc = UnboundLocalError "version" ->
              stdout (fst (j, @Raise unit e0)) <> None /\
              extras_qcvars (fst (j, @Raise unit e0)) <> None)).
  { intros e0 Hne [= <-]. repeat split; auto; contradiction. }
  rewrite mp2d_harvest_cases.
  destruct (mol_real (molecule j)) as [real|]; [| apply Quiet; discriminate].
  destruct (scan_stdout _ _) as [[le vars]|e0] eqn:Hscan.
  2:{ apply Quiet. destruct (scan_stdout_raise _ _ _ Hscan) as [-> | ->]; discriminate. }
  destruct (scan_else le (np_sum real) (driver j)) as [[]|e0] eqn:Helse.
  2:{ apply Quiet. unfold scan_else in Helse. destruct le; [| discriminate].
      destruct (negb _); [| discriminate]. injection Helse as <-. discriminate. }
  destruct (parse_gradient E m (np_sum real)) as [realgrad|e0] eqn:Hparse.
  2:{ apply Quiet. unfold parse_gradient, Dict.getitem in Hparse.
      destruct (Dict.get "mp2d_gradient" (po_outfiles m)) as [[s|]|] eqn:Hg;
        cbn [rbind] in Hparse; try discriminate.
      - destruct (parse_gradient_present E m (np_sum real) s Hg)
          as [(rows & Hp' & _) | (msg & Hp')];
          unfold parse_gradient, Dict.getitem in Hp'; rewrite Hg in Hp';
          cbn [rbind] in Hp'; rewrite Hp' in Hparse; [discriminate |].
        injection Hparse as <-. discriminate.
      - injection Hparse as <-. discriminate. }
  destruct (collect_gradient E (driver j) real realgrad) as [fullgrad|e0] eqn:Hcollect.
  2:{ apply Quiet. destruct realgrad as [rows|].
      - destruct (collect_gradient_assigned E real (driver j) rows)
          as [[fg Hfg] | [msg Hmsg]]; rewrite Hcollect in *; [discriminate |].
        injection Hmsg as ->. discriminate.
      - unfold collect_gradient in Hcollect.
        destruct (driver_is (driver j) "gradient"); [| discriminate].
        cbn in Hcollect. injection Hcollect as <-. discriminate. }
  destruct (extras_info j) as [info|]; [| apply Quiet; discriminate].
  destruct (ene vars) as [e|]; [| apply Quiet; discriminate].
  destruct (harvest_items _ _ _ _) as [items|e0] eqn:Hitems.
  2:{ apply Quiet. unfold harvest_items in Hitems.
      destruct (driver_is (driver j) "gradient"); [| discriminate].
      destruct fullgrad; [discriminate |]. injection Hitems as <-. discriminate. }
  cbv zeta. destruct (version vars) as [v|]; cbn [fst snd]; [discriminate |].
  intros [= <-]. repeat split; try discriminate. intros Hne. now contradiction Hne.
Qed.

(** X9. A harvest that succeeds has written three entries of the record
    and nothing else: the text, which starts with the stdout of the
    process and its delimiter; the quantity map; the provenance. *)
Theorem mp2d_harvest_success_writes (m : ProcessOutcome) (j j' : JobRec) :
  mp2d_harvest E m j = (j', Ok tt) ->
  (exists text qcvars prov,
      j' = set_provenance prov (set_extras_qcvars qcvars (set_stdout text j)) /\
      PyStr.startswith (po_stdout m ^^ nl ^^ "  <<<  MP2D Results  >>>" ^^ nl) text
      = true).
Proof.
  intros Hh. apply mp2d_harvest_ok in Hh.
  destruct Hh as (real & le & vars & rg & fg & info & e & v & items
                  & _ & _ & _ & _ & _ & _ & _ & _ & _ & ->).
  eexists _, _, _. split; [reflexivity |].
  assert (Hpre : forall a b, PyStr.startswith a (a ^^ b) = true).
  { induction a as [|c a IH]; intros b; cbn; [reflexivity |].
    rewrite Ascii.eqb_refl. apply IH. }
  assert (Hfold : forall (files : Dict.t (option string)) (t0 : string),
             exists rest,
               fold_left
                 (fun text fc =>
                    match snd fc with
                    | Some contents =>
                        text ^^ nl ^^ "  MP2D scratch file " ^^ fst fc
                             ^^ " has been read." ^^ nl ^^ contents
                    | None => text
                    end) files t0
               = t0 ^^ rest).
  { induction files as [|[fl [c|]] files IH]; intros t0; cbn [fold_left fst snd].
    - exists EmptyString. now rewrite append_empty_r.
    - destruct (IH (t0 ^^ nl ^^ "  MP2D scratch file " ^^ fl ^^ " has been read."
                       ^^ nl ^^ c)) as [rest ->].
      eexists. rewrite append_assoc. reflexivity.
    - apply IH. }
  unfold amalgamate.
  destruct (Hfold (po_outfiles m)
              (po_stdout m ^^ nl ^^ "  <<<  MP2D Results  >>>" ^^ nl)) as [rest ->].
  rewrite append_assoc. apply Hpre.
Qed.

End HarvesterEdges.

Section HarvesterConditions.

Context {float KwVal MolBody Molrec : Type}.
Variable E : Externals float KwVal MolBody Molrec.

Local Abbreviation JobRec := (Jobrec float KwVal MolBody).

Lemma driver_is_gradient (d : DriverEnum) :
  driver_is d "gradient" = true <-> d = gradient.
Proof. destruct d; cbn; split; intros H; try reflexivity; discriminate. Qed.

Lemma driver_is_energy (d : DriverEnum) :
  driver_is d "energy" = true <-> d = energy.
Proof. destruct d; cbn; split; intros H; try reflexivity; discriminate. Qed.

(** X10. What a successful harvest has met: a mask of real atoms; a
    version line and an energy line in stdout; a coordinates line in
    stdout, unless there is exactly one real atom and the driver is the
    gradient; and, for the gradient driver, a gradient file. *)
Theorem mp2d_harvest_requires (m : ProcessOutcome) (j j' : JobRec) :
  mp2d_harvest E m j = (j', Ok tt) ->
  exists real,
    mol_real (molecule j) = Some real /\
    (exists ln, In ln (PyStr.splitlines (po_stdout m)) /\ is_version_line ln = true) /\
    (exists ln tok d,
        In ln (PyStr.splitlines (po_stdout m)) /\
        is_version_line ln = false /\ is_energy_line ln = true /\
        nth_error (PyStr.split ln) 4 = Some tok /\ Dec.of_string tok = Some d) /\
    ((exists ln, In ln (PyStr.splitlines (po_stdout m)) /\ is_coordinates_line ln = true)
     \/ (np_sum real = 1 /\ driver j = gradient)) /\
    (driver j = gradient ->
     exists s, Dict.get "mp2d_gradient" (po_outfiles m) = Some (Some s)).
Proof.
  intros Hh. apply mp2d_harvest_ok in Hh.
  destruct Hh as (real & le & vars & rg & fg & info & e & v & items
                  & Hreal & Hscan & Helse & Hparse & Hcollect & _ & Hene & Hver & _).
  exists real. split; [exact Hreal |]. split; [| split; [| split]].
  - destruct (scan_stdout_version _ _ _ _ Hscan) as [Hv | (ln & Hin & Hvl & _)];
      [cbn in Hv; congruence | now exists ln].
  - destruct (scan_stdout_ene _ _ _ _ Hscan) as [He | (ln & d & Hin & Hvl & Hel & Hd & _)];
      [cbn in He; congruence |].
    apply energy_of_line_token in Hd. destruct Hd as (tok & Htok & Hdec).
    exists ln, tok, d. auto.
  - destruct le.
    + right. unfold scan_else in Helse.
      destruct (Nat.eqb (np_sum real) 1 && driver_is (driver j) "gradient") eqn:Hdeg;
        [| discriminate].
      apply andb_prop in Hdeg. destruct Hdeg as [Hn Hd].
      split; [now apply Nat.eqb_eq | now apply driver_is_gradient].
    + left. eapply scan_stdout_broken; eauto.
  - intros Hd. apply driver_is_gradient in Hd.
    unfold parse_gradient, Dict.getitem in Hparse.
    destruct (Dict.get "mp2d_gradient" (po_outfiles m)) as [[s|]|];
      cbn [rbind] in Hparse; [now exists s | | discriminate].
    injection Hparse as <-.
    rewrite (collect_gradient_unassigned E real (driver j) Hd) in Hcollect. discriminate.
Qed.


End HarvesterConditions.

(* ================================================================== *)
(** ** More about the orchestrator *)

Section OrchestratorEdges.

Context {float KwVal MolBody Molrec : Type}.
Variable E : Externals float KwVal MolBody Molrec.

Local Abbreviation JobRec := (Jobrec float KwVal MolBody).
Local Abbreviation WORLD := (World float KwVal MolBody).

(** The driver, stage by stage. *)
Lemma mp2d_driver_cases (w : WORLD) :
  mp2d_driver E w =
  match mp2d_plant E (jobrec w) with
  | (j1, Raise exc) => ({| jobrec := j1; spawned := spawned w |}, Raise exc)
  | (j1, Ok m) =>
      match run_process E m with
      | Raise exc => ({| jobrec := j1; spawned := spawned w ++ [command m] |}, Raise exc)
      | Ok out =>
          ({| jobrec := fst (mp2d_harvest E out j1); spawned := spawned w ++ [command m] |},
           snd (mp2d_harvest E out j1))
      end
  end.
Proof.
  unfold mp2d_driver, module_driver, bind, on_jobrec, lift, modify, log_spawn.
  destruct (mp2d_plant E (jobrec w)) as [j1 [m|]]; cbn [jobrec spawned]; [| reflexivity].
  destruct (run_process E m) as [out|]; [| reflexivity].
  cbn [jobrec spawned]. destruct (mp2d_harvest E out j1); reflexivity.
Qed.

(** A driver that fails has kept the provenance, the method, the
    properties and the returned result it was given. *)
Lemma mp2d_driver_raise_keeps (w w1 : WORLD) (exc : exn) :
  mp2d_driver E w = (w1, Raise exc) ->
  provenance (jobrec w1) = provenance (jobrec w) /\
  model_method (jobrec w1) = model_method (jobrec w) /\
  properties_return_energy (jobrec w1) = properties_return_energy (jobrec w) /\
  return_result (jobrec w1) = return_result (jobrec w) /\
  (spawned w1 = spawned w \/
   exists j1 m, mp2d_plant E (jobrec w) = (j1, Ok m) /\
                spawned w1 = spawned w ++ [command m]) /\
  (forall e, snd (mp2d_plant E (jobrec w)) = Raise e -> spawned w1 = spawned w).
Proof.
  rewrite mp2d_driver_cases.
  pose proof (mp2d_plant_keeps E (jobrec w)) as Hkeep.
  cbv zeta in Hkeep.
  destruct Hkeep as (Hprov & Hm & _ & _ & _ & _ & _ & _ & _ & Hprop & Hret).
  destruct (mp2d_plant E (jobrec w)) as [j1 [m|e1]] eqn:Hp; cbn [fst snd] in *.
  - destruct (run_process E m) as [out|e2].
    + destruct (mp2d_harvest E out j1) as [j2 r] eqn:Hh. cbn [fst snd].
      intros [= <- ->]. cbn [jobrec spawned].
      pose proof (mp2d_harvest_failure_provenance E out j1) as Hfp.
      pose proof (mp2d_harvest_keeps E out j1) as Hk. cbv zeta in Hk.
      rewrite Hh in Hfp, Hk. cbn [fst snd] in Hfp, Hk.
      destruct Hk as (Hm2 & _ & _ & _ & _ & _ & _ & Hprop2 & Hret2).
      specialize (Hfp exc eq_refl).
      split; [congruence |]. split; [congruence |]. split; [congruence |].
      split; [congruence |]. split; [right; exists j1, m; auto | discriminate].
    + intros [= <- <-]. cbn [jobrec spawned].
      split; [congruence |]. split; [congruence |]. split; [congruence |].
      split; [congruence |]. split; [right; exists j1, m; auto | discriminate].
  - intros [= <- <-]. cbn [jobrec spawned]. repeat split; auto.
Qed.

End OrchestratorEdges.

Section OrchestratorOutcomes.

Context {float KwVal MolBody Molrec : Type}.
Variable E : Externals float KwVal MolBody Molrec.

Local Abbreviation JobRec := (Jobrec float KwVal MolBody).
Local Abbreviation WORLD := (World float KwVal MolBody).

Lemma prepared_fields (j : JobRec) :
  model_method (prepared E j)
  = (if PyStr.startswith "mp2d-" (model_method j)
     then substring 5 (String.length (model_method j)) (model_method j)
     else model_method j) /\
  properties_return_energy (prepared E j) = properties_return_energy j /\
  return_result (prepared E j) = return_result j.
Proof. unfold prepared. destruct (PyStr.startswith _ _); repeat split. Qed.

Lemma finished_method (j : JobRec) (q0 : Dict.t (qcval float)) (e : qcval float)
      (real : list bool) :
  model_method (finished j q0 e real) = model_method j.
Proof.
  unfold finished.
  destruct (driver_is (driver j) "energy"); [reflexivity |].
  destruct (driver_is (driver j) "gradient"); [| reflexivity].
  destruct (Dict.get _ _); reflexivity.
Qed.

(** Once the driver has returned, nothing in the rest of [run_json]
    fails. *)
Lemma run_json_completes (w w1 : WORLD) :
  derivative_int (driver (jobrec w)) <= 1 ->
  mp2d_driver E {| jobrec := prepared E (jobrec w); spawned := spawned w |} = (w1, Ok tt) ->
  snd (run_json E w) = Ok tt.
Proof.
  intros Hd Hdrv. rewrite (run_json_unfold E w Hd). cbv zeta. rewrite Hdrv.
  apply mp2d_driver_ok in Hdrv.
  destruct Hdrv as (j1 & m & out & j2 & _ & _ & Hh & ->).
  apply mp2d_harvest_ok in Hh.
  destruct Hh as (real & le & vars & rg & fg & info & e & v & items
                  & Hreal & _ & _ & _ & _ & _ & _ & _ & Hitems & ->).
  cbn [jobrec spawned extras_qcvars driver molecule mol_real set_success set_provenance
         set_extras_qcvars set_stdout set_properties set_return_result].
  assert (Hk1 : Dict.get "DISPERSION CORRECTION ENERGY" (harvested_qcvars items) <> None).
  { apply (harvested_In_get items
             {| label := "DISPERSION CORRECTION ENERGY"; units := "Eh";
                data := QDecimal e |}).
    destruct (driver_is (driver j1) "gradient").
    - destruct Hitems as (fg' & _ & ->). apply in_or_app. left. now left.
    - subst items. now left. }
  destruct (Dict.get "DISPERSION CORRECTION ENERGY" (harvested_qcvars items)) as [qe|];
    [| contradiction].
  destruct (driver_is (driver j1) "energy"); [rewrite Hreal; reflexivity |].
  destruct (driver_is (driver j1) "gradient"); [| rewrite Hreal; reflexivity].
  destruct Hitems as (fg' & _ & ->).
  rewrite DictFacts.get_set. cbn [String.eqb Ascii.eqb Bool.eqb].
  assert (Hg1 : Dict.get "DISPERSION CORRECTION GRADIENT"
                  (harvested_qcvars
                     (energy_data (PyStr.upper (fctldash info)) e
                        ++ gradient_data (PyStr.upper (fctldash info)) fg')) <> None).
  { apply (harvested_In_get _
             {| label := "DISPERSION CORRECTION GRADIENT"; units := "Eh/a0";
                data := QArray fg' |}).
    apply in_or_app. right. now left. }
  destruct (Dict.get "DISPERSION CORRECTION GRADIENT" _) as [g|]; [| contradiction].
  cbn [molecule mol_real set_return_result set_extras_qcvars set_properties].
  rewrite Hreal. reflexivity.
Qed.

(** How [run_json] fails: at its guard, or with the exception of the
    driver, after having recorded it. *)
Lemma run_json_raise (w : WORLD) (exc : exn) :
  snd (run_json E w) = Raise exc ->
  (1 < derivative_int (driver (jobrec w)) /\
   run_json E w =
     ({| jobrec := set_error "input_error"
                     "MP2D produces max gradient, not {jobrec['driver']}"
                     (set_success false (prepared E (jobrec w)));
         spawned := spawned w |}, Raise exc) /\
   exn_name exc = "InputError") \/
  (derivative_int (driver (jobrec w)) <= 1 /\
   exists w1,
     mp2d_driver E {| jobrec := prepared E (jobrec w); spawned := spawned w |}
     = (w1, Raise exc) /\
     run_json E w =
       ({| jobrec := set_error (exn_name exc) (format_exception E exc)
                       (set_success false (jobrec w1));
           spawned := spawned w1 |}, Raise exc)).
Proof.
  intros H.
  destruct (Nat.le_gt_cases (derivative_int (driver (jobrec w))) 1) as [Hd | Hd].
  - right. split; [exact Hd |].
    destruct (mp2d_driver E {| jobrec := prepared E (jobrec w); spawned := spawned w |})
      as [w1 [[]|e1]] eqn:Hdrv.
    + rewrite (run_json_completes w w1 Hd Hdrv) in H. discriminate.
    + exists w1. rewrite (run_json_unfold E w Hd) in *. cbv zeta in *.
      rewrite Hdrv in *. cbn [snd] in H. injection H as <-. auto.
  - left. split; [exact Hd |]. rewrite (run_json_refused E w Hd) in *.
    cbn [snd] in H. injection H as <-. auto.
Qed.

(** X12. The [success] entry of the record tells the outcome: it is
    true exactly when [run_json] returns, whatever it was on entry. *)
Theorem run_json_success_flag (w : WORLD) :
  success (jobrec (fst (run_json E w))) = true <-> snd (run_json E w) = Ok tt.
Proof.
  split.
  - intros Hs. destruct (snd (run_json E w)) as [[]|exc] eqn:Hr; [reflexivity |].
    exfalso.
    destruct (run_json_raise w exc Hr) as [(_ & Hrun & _) | (_ & w1 & _ & Hrun)];
      rewrite Hrun in Hs; discriminate.
  - intros Hok. apply run_json_ok in Hok.
    destruct Hok as (j1 & m & out & j2 & qcvars & e & real & _ & _ & _ & _ & _ & _ & _ & ->).
    cbn [fst jobrec]. apply finished_fields.
Qed.

(** X13. An exception that leaves [run_json] has been recorded first:
    [success] is false and [error] holds, for a failure of the driver,
    the class name of the exception and its trace, and for a refused
    driver the type [input_error] (while the exception raised is an
    [InputError]). *)
Theorem run_json_records_failure (w : WORLD) (exc : exn) :
  snd (run_json E w) = Raise exc ->
  success (jobrec (fst (run_json E w))) = false /\
  ((derivative_int (driver (jobrec w)) <= 1 /\
    error (jobrec (fst (run_json E w)))
    = Some (exn_name exc, format_exception E exc)) \/
   (1 < derivative_int (driver (jobrec w)) /\
    error (jobrec (fst (run_json E w)))
    = Some ("input_error", "MP2D produces max gradient, not {jobrec['driver']}") /\
    exn_name exc = "InputError")).
Proof.
  intros Hr.
  destruct (run_json_raise w exc Hr) as [(Hd & Hrun & Hn) | (Hd & w1 & _ & Hrun)];
    rewrite Hrun; cbn [fst jobrec]; split; try reflexivity.
  - right. auto.
  - left. auto.
Qed.

(** X14. A failed [run_json] leaves the stamp of the orchestrator as
    provenance, and the properties and the returned result the request
    came with. *)
Theorem run_json_failure_keeps (w : WORLD) (exc : exn) :
  snd (run_json E w) = Raise exc ->
  provenance (jobrec (fst (run_json E w)))
  = provenance_stamp E "run_json.qcengine.programs.mp2d" /\
  properties_return_energy (jobrec (fst (run_json E w)))
  = properties_return_energy (jobrec w) /\
  return_result (jobrec (fst (run_json E w))) = return_result (jobrec w).
Proof.
  intros Hr.
  destruct (prepared_fields (jobrec w)) as (_ & Hprop & Hret).
  destruct (run_json_raise w exc Hr) as [(Hd & Hrun & Hn) | (Hd & w1 & Hdrv & Hrun)];
    rewrite Hrun; cbn [fst jobrec provenance properties_return_energy return_result
                         set_error set_success].
  - rewrite prepared_provenance. auto.
  - apply mp2d_driver_raise_keeps in Hdrv. cbn [jobrec] in Hdrv.
    destruct Hdrv as (Hp & _ & Hprop1 & Hret1 & _).
    rewrite Hp, Hprop1, Hret1, prepared_provenance. auto.
Qed.

(** X15. On every path, refused, failed or successful, the method of the
    record that comes back is the method of the request without one
    leading engine hint [mp2d-]. *)
Theorem run_json_strips_engine_hint (w : WORLD) :
  model_method (jobrec (fst (run_json E w)))
  = (if PyStr.startswith "mp2d-" (model_method (jobrec w))
     then substring 5 (String.length (model_method (jobrec w))) (model_method (jobrec w))
     else model_method (jobrec w)).
Proof.
  destruct (prepared_fields (jobrec w)) as (<- & _ & _).
  destruct (snd (run_json E w)) as [[]|exc] eqn:Hr.
  - apply run_json_ok in Hr.
    destruct Hr as (j1 & m & out & j2 & qcvars & e & real & Hp & _ & Hh & _ & _ & _ & _ & ->).
    cbn [fst jobrec]. rewrite finished_method.
    pose proof (mp2d_harvest_keeps E out j1) as Hk. cbv zeta in Hk. rewrite Hh in Hk.
    cbn [fst] in Hk. destruct Hk as (-> & _).
    pose proof (mp2d_plant_keeps E (prepared E (jobrec w))) as Hk. cbv zeta in Hk.
    rewrite Hp in Hk. cbn [fst] in Hk. destruct Hk as (_ & -> & _). reflexivity.
  - destruct (run_json_raise w exc Hr) as [(Hd & Hrun & Hn) | (Hd & w1 & Hdrv & Hrun)];
      rewrite Hrun; cbn [fst jobrec model_method set_error set_success]; [reflexivity |].
    apply mp2d_driver_raise_keeps in Hdrv. cbn [jobrec] in Hdrv.
    destruct Hdrv as (_ & -> & _). reflexivity.
Qed.

(** X16. [run_json] hands a command to the process runner at most once:
    none for a refused driver or a failed plan, and otherwise the
    command of the plan, whether the run and the harvest then succeed
    or not. *)
Theorem run_json_spawns_once (w : WORLD) :
  spawned (fst (run_json E w))
  = (if Nat.ltb 1 (derivative_int (driver (jobrec w))) then spawned w
     else match snd (mp2d_plant E (prepared E (jobrec w))) with
          | Ok m => spawned w ++ [command m]
          | Raise _ => spawned w
          end).
Proof.
  destruct (Nat.ltb 1 (derivative_int (driver (jobrec w)))) eqn:Hlt.
  - apply Nat.ltb_lt in Hlt. rewrite (run_json_refused E w Hlt). reflexivity.
  - apply Nat.ltb_ge in Hlt.
    destruct (snd (run_json E w)) as [[]|exc] eqn:Hr.
    + apply run_json_ok in Hr.
      destruct Hr as (j1 & m & out & j2 & qcvars & e & real & -> & _ & _ & _ & _ & _ & _ & ->).
      reflexivity.
    + destruct (run_json_raise w exc Hr) as [(Hd & _) | (_ & w1 & Hdrv & Hrun)]; [lia |].
      rewrite Hrun. cbn [fst spawned].
      rewrite mp2d_driver_cases in Hdrv. cbn [jobrec spawned] in Hdrv.
      destruct (mp2d_plant E (prepared E (jobrec w))) as [j1 [m|e1]]; cbn [snd].
      * destruct (run_process E m) as [out|e2].
        -- injection Hdrv as <- _. reflexivity.
        -- injection Hdrv as <- _. reflexivity.
      * injection Hdrv as <- _. reflexivity.
Qed.

End OrchestratorOutcomes.

Section ResultShapes.

Context {float KwVal MolBody Molrec : Type}.
Variable E : Externals float KwVal MolBody Molrec.

Local Abbreviation JobRec := (Jobrec float KwVal MolBody).
Local Abbreviation WORLD := (World float KwVal MolBody).






(** What a successful computation went through, with the data it
    harvested. *)
Lemma run_json_success_items (w : WORLD) :
  snd (run_json E w) = Ok tt ->
  exists j1 m out real realgrad fullgrad info e v items,
    mp2d_plant E (prepared E (jobrec w)) = (j1, Ok m) /\
    run_process E m = Ok out /\
    mol_real (molecule j1) = Some real /\
    extras_info j1 = Some info /\
    parse_gradient E out (np_sum real) = Ok realgrad /\
    collect_gradient E (driver (jobrec w)) real realgrad = Ok fullgrad /\
    harvest_items (driver (jobrec w)) (PyStr.upper (fctldash info)) e fullgrad = Ok items /\
    run_json E w
    = ({| jobrec :=
            finished
              (set_provenance
                 [("creator", "mp2d"); ("routine", "mp2d_harvest"); ("version", v)]
                 (set_extras_qcvars (harvested_qcvars items)
                    (set_stdout
                       (amalgamate out
                          ^^ print_variables E
                               (Dict.of_items (map (fun info => (label info, info)) items)))
                       j1)))
              (harvested_qcvars items) (QDecimal e) real;
          spawned := spawned w ++ [command m] |}, Ok tt).
Proof.
  intros H. apply run_json_ok in H.
  destruct H as (j1 & m & out & j2 & qcvars & qe & real & Hp & Hr & Hh & Hq & Hk1 & Hreal
                 & _ & Hrun).
  assert (Hdrv : driver j1 = driver (jobrec w)).
  { pose proof (mp2d_plant_keeps E (prepared E (jobrec w))) as Hk. cbv zeta in Hk.
    rewrite Hp in Hk. cbn [fst] in Hk. destruct Hk as (_ & _ & -> & _).
    apply prepared_driver. }
  rewrite mp2d_harvest_cases in Hh.
  destruct (mol_real (molecule j1)) as [real'|] eqn:Hreal'; [| discriminate].
  destruct (scan_stdout _ _) as [[le vars]|]; [| discriminate].
  destruct (scan_else le (np_sum real') (driver j1)) as [[]|]; [| discriminate].
  destruct (parse_gradient E out (np_sum real')) as [realgrad|] eqn:Hparse; [| discriminate].
  destruct (collect_gradient E (driver j1) real' realgrad) as [fullgrad|] eqn:Hcollect;
    [| discriminate].
  destruct (extras_info j1) as [info|] eqn:Hinfo; [| discriminate].
  destruct (ene vars) as [e|]; [| discriminate].
  destruct (harvest_items _ _ _ _) as [items|] eqn:Hitems; [| discriminate].
  cbv zeta in Hh. destruct (version vars) as [v|]; [| discriminate].
  injection Hh as <-.
  cbn [mol_real molecule extras_qcvars set_provenance set_extras_qcvars set_stdout] in *.
  rewrite Hreal' in Hreal. injection Hreal as <-. injection Hq as <-.
  assert (Hqe : qe = QDecimal e).
  { destruct (harvested_get_In _ _ _ Hk1) as (i & Hi & Hl & ->).
    unfold harvest_items in Hitems.
    destruct (driver_is (driver j1) "gradient").
    - destruct fullgrad as [fg|]; [| discriminate]. injection Hitems as <-.
      destruct (in_app_or (energy_data (PyStr.upper (fctldash info)) e)
                  (gradient_data (PyStr.upper (fctldash info)) fg) i Hi) as [Hi' | Hi'];
        clear Hi; rename Hi' into Hi.
      + destruct (energy_data_label _ _ _ Hi) as [_ ->]. reflexivity.
      + destruct (gradient_data_sound _ e fg i Hi) as [[_ Hdat] | [Ht _]];
          [rewrite Hdat; reflexivity | rewrite Hl in Ht; vm_compute in Ht; discriminate].
    - injection Hitems as <-.
      destruct (energy_data_label _ _ _ Hi) as [_ ->]. reflexivity. }
  subst qe. rewrite Hdrv in *.
  exists j1, m, out, real', realgrad, fullgrad, info, e, v, items.
  repeat split; auto.
Qed.


(** X18. After a successful computation with the energy driver, every
    entry of the quantity map is the parsed energy, and so is the
    returned result: no gradient is stored, even when the process wrote
    a gradient file. *)
Theorem run_json_energy_only (w : WORLD) :
  snd (run_json E w) = Ok tt ->
  driver (jobrec w) = energy ->
  exists qcvars e,
    extras_qcvars (jobrec (fst (run_json E w))) = Some qcvars /\
    return_result (jobrec (fst (run_json E w))) = Some (QDecimal e) /\
    (forall k v, Dict.get k qcvars = Some v -> v = QDecimal e).
Proof.
  intros H Hd.
  destruct (run_json_success_items w H)
    as (j1 & m & out & real & rg & fullgrad & info & e & v & items
        & Hp & Hr & Hreal & Hinfo & Hparse & Hcollect & Hitems & Hrun).
  rewrite Hrun. cbn [fst jobrec]. rewrite Hd in *.
  assert (Heq : items = energy_data (PyStr.upper (fctldash info)) e).
  { change (Ok (energy_data (PyStr.upper (fctldash info)) e) = Ok items) in Hitems.
    congruence. }
  clear Hitems.
  assert (Hdj : driver j1 = energy).
  { pose proof (mp2d_plant_keeps E (prepared E (jobrec w))) as Hk. cbv zeta in Hk.
    rewrite Hp in Hk. cbn [fst] in Hk. destruct Hk as (_ & _ & -> & _).
    rewrite prepared_driver. exact Hd. }
  unfold finished. cbn [driver set_provenance set_extras_qcvars set_stdout].
  rewrite Hdj. cbn [driver_is driver_value String.eqb Ascii.eqb Bool.eqb].
  cbn [extras_qcvars return_result set_molecule_real set_return_result set_extras_qcvars
         set_properties set_success].
  eexists _, e. split; [reflexivity |]. split; [reflexivity |].
  intros k x. rewrite DictFacts.get_set.
  destruct (String.eqb k "CURRENT ENERGY"); [now intros [= <-] |].
  intros Hx. destruct (harvested_get_In _ _ _ Hx) as (i & Hi & _ & ->).
  rewrite Heq in Hi. destruct (energy_data_label _ _ _ Hi) as [_ ->]. reflexivity.
Qed.

End ResultShapes.

(* ================================================================== *)
(** ** The harness class: version cache and [compute] *)

Section HarnessClassFacts.

Context {float KwVal MolBody Molrec R : Type}.
Variable E : Externals float KwVal MolBody Molrec.
Variable H : HostExternals float KwVal MolBody R.

Local Abbreviation JobRec := (Jobrec float KwVal MolBody).

Lemma found_installed (path : string) (raise_error : bool) :
  which_mp2d H = Some path -> found H raise_error = Ok true.
Proof. intros Hw. unfold found, which. rewrite Hw. reflexivity. Qed.

Lemma found_missing :
  which_mp2d H = None ->
  found H true
  = Raise (Foreign "ModuleNotFoundError"
             (not_found_text H (Some "Please install via `conda install mp2d -c psi4`"))).
Proof. intros Hw. unfold found, which. rewrite Hw. reflexivity. Qed.

(** X19. A version that is in the cache is answered from the cache: no
    version query is run and the host stays as it is. *)
Theorem get_version_cached (h : Host) (path v : string) :
  which_mp2d H = Some path ->
  Dict.get path (version_cache h) = Some v ->
  get_version H h = (h, Ok v).
Proof.
  intros Hw Hc. unfold get_version, bind, lift, get, modify, ret.
  rewrite (found_installed path true Hw). unfold which. rewrite Hw.
  rewrite Hc. unfold Dict.getitem. rewrite Hc. reflexivity.
Qed.

(** With the executable installed, [get_version] answers, and what it
    answers is then in the cache. *)
Lemma get_version_installed (h : Host) (path : string) :
  which_mp2d H = Some path ->
  exists h' v,
    get_version H h = (h', Ok v) /\ Dict.get path (version_cache h') = Some v.
Proof.
  intros Hw. unfold get_version, bind, lift, get, modify, ret.
  rewrite (found_installed path true Hw). unfold which. rewrite Hw.
  destruct (Dict.get path (version_cache h)) as [v|] eqn:Hc.
  - exists h, v. unfold Dict.getitem. rewrite Hc. auto.
  - cbn [version_cache cache_set log_probe]. unfold Dict.getitem.
    rewrite DictFacts.get_set, String.eqb_refl. eexists _, _. split; [reflexivity |].
    cbn [version_cache cache_set log_probe].
    rewrite DictFacts.get_set, String.eqb_refl. reflexivity.
Qed.

(** X20. A version that is not in the cache is asked of the executable,
    once, with [--version]; the stripped answer goes through
    [safe_version] into the cache under the path of the executable,
    the entries of other paths stay, and the next call is answered from
    the cache with the same version. *)
Theorem get_version_fills_cache (h : Host) (path : string) :
  which_mp2d H = Some path ->
  Dict.get path (version_cache h) = None ->
  let v := safe_version H (PyStr.strip (probe_stdout H [path; "--version"])) in
  let h' := fst (get_version H h) in
  get_version H h = (h', Ok v) /\
  probed h' = probed h ++ [[path; "--version"]] /\
  Dict.get path (version_cache h') = Some v /\
  (forall other, other <> path ->
                 Dict.get other (version_cache h') = Dict.get other (version_cache h)) /\
  get_version H h' = (h', Ok v).
Proof.
  intros Hw Hc v h'.
  assert (Hrun : get_version H h
                 = (cache_set path v (log_probe [path; "--version"] h), Ok v)).
  { unfold get_version, bind, lift, get, modify, ret.
    rewrite (found_installed path true Hw). unfold which. rewrite Hw, Hc.
    cbn [version_cache cache_set log_probe]. unfold Dict.getitem.
    rewrite DictFacts.get_set, String.eqb_refl. reflexivity. }
  subst h'. rewrite Hrun. cbn [fst].
  assert (Hget : Dict.get path
                   (version_cache (cache_set path v (log_probe [path; "--version"] h)))
                 = Some v).
  { cbn [version_cache cache_set log_probe]. rewrite DictFacts.get_set, String.eqb_refl.
    reflexivity. }
  repeat split.
  - exact Hget.
  - intros other Hne. cbn [version_cache cache_set log_probe].
    rewrite DictFacts.get_set. apply String.eqb_neq in Hne. rewrite Hne. reflexivity.
  - unfold get_version, bind, lift, get, modify, ret.
    rewrite (found_installed path true Hw). unfold which. rewrite Hw, Hget.
    unfold Dict.getitem. rewrite Hget. reflexivity.
Qed.

(** X21. Without the executable, [compute] raises the error of [which]
    at once: no version query, no computation, and the machine stays as
    it is. *)
Theorem compute_program_missing (input_data : JobRec) (s : Machine) :
  which_mp2d H = None ->
  compute E H input_data s
  = (s, Raise (Foreign "ModuleNotFoundError"
                 (not_found_text H
                    (Some "Please install via `conda install mp2d -c psi4`")))).
Proof.
  intros Hw. unfold compute, bind, lift. rewrite (found_missing Hw). reflexivity.
Qed.

(** X22. With an executable the engine finds too old, [compute] raises
    [ResourceError] with the version [get_version] answers in its
    message, and hands no command to the process runner. *)
Theorem compute_program_too_old (input_data : JobRec) (s : Machine)
        (path : string) (h1 : Host) :
  which_mp2d H = Some path ->
  is_program_new_enough H "mp2d" "1.1" (host s) = (h1, Ok false) ->
  exists h2 v,
    get_version H h1 = (h2, Ok v) /\
    compute E H input_data s
    = ({| host := h2; jobs := jobs s |},
       Raise (Foreign "ResourceError"
                ("MP2D version '" ^^ v ^^ "' too old. Please update to at least '1.1'."))).
Proof.
  intros Hw Hnew.
  destruct (get_version_installed h1 path Hw) as (h2 & v & Hv & _).
  exists h2, v. split; [exact Hv |].
  unfold compute, bind, lift, on_host, raise.
  rewrite (found_installed path true Hw), Hnew. cbn [host jobs negb].
  rewrite Hv. reflexivity.
Qed.

(** A [run_json] that returns has marked the record successful. *)
Lemma run_json_ok_success (w : World float KwVal MolBody) :
  snd (run_json E w) = Ok tt -> success (jobrec (fst (run_json E w))) = true.
Proof.
  intros Hok. apply run_json_ok in Hok.
  destruct Hok as (j1 & m & out & j2 & qcvars & e & real & _ & _ & _ & _ & _ & _ & _ & ->).
  cbn [fst jobrec]. apply finished_fields.
Qed.

(** X23. [compute] never answers with a [FailedOperation]: when it
    returns, it returns the [Result] made of the record [run_json]
    returned, which is marked successful; every failure leaves it as an
    exception. *)
Theorem compute_never_failed_operation (input_data : JobRec) (s : Machine)
        (out : ComputeOutput float KwVal MolBody R) :
  snd (compute E H input_data s) = Ok out ->
  exists r w,
    out = IsResult r /\
    run_json E {| jobrec := set_success false input_data; spawned := jobs s |}
    = (w, Ok tt) /\
    success (jobrec w) = true /\
    make_Result H (jobrec w) = Ok r /\
    jobs (fst (compute E H input_data s)) = spawned w.
Proof.
  unfold compute, bind, lift, on_host, raise, ret, run_json_on.
  destruct (found H true) as [b|]; [| discriminate].
  destruct (is_program_new_enough H "mp2d" "1.1" (host s)) as [h1 [new_enough|]];
    [| discriminate].
  destruct new_enough; cbn [negb host jobs].
  - destruct (run_json E {| jobrec := set_success false input_data; spawned := jobs s |})
      as [w [[]|exc]] eqn:Hrun; cbn [fst snd host jobs]; [| discriminate].
    assert (Hs : success (jobrec w) = true).
    { pose proof (run_json_ok_success
                    {| jobrec := set_success false input_data; spawned := jobs s |}) as Hs.
      rewrite Hrun in Hs. now apply Hs. }
    rewrite Hs. destruct (make_Result H (jobrec w)) as [r|] eqn:Hres; [| discriminate].
    cbn [fst snd host jobs]. intros [= <-]. exists r, w. auto.
  - destruct (get_version H h1) as [h2 [v|]]; discriminate.
Qed.

End HarnessClassFacts.

(* ================================================================== *)
(** ** The further properties on concrete requests *)

Module MoreScenarios.

Import Sample.
Import SampleHost.

Lemma formatter_first_missing_key_witness :
  mp2d_coeff_formatter scenario_externals "DMP2" [("a1", zero); ("rcut", zero)]
  = Raise (KeyError "a2").
Proof.
  apply (formatter_first_missing_key scenario_externals "DMP2"
           [("a1", zero); ("rcut", zero)] ["a1"] ["rcut"; "w"; "s8"] "a2").
  - reflexivity.
  - reflexivity.
  - intros k' [<- | []]. discriminate.
  - reflexivity.
Defined.

Lemma formatter_reads_five_coefficients_witness :
  mp2d_coeff_formatter scenario_externals "dmp2" coefficients
  = mp2d_coeff_formatter scenario_externals "DMP2"
      (("s9", zero) :: rev coefficients).
Proof.
  apply (formatter_reads_five_coefficients scenario_externals "dmp2" "DMP2"
           coefficients (("s9", zero) :: rev coefficients)).
  - reflexivity.
  - reflexivity.
  - intros k [<- | [<- | [<- | [<- | [<- | []]]]]]; reflexivity.
Defined.

Lemma mp2d_plant_files_and_environment_witness :
  exists molrec,
    from_schema scenario_externals (molecule gradient_request) = Ok molrec /\
    infiles gradient_plan = [("mp2d_geometry", to_string scenario_externals molrec)] /\
    outfiles gradient_plan = ["mp2d_gradient"] /\
    env gradient_plan = [("HOME", None); ("PATH", None)] /\
    length (command gradient_plan) = 8.
Proof.
  destruct (mp2d_plant_files_and_environment scenario_externals gradient_request
              (fst (mp2d_plant scenario_externals gradient_request)) gradient_plan eq_refl)
    as (molrec & Hs & Hi & Ho & He & _).
  exists molrec. repeat split; assumption.
Defined.

Lemma scan_stops_at_coordinates_witness :
  scan_stdout ([version_line; energy_line]
                 ++ coordinates_line :: ["   MP2D dispersion correction Eh"])
    {| version := None; ene := None |}
  = Ok (Broken, {| version := Some "mp2d dispersion correction v1.1";
                   ene := Some (Dec.Finite true 1234 (-6)) |}).
Proof.
  apply (scan_stops_at_coordinates [version_line; energy_line]
           ["   MP2D dispersion correction Eh"] coordinates_line);
    reflexivity.
Defined.

Lemma scan_last_line_wins_witness :
  scan_stdout ([version_line; energy_line] ++ [scenario_line])
    {| version := None; ene := None |}
  = Ok (Exhausted, {| version := Some "mp2d dispersion correction v1.1";
                      ene := Some (Dec.Finite false 0 0) |}).
Proof.
  apply (proj2 (scan_last_line_wins [version_line; energy_line] scenario_line
                  {| version := None; ene := None |}
                  {| version := Some "mp2d dispersion correction v1.1";
                     ene := Some (Dec.Finite true 1234 (-6)) |} eq_refl));
    reflexivity.
Defined.

Lemma mp2d_harvest_bad_energy_line_witness :
  mp2d_harvest scenario_externals
    (outcome [version_line; "   MP2D dispersion correction Eh"; coordinates_line] None)
    (planned energy "mp2-dmp2" [true; true])
  = (planned energy "mp2-dmp2" [true; true], Raise (IndexError "list index out of range"))
  /\ mp2d_harvest scenario_externals
       (outcome [version_line; "   MP2D dispersion correction Eh   n/a"; coordinates_line]
          None)
       (planned energy "mp2-dmp2" [true; true])
     = (planned energy "mp2-dmp2" [true; true], Raise InvalidOperation).
Proof.
  split.
  - apply (proj1 (mp2d_harvest_bad_energy_line scenario_externals
                    (outcome [version_line; "   MP2D dispersion correction Eh";
                              coordinates_line] None)
                    (planned energy "mp2-dmp2" [true; true]) [true; true]
                    [version_line] [coordinates_line] "   MP2D dispersion correction Eh"
                    {| version := Some "mp2d dispersion correction v1.1"; ene := None |}
                    eq_refl eq_refl eq_refl eq_refl eq_refl)).
    reflexivity.
  - apply (proj2 (mp2d_harvest_bad_energy_line scenario_externals
                    (outcome [version_line; "   MP2D dispersion correction Eh   n/a";
                              coordinates_line] None)
                    (planned energy "mp2-dmp2" [true; true]) [true; true]
                    [version_line] [coordinates_line]
                    "   MP2D dispersion correction Eh   n/a"
                    {| version := Some "mp2d dispersion correction v1.1"; ene := None |}
                    eq_refl eq_refl eq_refl eq_refl eq_refl) "n/a");
      reflexivity.
Defined.

Lemma mp2d_harvest_failure_writes_witness :
  provenance (fst (mp2d_harvest scenario_externals
                     (outcome [energy_line; coordinates_line] None)
                     (planned energy "mp2-dmp2" [true; true])))
  = provenance (planned energy "mp2-dmp2" [true; true])
  /\ stdout (fst (mp2d_harvest scenario_externals
                    (outcome [energy_line; coordinates_line] None)
                    (planned energy "mp2-dmp2" [true; true]))) <> None
  /\ fst (mp2d_harvest scenario_externals (outcome [coordinates_line] None)
            (planned energy "mp2-dmp2" [true; true]))
     = planned energy "mp2-dmp2" [true; true].
Proof.
  destruct (mp2d_harvest_failure_writes scenario_externals
              (outcome [energy_line; coordinates_line] None)
              (planned energy "mp2-dmp2" [true; true])
              (UnboundLocalError "version") eq_refl) as (Hp & _ & Hv).
  destruct (mp2d_harvest_failure_writes scenario_externals
              (outcome [coordinates_line] None)
              (planned energy "mp2-dmp2" [true; true])
              (UnboundLocalError "ene") eq_refl) as (_ & Hq & _).
  split; [exact Hp |]. split; [exact (proj1 (Hv eq_refl)) |].
  apply Hq. discriminate.
Defined.

Lemma mp2d_harvest_success_writes_witness :
  exists text qcvars prov,
    fst (mp2d_harvest scenario_externals gradient_outcome gradient_job)
    = set_provenance prov (set_extras_qcvars qcvars (set_stdout text gradient_job)) /\
    PyStr.startswith (po_stdout gradient_outcome ^^ nl ^^ "  <<<  MP2D Results  >>>" ^^ nl)
      text = true.
Proof.
  apply (mp2d_harvest_success_writes scenario_externals gradient_outcome gradient_job
           (fst (mp2d_harvest scenario_externals gradient_outcome gradient_job))).
  reflexivity.
Defined.

Lemma mp2d_harvest_requires_witness :
  exists s, Dict.get "mp2d_gradient" (po_outfiles gradient_outcome) = Some (Some s).
Proof.
  destruct (mp2d_harvest_requires scenario_externals gradient_outcome gradient_job
              (fst (mp2d_harvest scenario_externals gradient_outcome gradient_job))
              eq_refl) as (real & _ & _ & _ & _ & Hfile).
  apply Hfile. reflexivity.
Defined.


Lemma run_json_records_failure_witness :
  success (jobrec (fst (run_json (answering [energy_line; coordinates_line] None)
                          scenario_world))) = false /\
  error (jobrec (fst (run_json (answering [energy_line; coordinates_line] None)
                        scenario_world)))
  = Some ("UnboundLocalError", "UnboundLocalError").
Proof.
  destruct (run_json_records_failure (answering [energy_line; coordinates_line] None)
              scenario_world (UnboundLocalError "version") eq_refl)
    as [Hs [[_ He] | [Hlt _]]].
  - split; [exact Hs | exact He].
  - exfalso. exact (Nat.nle_succ_0 _ Hlt).
Defined.

Lemma run_json_failure_keeps_witness :
  provenance (jobrec (fst (run_json (answering [energy_line; coordinates_line] None)
                             scenario_world)))
  = [("creator", "QCEngine"); ("version", "0.7.0");
     ("routine", "run_json.qcengine.programs.mp2d")] /\
  return_result (jobrec (fst (run_json (answering [energy_line; coordinates_line] None)
                                scenario_world)))
  = None.
Proof.
  destruct (run_json_failure_keeps (answering [energy_line; coordinates_line] None)
              scenario_world (UnboundLocalError "version") eq_refl) as (Hp & _ & Hr).
  split; [exact Hp | exact Hr].
Defined.


Lemma run_json_energy_only_witness :
  exists qcvars e,
    extras_qcvars (jobrec (fst (run_json scenario_externals scenario_world)))
    = Some qcvars /\
    return_result (jobrec (fst (run_json scenario_externals scenario_world)))
    = Some (QDecimal e) /\
    (forall k v, Dict.get k qcvars = Some v -> v = QDecimal e).
Proof.
  exact (run_json_energy_only scenario_externals scenario_world eq_refl eq_refl).
Defined.

Lemma get_version_cached_witness :
  get_version (installed "1.2" true)
    {| version_cache := [("/opt/bin/mp2d", "1.1")]; probed := [] |}
  = ({| version_cache := [("/opt/bin/mp2d", "1.1")]; probed := [] |}, Ok "1.1").
Proof.
  apply (get_version_cached (installed "1.2" true)
           {| version_cache := [("/opt/bin/mp2d", "1.1")]; probed := [] |}
           "/opt/bin/mp2d" "1.1");
    reflexivity.
Defined.

Lemma get_version_fills_cache_witness :
  snd (get_version (installed " 1.1 " true) fresh) = Ok "1.1" /\
  probed (fst (get_version (installed " 1.1 " true) fresh))
  = [["/opt/bin/mp2d"; "--version"]] /\
  get_version (installed " 1.1 " true)
    (fst (get_version (installed " 1.1 " true) fresh))
  = (fst (get_version (installed " 1.1 " true) fresh), Ok "1.1").
Proof.
  destruct (get_version_fills_cache (installed " 1.1 " true) fresh "/opt/bin/mp2d"
              eq_refl eq_refl) as (Hrun & Hp & _ & _ & Hagain).
  split; [rewrite Hrun; reflexivity |]. split; [exact Hp | exact Hagain].
Defined.

Lemma compute_program_missing_witness :
  compute scenario_externals missing (request "dmp2" energy [] ["He"; "He"] None) machine
  = (machine, Raise (Foreign "ModuleNotFoundError"
                       "Command 'mp2d' not found in envvar PATH.")).
Proof.
  apply (compute_program_missing scenario_externals missing
           (request "dmp2" energy [] ["He"; "He"] None) machine).
  reflexivity.
Defined.

Lemma compute_program_too_old_witness :
  snd (compute scenario_externals (installed "1.0" false)
         (request "dmp2" energy [] ["He"; "He"] None) machine)
  = Raise (Foreign "ResourceError"
             "MP2D version '1.0' too old. Please update to at least '1.1'.")
  /\ jobs (fst (compute scenario_externals (installed "1.0" false)
                  (request "dmp2" energy [] ["He"; "He"] None) machine))
     = [].
Proof.
  destruct (compute_program_too_old scenario_externals (installed "1.0" false)
              (request "dmp2" energy [] ["He"; "He"] None) machine
              "/opt/bin/mp2d" fresh eq_refl eq_refl) as (h2 & v & Hv & Hc).
  rewrite Hc. injection Hv as _ <-. split; reflexivity.
Defined.

Lemma compute_never_failed_operation_witness :
  exists r,
    snd (compute scenario_externals (installed "1.1" true)
           (request "dmp2" energy [] ["He"; "He"] None) machine)
    = Ok (IsResult r) /\
    success r = true.
Proof.
  assert (Hc : snd (compute scenario_externals (installed "1.1" true)
                      (request "dmp2" energy [] ["He"; "He"] None) machine)
               = Ok (IsResult
                       (jobrec (fst (run_json scenario_externals
                                       (world (set_success false
                                                 (request "dmp2" energy [] ["He"; "He"]
                                                    None)))))))).
  { vm_compute. reflexivity. }
  destruct (compute_never_failed_operation scenario_externals (installed "1.1" true)
              (request "dmp2" energy [] ["He"; "He"] None) machine _ Hc)
    as (r & w & Hout & _ & Hs & Hres & _).
  exists r. split; [rewrite Hc, Hout; reflexivity |].
  cbn [make_Result installed] in Hres. injection Hres as <-. exact Hs.
Defined.

End MoreScenarios.
